(** * NETAI chatbot: telemetry diagnostics and conversation context

    A shallow embedding of the diagnostics and context engine of the
    chatbot (perfSONAR path health, traceroute analysis, anomaly
    detection, prompt selection, conversation store) together with the
    properties its specification states about them.

    Python values are modelled as follows.
    - [float] is the kernel's binary64 type, so comparisons and the
      subtraction of two round-trip times are the IEEE operations;
    - [str] is [string], the sequence of the UTF-8 code units of the
      text; [int] is [Z], [list] is [list];
    - [dict[str, V]] is [gmap string V];
    - [X | None] is [option X];
    - a raised exception is the [Err] case of [Result]. *)

From Stdlib Require Import ZArith Floats Ascii String List Sorted Permutation DecimalString.
From stdpp Require Import gmap strings list.

Local Open Scope Z_scope.

(** ** Python built-ins used by the code *)

Module Py.

(** Exceptions the modelled code can raise. *)
Inductive Exception : Type :=
| KeyError (key : string)
| IndexError
| RuntimeError (what : string)
| AttributeError (what : string)
| OverflowError (what : string).

Inductive Result (A : Type) : Type :=
| Ok (value : A)
| Err (e : Exception).
Arguments Ok {A} value.
Arguments Err {A} e.

(** Sequencing: the first exception raised ends the computation.  With
    these instances stdpp's [x ← r; k] reads as a Python statement
    sequence. *)
#[export] Instance Result_ret : MRet Result := fun A a => Ok a.
#[export] Instance Result_bind : MBind Result := fun A B k r =>
  match r with
  | Ok a => k a
  | Err e => Err e
  end.

(** [d[key]] on a dict: a missing key raises [KeyError]. *)
Definition getitem {V : Type} (d : gmap string V) (key : string) : Result V :=
  match d !! key with
  | Some v => Ok v
  | None => Err (KeyError key)
  end.

(** [l[i]] on a list with a non-negative literal index. *)
Definition list_getitem {A : Type} (l : list A) (i : nat) : Result A :=
  match l !! i with
  | Some v => Ok v
  | None => Err IndexError
  end.

(** Truth value of a float: everything except [0.0] and [-0.0] (a NaN
    is true). *)
Definition float_truthy (x : float) : bool := negb (PrimFloat.eqb x 0%float).

(** Truth value of [x] for [x : float | None]. *)
Definition opt_float_truthy (x : option float) : bool :=
  match x with
  | Some v => float_truthy v
  | None => false
  end.

(** Truth value of a string: non-empty. *)
Definition str_truthy (s : string) : bool :=
  match s with
  | EmptyString => false
  | String _ _ => true
  end.

(** Truth value of [s] for [s : str | None]. *)
Definition opt_str_truthy (s : option string) : bool :=
  match s with
  | Some v => str_truthy v
  | None => false
  end.

(** [a or b] on strings. *)
Definition str_or (a b : string) : string := if str_truthy a then a else b.

(** [x > y], [x < y], [x >= y] on floats. *)
Definition float_gt (x y : float) : bool := PrimFloat.ltb y x.
Definition float_lt (x y : float) : bool := PrimFloat.ltb x y.
Definition float_ge (x y : float) : bool := PrimFloat.leb y x.

(** [l[i:]]: a negative start counts from the end, and the start is
    clamped to the bounds of the list. *)
Definition slice_from {A : Type} (i : Z) (l : list A) : list A :=
  let n := Z.of_nat (length l) in
  let start := if i <? 0 then Z.max (i + n) 0 else Z.min i n in
  drop (Z.to_nat start) l.

(** [list(enumerate(l))]. *)
Definition enumerate {A : Type} (l : list A) : list (nat * A) :=
  imap (fun i x => (i, x)) l.

(** [list.sort(key=...)]: ascending by key and stable.  The model is
    insertion of each element in front of the sorted rest, ahead of
    the first element whose key is not smaller; elements with equal
    keys therefore keep their order.  The result of a stable sort is
    determined by the list and the key ([stable_sort_unique] below), so
    the list is the one the library's own algorithm produces. *)
Fixpoint insert_by {A : Type} (key : A -> Z) (x : A) (l : list A) : list A :=
  match l with
  | [] => [x]
  | y :: l' => if key x <=? key y then x :: l else y :: insert_by key x l'
  end.

Definition sort_by {A : Type} (key : A -> Z) (l : list A) : list A :=
  foldr (insert_by key) [] l.

(** [str.lower()] and [str.upper()].  In the UTF-8 code units of a
    text an ASCII character is one unit below 128 and any other
    character is a run of units from 128 up, so a keyword of ASCII
    characters occurs in a text exactly when its units occur in the
    units of the text.

    Both methods turn an ASCII letter into its ASCII counterpart
    wherever it stands and keep every other ASCII character.  What they
    make of the other characters is read from the Unicode database of
    the interpreter, which is no part of the program: the result can be
    ASCII (the Kelvin sign is lowered to k, the ligature of f and i is
    raised to FI), can be longer than the character, and can depend on
    the neighbours (a capital sigma).  The database is an input here:
    [lower_other s i] and [upper_other s i] are the text that the unit
    at index [i] of [s] contributes when it is not ASCII. *)
Class Unicode : Type := {
  lower_other : string -> nat -> string;
  upper_other : string -> nat -> string
}.

Definition is_ascii (c : ascii) : bool := (nat_of_ascii c <? 128)%nat.

Definition lower_ascii (c : ascii) : ascii :=
  let n := nat_of_ascii c in
  if (65 <=? n)%nat && (n <=? 90)%nat then ascii_of_nat (n + 32) else c.

Fixpoint lower_from {U : Unicode} (whole : string) (i : nat) (s : string)
    : string :=
  match s with
  | EmptyString => EmptyString
  | String c s' =>
      if is_ascii c then String (lower_ascii c) (lower_from whole (S i) s')
      else lower_other whole i +:+ lower_from whole (S i) s'
  end.

Definition lower {U : Unicode} (s : string) : string := lower_from s 0 s.

(** The text whose units are those of [s] under [f], and the test that
    every unit of [s] passes [p]. *)
Fixpoint map_units (f : ascii -> ascii) (s : string) : string :=
  match s with
  | EmptyString => EmptyString
  | String c s' => String (f c) (map_units f s')
  end.

Fixpoint all_units (p : ascii -> bool) (s : string) : bool :=
  match s with
  | EmptyString => true
  | String c s' => p c && all_units p s'
  end.

(** A text of ASCII characters only, and one of ASCII characters none
    of which is a capital letter, as every keyword of the classifier
    is. *)
Definition ascii_text (s : string) : bool := all_units is_ascii s.

Definition lowercase_text (s : string) : bool :=
  all_units (fun c => is_ascii c && Ascii.eqb (lower_ascii c) c) s.

(** A database under which every character beyond ASCII is its own
    lower and upper case, as the characters of a script without case
    are. *)
Definition unit_at (s : string) (i : nat) : string :=
  match String.get i s with
  | Some c => String c EmptyString
  | None => EmptyString
  end.

Definition caseless : Unicode :=
  {| lower_other := unit_at; upper_other := unit_at |}.

(** A database that knows one cased character beyond ASCII, the Kelvin
    sign U+212A, whose three units are lowered to the letter k. *)
Definition kelvin_sign : string :=
  String (ascii_of_nat 226) (String (ascii_of_nat 132)
    (String (ascii_of_nat 170) EmptyString)).

Definition sign_at (s : string) (i : nat) : bool :=
  String.eqb (String.substring i 3 s) kelvin_sign.

Definition with_kelvin : Unicode :=
  {| lower_other := fun s i =>
       if sign_at s i then "k"
       else if ((1 <=? i)%nat && sign_at s (i - 1))
               || ((2 <=? i)%nat && sign_at s (i - 2)) then ""
       else unit_at s i;
     upper_other := unit_at |}.

(** [kw in s] on strings: [kw] occurs in [s] as a contiguous run. *)
Fixpoint contains (kw s : string) : bool :=
  String.prefix kw s ||
  match s with
  | EmptyString => false
  | String _ s' => contains kw s'
  end.

(** [any(kw in s for kw in kws)]. *)
Definition any_in (kws : list string) (s : string) : bool :=
  existsb (fun kw => contains kw s) kws.

End Py.

Import Py.

(** ** diagnostics/perfsonar.py *)

Module Perfsonar.

Inductive MeasurementType : Type := THROUGHPUT | LATENCY | TRACE | RTT.

Record PerfSONARMeasurement : Type := {
  test_type : MeasurementType;
  source : string;
  destination : string;
  timestamp : Z;
  value : float;
  unit : string;
  metadata : gmap string string
}.

(** The fields [source] and [destination] of [NetworkPath] are
    [path_source] and [path_destination] here. *)
Record NetworkPath : Type := {
  path_source : string;
  path_destination : string;
  throughput_gbps : option float;
  latency_ms : option float;
  packet_loss_pct : option float;
  jitter_ms : option float;
  retransmits_pct : option float;
  hop_count : option Z;
  last_updated : option Z
}.

(** [NetworkPath.health_status]. Each test is
    [self.field and self.field <cmp> constant]. *)
Definition health_status (self : NetworkPath) : string :=
  if opt_float_truthy (packet_loss_pct self)
     && from_option (fun v => float_gt v 1.0%float) false (packet_loss_pct self)
  then "critical"
  else if opt_float_truthy (packet_loss_pct self)
          && from_option (fun v => float_gt v 0.5%float) false (packet_loss_pct self)
  then "degraded"
  else if opt_float_truthy (latency_ms self)
          && from_option (fun v => float_gt v 100%float) false (latency_ms self)
  then "warning"
  else if opt_float_truthy (throughput_gbps self)
          && from_option (fun v => float_lt v 1.0%float) false (throughput_gbps self)
  then "warning"
  else "healthy".

(** The status as the specification words it: a rule is triggered by
    a present value that passes its comparison, a missing value
    triggers nothing, and the rules are tried in the order critical,
    degraded, warning. *)
Definition triggers (field : option float) (test : float -> bool) : bool :=
  match field with
  | Some v => test v
  | None => false
  end.

Definition precedence_status (p : NetworkPath) : string :=
  if triggers (packet_loss_pct p) (fun v => float_gt v 1.0%float) then "critical"
  else if triggers (packet_loss_pct p) (fun v => float_gt v 0.5%float) then "degraded"
  else if triggers (latency_ms p) (fun v => float_gt v 100%float)
          || triggers (throughput_gbps p) (fun v => float_lt v 1.0%float)
  then "warning"
  else "healthy".

(** A path that reports a throughput of zero and nothing else wrong. *)
Definition stalled_path : NetworkPath :=
  {| path_source := "a"; path_destination := "b";
     throughput_gbps := Some 0%float;
     latency_ms := Some 20%float;
     packet_loss_pct := Some 0%float;
     jitter_ms := None; retransmits_pct := None;
     hop_count := None; last_updated := None |}.

(** A path between a and b with the given throughput, latency and
    packet loss and nothing else measured. *)
Definition measured (thr lat loss : option float) : NetworkPath :=
  {| path_source := "a"; path_destination := "b";
     throughput_gbps := thr; latency_ms := lat; packet_loss_pct := loss;
     jitter_ms := None; retransmits_pct := None;
     hop_count := None; last_updated := None |}.

End Perfsonar.

(** ** diagnostics/traceroute.py *)

Module Traceroute.

Record TracerouteHop : Type := {
  hop_number : Z;
  ip_address : string;
  hostname : option string;
  rtt_ms : option float;
  asn : option Z;
  location : option string;
  is_responding : bool
}.

Record TracerouteResult : Type := {
  source : string;
  destination : string;
  timestamp : Z;
  hops : list TracerouteHop;
  completed : bool
}.

Definition hop_count (self : TracerouteResult) : nat := length (hops self).

(** [TracerouteResult.total_rtt_ms]: the round-trip time of
    [self.hops[-1]] when the list is non-empty and that value is
    true. *)
Definition total_rtt_ms (self : TracerouteResult) : option float :=
  match last (hops self) with
  | Some h => if opt_float_truthy (rtt_ms h) then rtt_ms h else None
  | None => None
  end.

(** The test of the [elif] branch for the hop at index [i]; [prev] is
    [self.hops[i - 1]], which is only read when [i > 0]. *)
Definition latency_jump (all_hops : list TracerouteHop) (i : nat)
    (hop : TracerouteHop) : bool :=
  (0 <? i)%nat
  && opt_float_truthy (rtt_ms hop)
  && match all_hops !! (i - 1)%nat with
     | Some prev =>
         opt_float_truthy (rtt_ms prev)
         && match rtt_ms hop, rtt_ms prev with
            | Some r, Some p => float_gt (PrimFloat.sub r p) 20%float
            | _, _ => false
            end
     | None => false
     end.

(** One iteration of the loop body over [enumerate(self.hops)]. *)
Definition problematic_step (all_hops : list TracerouteHop)
    (problems : list TracerouteHop) (entry : nat * TracerouteHop)
    : list TracerouteHop :=
  let '(i, hop) := entry in
  if negb (is_responding hop) then problems ++ [hop]
  else if latency_jump all_hops i hop then problems ++ [hop]
  else problems.

(** [TracerouteResult.problematic_hops]. *)
Definition problematic_hops (self : TracerouteResult) : list TracerouteHop :=
  fold_left (problematic_step (hops self)) (enumerate (hops self)) [].

(** The rule as the specification words it: a hop is problematic if
    it does not respond, or if it responds and its round-trip time
    minus that of the hop just before it exceeds 20 ms.  The hop at
    index 0 has no hop before it. *)
Definition rtt_delta_exceeds (prev hop : TracerouteHop) : bool :=
  match rtt_ms hop, rtt_ms prev with
  | Some r, Some p => float_gt (PrimFloat.sub r p) 20%float
  | _, _ => false
  end.

Definition problematic_by_rule (all_hops : list TracerouteHop) (i : nat)
    (hop : TracerouteHop) : bool :=
  negb (is_responding hop)
  || (is_responding hop
      && match i with
         | O => false
         | S j => match all_hops !! j with
                  | Some prev => rtt_delta_exceeds prev hop
                  | None => false
                  end
         end).

(** The total as the specification words it: the round-trip time of
    the last hop that responds. *)
Definition last_responding_rtt (self : TracerouteResult) : option float :=
  match last (List.filter is_responding (hops self)) with
  | Some h => rtt_ms h
  | None => None
  end.

(** The condition under which the loop appends the hop at index [i]. *)
Definition flagged (all_hops : list TracerouteHop) (entry : nat * TracerouteHop)
    : bool :=
  negb (is_responding (snd entry)) || latency_jump all_hops (fst entry) (snd entry).

(** A gateway that answers in under the clock's resolution, followed
    by a hop 25 ms away. *)
Definition near_gateway : TracerouteHop :=
  {| hop_number := 1; ip_address := "10.0.1.1"; hostname := None;
     rtt_ms := Some 0%float; asn := None; location := None;
     is_responding := true |}.

Definition far_hop : TracerouteHop :=
  {| hop_number := 2; ip_address := "198.17.46.1"; hostname := None;
     rtt_ms := Some 25%float; asn := None; location := None;
     is_responding := true |}.

Definition jump_after_zero : TracerouteResult :=
  {| source := "a"; destination := "b"; timestamp := 0;
     hops := [near_gateway; far_hop]; completed := true |}.

(** A trace whose last hop stays silent after a responding one. *)
Definition silent_tail : TracerouteResult :=
  {| source := "a"; destination := "b"; timestamp := 0;
     hops := [ {| hop_number := 1; ip_address := "10.0.1.1"; hostname := None;
                  rtt_ms := Some 5%float; asn := None; location := None;
                  is_responding := true |};
               {| hop_number := 2; ip_address := "198.17.46.1"; hostname := None;
                  rtt_ms := None; asn := None; location := None;
                  is_responding := false |} ];
     completed := true |}.

(** A trace of one hop that answers in under the clock's resolution. *)
Definition instant_trace : TracerouteResult :=
  {| source := "a"; destination := "b"; timestamp := 0;
     hops := [near_gateway]; completed := true |}.


End Traceroute.

(** ** diagnostics/anomaly.py *)

Module Anomaly.

Import Perfsonar.

Inductive AnomalySeverity : Type := LOW | MEDIUM | HIGH | CRITICAL.

Inductive AnomalyType : Type :=
| THROUGHPUT_DROP
| LATENCY_SPIKE
| PACKET_LOSS
| JITTER_INCREASE
| PATH_CHANGE
| LINK_FLAP.

#[export] Instance AnomalySeverity_eq_dec : EqDecision AnomalySeverity.
Proof. solve_decision. Defined.

(** The fields [source], [destination] and [unit] of [Anomaly] carry
    the prefix [a_] here. *)
Record Anomaly : Type := {
  anomaly_type : AnomalyType;
  severity : AnomalySeverity;
  a_source : string;
  a_destination : string;
  description : string;
  detected_at : Z;
  current_value : float;
  baseline_value : float;
  threshold : float;
  a_unit : string
}.

(** The library functions the detectors call: [statistics.mean],
    [statistics.stdev], [round(x, ndigits)] and the [:.Nf] format of
    an f-string.  The two statistics can raise: [statistics.stdev]
    raises [AttributeError] on a list that holds an infinity or a NaN,
    and a conversion of the exact result back to [float] can raise
    [OverflowError]. *)
Class Runtime : Type := {
  mean : list float -> Result float;
  stdev : list float -> Result float;
  round : float -> Z -> float;
  format_f : nat -> float -> string
}.

Definition DEFAULT_THRESHOLDS : gmap string float :=
  <["throughput_drop_pct" := 20%float]>
  (<["latency_spike_pct" := 50%float]>
  (<["packet_loss_pct" := 0.5%float]>
  (<["jitter_ms" := 10%float]> ∅))).

Record AnomalyDetector : Type := { thresholds : gmap string float }.

(** [AnomalyDetector.__init__]: [thresholds or DEFAULT_THRESHOLDS]; an
    empty dict is false. *)
Definition init (given : option (gmap string float)) : AnomalyDetector :=
  match given with
  | Some t => if decide (size t = 0%nat) then {| thresholds := DEFAULT_THRESHOLDS |}
              else {| thresholds := t |}
  | None => {| thresholds := DEFAULT_THRESHOLDS |}
  end.

(** [AnomalyDetector._classify_severity]. *)
Definition _classify_severity (deviation_pct : float) (ths : list float)
    : Result AnomalySeverity :=
  t2 ← list_getitem ths 2;
  if float_ge deviation_pct t2 then Ok CRITICAL else
  t1 ← list_getitem ths 1;
  if float_ge deviation_pct t1 then Ok HIGH else
  t0 ← list_getitem ths 0;
  if float_ge deviation_pct t0 then Ok MEDIUM else
  Ok LOW.

Section Detectors.
Context {rt : Runtime}.

(** Body of the loop of [detect_throughput_anomalies] for one
    measurement: the anomaly appended, if any. *)
Definition throughput_check (mean_val stdev_val threshold_pct : float)
    (src dst : string) (m : PerfSONARMeasurement) : Result (option Anomaly) :=
  let drop_pct :=
    if float_gt mean_val 0%float
    then PrimFloat.mul (PrimFloat.div (PrimFloat.sub mean_val (value m)) mean_val) 100%float
    else 0%float in
  let z_score :=
    if float_gt stdev_val 0%float
    then PrimFloat.div (PrimFloat.sub (value m) mean_val) stdev_val
    else 0%float in
  if float_gt drop_pct threshold_pct || float_lt z_score (-2)%float then
    sev ← _classify_severity drop_pct [20%float; 40%float; 60%float];
    Ok (Some {|
      anomaly_type := THROUGHPUT_DROP;
      severity := sev;
      a_source := str_or src (source m);
      a_destination := str_or dst (destination m);
      description :=
        "Throughput dropped " +:+ format_f 1 drop_pct +:+ "% below baseline ("
        +:+ format_f 2 (value m) +:+ " Gbps vs " +:+ format_f 2 mean_val
        +:+ " Gbps baseline). Z-score: " +:+ format_f 2 z_score;
      detected_at := timestamp m;
      current_value := round (value m) 2;
      baseline_value := round mean_val 2;
      threshold :=
        round (PrimFloat.mul mean_val
                 (PrimFloat.sub 1%float (PrimFloat.div threshold_pct 100%float))) 2;
      a_unit := "Gbps"
    |})
  else Ok None.

(** Body of the loop of [detect_latency_anomalies]. *)
Definition latency_check (mean_val stdev_val threshold_pct : float)
    (src dst : string) (m : PerfSONARMeasurement) : Result (option Anomaly) :=
  let spike_pct :=
    if float_gt mean_val 0%float
    then PrimFloat.mul (PrimFloat.div (PrimFloat.sub (value m) mean_val) mean_val) 100%float
    else 0%float in
  let z_score :=
    if float_gt stdev_val 0%float
    then PrimFloat.div (PrimFloat.sub (value m) mean_val) stdev_val
    else 0%float in
  if float_gt spike_pct threshold_pct || float_gt z_score 2%float then
    sev ← _classify_severity spike_pct [50%float; 100%float; 200%float];
    Ok (Some {|
      anomaly_type := LATENCY_SPIKE;
      severity := sev;
      a_source := str_or src (source m);
      a_destination := str_or dst (destination m);
      description :=
        "Latency spiked " +:+ format_f 1 spike_pct +:+ "% above baseline ("
        +:+ format_f 2 (value m) +:+ "ms vs " +:+ format_f 2 mean_val
        +:+ "ms baseline). Z-score: " +:+ format_f 2 z_score;
      detected_at := timestamp m;
      current_value := round (value m) 2;
      baseline_value := round mean_val 2;
      threshold :=
        round (PrimFloat.mul mean_val
                 (PrimFloat.add 1%float (PrimFloat.div threshold_pct 100%float))) 2;
      a_unit := "ms"
    |})
  else Ok None.

(** [for m in recent: ... anomalies.append(...)]: the loop stops at
    the first exception. *)
Fixpoint scan (check : PerfSONARMeasurement -> Result (option Anomaly))
    (recent : list PerfSONARMeasurement) (anomalies : list Anomaly)
    : Result (list Anomaly) :=
  match recent with
  | [] => Ok anomalies
  | m :: rest =>
      found ← check m;
      match found with
      | Some a => scan check rest (anomalies ++ [a])
      | None => scan check rest anomalies
      end
  end.

(** [AnomalyDetector.detect_throughput_anomalies]. *)
Definition detect_throughput_anomalies (self : AnomalyDetector)
    (measurements : list PerfSONARMeasurement) (src dst : string)
    : Result (list Anomaly) :=
  if (length measurements <? 5)%nat then Ok [] else
  let values := map value measurements in
  mean_val ← mean values;
  stdev_val ← (if (1 <? length values)%nat then stdev values else Ok 0%float);
  threshold_pct ← getitem (thresholds self) "throughput_drop_pct";
  scan (throughput_check mean_val stdev_val threshold_pct src dst)
       (slice_from (-10) measurements) [].

(** [AnomalyDetector.detect_latency_anomalies]. *)
Definition detect_latency_anomalies (self : AnomalyDetector)
    (measurements : list PerfSONARMeasurement) (src dst : string)
    : Result (list Anomaly) :=
  if (length measurements <? 5)%nat then Ok [] else
  let values := map value measurements in
  mean_val ← mean values;
  stdev_val ← (if (1 <? length values)%nat then stdev values else Ok 0%float);
  threshold_pct ← getitem (thresholds self) "latency_spike_pct";
  scan (latency_check mean_val stdev_val threshold_pct src dst)
       (slice_from (-10) measurements) [].

(** The dict [severity_order] of [detect_all]; it has every member of
    the enumeration as a key. *)
Definition severity_order (s : AnomalySeverity) : Z :=
  match s with
  | CRITICAL => 0
  | HIGH => 1
  | MEDIUM => 2
  | LOW => 3
  end.

(** [AnomalyDetector.detect_all]. *)
Definition detect_all (self : AnomalyDetector)
    (throughput_data latency_data : list PerfSONARMeasurement)
    (src dst : string) : Result (list Anomaly) :=
  from_throughput ← detect_throughput_anomalies self throughput_data src dst;
  from_latency ← detect_latency_anomalies self latency_data src dst;
  Ok (sort_by (fun a => severity_order (severity a))
              (([] ++ from_throughput) ++ from_latency)).

(** Both statistics return on the values of the samples. *)
Definition statistics_return (measurements : list PerfSONARMeasurement) : Prop :=
  (exists mean_val, mean (map value measurements) = Ok mean_val)
  /\ (exists stdev_val, stdev (map value measurements) = Ok stdev_val).

End Detectors.

(** A binary64 instance of [Runtime] for running the detectors on
    concrete samples.  The mean and the sample standard deviation are
    accumulated in floating point (the library computes them exactly and
    rounds once), and the deviation raises on a list that holds an
    infinity or a NaN, as the library does; [round] keeps its argument
    and every number is rendered as ["#"], neither of which decides
    whether or in which order an anomaly is reported. *)
Definition float_of_nat (n : nat) : float :=
  PrimFloat.of_uint63 (Uint63.of_Z (Z.of_nat n)).

Definition fsum (l : list float) : float := fold_left PrimFloat.add l 0%float.

Definition sample_mean (l : list float) : float :=
  PrimFloat.div (fsum l) (float_of_nat (length l)).

Definition is_finite (x : float) : bool :=
  negb (PrimFloat.is_nan x || PrimFloat.is_infinity x).

Definition sample_stdev (l : list float) : Result float :=
  if forallb is_finite l then
    let m := sample_mean l in
    let squares :=
      map (fun x => PrimFloat.mul (PrimFloat.sub x m) (PrimFloat.sub x m)) l in
    Ok (PrimFloat.sqrt (PrimFloat.div (fsum squares) (float_of_nat (length l - 1))))
  else Err (AttributeError "'float' object has no attribute 'numerator'").

Definition sample_runtime : Runtime :=
  {| mean := fun l => Ok (sample_mean l);
     stdev := sample_stdev;
     round := fun x _ => x;
     format_f := fun _ _ => "#" |}.

(** A throughput sample of the path a -> b. *)
Definition sample (t : Z) (v : float) : PerfSONARMeasurement :=
  {| test_type := THROUGHPUT; source := "a"; destination := "b";
     timestamp := t; value := v; unit := "Gbps"; metadata := ∅ |}.

(** A latency sample of the path a -> b. *)
Definition latency_sample (t : Z) (v : float) : PerfSONARMeasurement :=
  {| test_type := LATENCY; source := "a"; destination := "b";
     timestamp := t; value := v; unit := "ms"; metadata := ∅ |}.

(** Ten throughput samples around 9 Gbps with one at 6.5 Gbps, a drop
    of medium severity, and ten latency samples of 20 ms with one at
    90 ms, a spike of critical severity. *)
Definition dipped_throughput : list PerfSONARMeasurement :=
  [ sample 0 9%float; sample 1 9%float; sample 2 9%float; sample 3 9%float;
    sample 4 9%float; sample 5 9%float; sample 6 6.5%float; sample 7 9%float;
    sample 8 9%float; sample 9 9%float ].

Definition surging_latency : list PerfSONARMeasurement :=
  [ latency_sample 0 20%float; latency_sample 1 20%float; latency_sample 2 20%float;
    latency_sample 3 20%float; latency_sample 4 20%float; latency_sample 5 20%float;
    latency_sample 6 20%float; latency_sample 7 90%float; latency_sample 8 20%float;
    latency_sample 9 20%float ].

(** Ten throughput samples around 9 Gbps with one at 3 Gbps, and ten
    latency samples around 20 ms with one at 70 ms. *)
Definition recent_throughput : list PerfSONARMeasurement :=
  [ sample 0 9%float; sample 1 9.5%float; sample 2 8.5%float; sample 3 9%float;
    sample 4 9.25%float; sample 5 8.75%float; sample 6 9%float; sample 7 9.5%float;
    sample 8 3%float; sample 9 9.5%float ].

Definition recent_latency : list PerfSONARMeasurement :=
  [ sample 0 20%float; sample 1 21%float; sample 2 19%float; sample 3 20%float;
    sample 4 70%float; sample 5 20%float; sample 6 20%float; sample 7 21%float;
    sample 8 19%float; sample 9 35%float ].

(** The anomalies of a list that have severity [s], in list order. *)
Definition of_severity (s : AnomalySeverity) (l : list Anomaly) : list Anomaly :=
  List.filter (fun a => bool_decide (severity a = s)) l.

(** The order the specification names: the critical anomalies of a
    list, then the high, the medium and the low ones, each group in
    list order. *)
Definition critical_first (l : list Anomaly) : list Anomaly :=
  of_severity CRITICAL l ++ of_severity HIGH l
  ++ of_severity MEDIUM l ++ of_severity LOW l.

End Anomaly.

(** ** llm/prompt_engine.py *)

Module PromptEngine.

Record PromptTemplate : Type := {
  name : string;
  system_prompt : string;
  user_template : option string;
  description : string
}.

(** The newline character; the prompt texts are given line by line. *)
Definition nl : string := String (ascii_of_nat 10) EmptyString.

Definition NETWORK_DIAGNOSTICS_SYSTEM_PROMPT : string :=
  String.concat nl [
    ("You are NETAI, an expert AI assistant for network diagnostics "
     +:+ "and operations on the National Research Platform (NRP). You help "
     +:+ "network operators understand complex network behaviors, diagnose "
     +:+ "anomalies, and provide actionable remediation strategies.");
    "";
    "Your expertise includes:";
    ("- perfSONAR measurement analysis (throughput, latency, packet "
     +:+ "loss, traceroute)");
    "- Network path analysis and hop-by-hop diagnostics";
    "- BGP routing and traffic engineering";
    "- Optical network troubleshooting";
    "- Kubernetes networking and service mesh diagnostics";
    "";
    "When analyzing network issues:";
    "1. Start with a clear summary of what you observe";
    "2. Identify likely root causes based on the data";
    "3. Correlate multiple data sources when available";
    "4. Provide specific, actionable remediation steps";
    "5. Rate the severity (Low/Medium/High/Critical)";
    "";
    ("Always format your responses with clear Markdown headers and "
     +:+ "bullet points. When discussing metrics, include specific values "
     +:+ "and comparisons to baselines. If you're uncertain about a "
     +:+ "diagnosis, say so and suggest additional data collection steps.")
  ].

Definition TELEMETRY_ANALYSIS_SYSTEM_PROMPT : string :=
  String.concat nl [
    ("You are analyzing network telemetry data from the National "
     +:+ "Research Platform. The data comes from perfSONAR measurements "
     +:+ "and includes throughput tests, latency measurements, packet loss "
     +:+ "statistics, and traceroute results.");
    "";
    "When presented with telemetry data:";
    "- Compare current values against historical baselines";
    "- Flag any metrics that exceed standard thresholds";
    "- Identify trends and correlations between metrics";
    "- Suggest whether the observed behavior is normal or anomalous";
    "";
    "Standard thresholds for NRP network:";
    "- Throughput: Alert if <80% of baseline capacity";
    "- Latency (RTT): Alert if >150% of baseline";
    "- Packet loss: Alert if >0.5%";
    "- Jitter: Alert if >10ms for research traffic";
    "- Retransmits: Alert if >1% of total packets"
  ].

Definition ANOMALY_EXPLANATION_SYSTEM_PROMPT : string :=
  String.concat nl [
    ("You are explaining a detected network anomaly to a network "
     +:+ "operator. Provide a clear, technically accurate explanation that "
     +:+ "includes:");
    "";
    "1. **What happened**: Describe the anomaly in plain language";
    "2. **Impact**: What services or paths are affected";
    "3. **Likely cause**: Most probable root cause based on the data";
    ("4. **Evidence**: Specific metrics and observations supporting "
     +:+ "the diagnosis");
    "5. **Remediation**: Step-by-step actions to resolve the issue";
    "6. **Prevention**: How to prevent recurrence";
    "";
    ("Be specific with metric values, timestamps, and affected network "
     +:+ "elements. Use network engineering terminology appropriately.")
  ].

Definition REMEDIATION_SYSTEM_PROMPT : string :=
  String.concat nl [
    ("You are providing network remediation strategies for the "
     +:+ "National Research Platform. For each issue, provide:");
    "";
    ("1. **Immediate actions** (within 15 minutes): Emergency "
     +:+ "mitigation steps");
    "2. **Short-term fixes** (within 24 hours): Proper resolution steps";
    "3. **Long-term improvements** (within 1 week+): Preventive measures";
    "";
    ("Include specific CLI commands for network equipment when "
     +:+ "applicable (Juniper/Cisco). Estimate the impact of each action "
     +:+ "on network traffic. Prioritize actions that minimize disruption "
     +:+ "to research workflows.")
  ].

Definition TEMPLATES : gmap string PromptTemplate :=
  <["general_diagnostics" := {|
      name := "General Network Diagnostics";
      system_prompt := NETWORK_DIAGNOSTICS_SYSTEM_PROMPT;
      user_template := None;
      description := "General-purpose network diagnostics assistant"
    |}]> (
  <["telemetry_analysis" := {|
      name := "Telemetry Analysis";
      system_prompt := TELEMETRY_ANALYSIS_SYSTEM_PROMPT;
      user_template := Some (String.concat nl [
        "Analyze the following network telemetry data:";
        "";
        "{telemetry_data}";
        "";
        "Provide a summary of the network health and flag any concerns."
      ]);
      description := "Analyze raw telemetry data and provide health assessment"
    |}]> (
  <["anomaly_explanation" := {|
      name := "Anomaly Explanation";
      system_prompt := ANOMALY_EXPLANATION_SYSTEM_PROMPT;
      user_template := Some (String.concat nl [
        "An anomaly has been detected:";
        "";
        "**Type**: {anomaly_type}";
        "**Severity**: {severity}";
        "**Affected Path**: {affected_path}";
        "**Metrics**:";
        "{metrics}";
        "";
        "Please explain this anomaly and recommend remediation steps."
      ]);
      description := "Explain a detected network anomaly with remediation"
    |}]> (
  <["remediation" := {|
      name := "Remediation Strategy";
      system_prompt := REMEDIATION_SYSTEM_PROMPT;
      user_template := Some (String.concat nl [
        "Provide remediation strategies for the following network issue:";
        "";
        "**Issue**: {issue_description}";
        "**Affected Systems**: {affected_systems}";
        "**Current Impact**: {impact}";
        ""
      ]);
      description := "Generate remediation strategies for network issues"
    |}]> ∅))).

(** A message as the LLM API takes it: the dict with the keys
    ["role"] and ["content"]. *)
Record ChatDict : Type := { role : string; content : string }.

(** [PromptEngine.get_system_prompt]; [self.templates] is [TEMPLATES]. *)
Definition get_system_prompt (template_name : string) : string :=
  match TEMPLATES !! template_name with
  | Some template => system_prompt template
  | None => NETWORK_DIAGNOSTICS_SYSTEM_PROMPT
  end.

(** [PromptEngine.build_messages]. *)
Definition build_messages (user_message : string)
    (conversation_history : option (list ChatDict))
    (template_name : string) (telemetry_context : option string)
    : list ChatDict :=
  let messages := [] in
  let system_prompt0 := get_system_prompt template_name in
  let system_prompt1 :=
    match telemetry_context with
    | Some ctx =>
        if str_truthy ctx
        then system_prompt0 +:+ nl +:+ nl +:+ "---" +:+ nl
             +:+ "**Current Network Telemetry Context**:" +:+ nl +:+ ctx
        else system_prompt0
    | None => system_prompt0
    end in
  let messages := messages ++ [{| role := "system"; content := system_prompt1 |}] in
  let messages :=
    match conversation_history with
    | Some (h :: t) => messages ++ (h :: t)
    | _ => messages
    end in
  messages ++ [{| role := "user"; content := user_message |}].

Section Classifier.
Context {U : Unicode}.

(** [PromptEngine.classify_query]. *)
Definition classify_query (user_message : string) : string :=
  let message_lower := lower user_message in
  if any_in ["anomaly"; "unusual"; "strange"; "weird"; "spike"] message_lower
  then "anomaly_explanation"
  else if any_in ["fix"; "remediat"; "resolve"; "repair"; "action"] message_lower
  then "remediation"
  else if any_in ["telemetry"; "metric"; "measurement"; "perfsonar"; "data"]
                 message_lower
  then "telemetry_analysis"
  else "general_diagnostics".

End Classifier.

(** [kw] occurs in [s]: [s] is some text, then [kw], then some text. *)
Definition occurs_in (kw s : string) : Prop :=
  exists before after : string, s = before +:+ kw +:+ after.

(** The classifier as the specification words it: an ordered table of
    (keywords, template key) rules, the first rule one of whose
    keywords occurs in the lower-cased text wins, and the general
    template is the default. *)
Definition RULES : list (list string * string) :=
  [ (["anomaly"; "unusual"; "strange"; "weird"; "spike"], "anomaly_explanation");
    (["fix"; "remediat"; "resolve"; "repair"; "action"], "remediation");
    (["telemetry"; "metric"; "measurement"; "perfsonar"; "data"],
     "telemetry_analysis") ].

(** [first_match lowered rules key]: going through [rules] in order,
    [key] belongs to the first rule one of whose keywords occurs in
    [lowered]; every rule before it has no keyword that occurs; and
    [key] is the general template when no rule is left. *)
Inductive first_match (lowered : string)
    : list (list string * string) -> string -> Prop :=
| no_rule_left : first_match lowered [] "general_diagnostics"
| rule_applies (kws : list string) (key kw : string)
    (rest : list (list string * string)) :
    In kw kws -> occurs_in kw lowered ->
    first_match lowered ((kws, key) :: rest) key
| rule_passed (kws : list string) (key result : string)
    (rest : list (list string * string)) :
    (forall kw, In kw kws -> ~ occurs_in kw lowered) ->
    first_match lowered rest result ->
    first_match lowered ((kws, key) :: rest) result.

End PromptEngine.

(** ** context/manager.py *)

Module Context.

Import PromptEngine.

Section Manager.
Context {U : Unicode}.

(** The fields of [Message] carry the prefix [m_] here. *)
Record Message : Type := {
  m_role : string;
  m_content : string;
  m_timestamp : Z;
  m_metadata : gmap string string
}.

(** [Message.to_dict]. *)
Definition to_dict (m : Message) : ChatDict :=
  {| role := m_role m; content := m_content m |}.

Record Conversation : Type := {
  id : string;
  messages : list Message;
  created_at : Z;
  network_context : gmap string string
}.

Definition message_count (self : Conversation) : Z :=
  Z.of_nat (length (messages self)).

(** [Conversation.add_message]: the message built and the conversation
    after [self.messages.append(msg)].  [now] is the clock reading the
    [Message] takes as its timestamp. *)
Definition add_message (self : Conversation) (now : Z) (role content : string)
    (metadata : gmap string string) : Message * Conversation :=
  let msg := {| m_role := role; m_content := content;
                m_timestamp := now; m_metadata := metadata |} in
  (msg, {| id := id self;
           messages := messages self ++ [msg];
           created_at := created_at self;
           network_context := network_context self |}).

(** [Conversation.get_history]; [if max_messages:] is false for [None]
    and for [0]. *)
Definition get_history (self : Conversation) (max_messages : option Z)
    : list ChatDict :=
  let msgs := messages self in
  let msgs :=
    match max_messages with
    | Some n => if negb (n =? 0) then slice_from (- n) msgs else msgs
    | None => msgs
    end in
  map to_dict msgs.

(** The fields of [Settings] the manager reads. *)
Record Settings : Type := {
  max_conversation_history : Z;
  context_window_size : Z
}.

Definition default_settings : Settings :=
  {| max_conversation_history := 50; context_window_size := 10 |}.

(** The state of a [ContextManager].  A [Conversation] object is
    reachable only through the dict entry that holds it, so the dict
    maps each key to the current state of the object stored under it;
    a method that mutates [conv] rewrites the entry [conv] came from. *)
Record ContextManager : Type := {
  settings : Settings;
  _conversations : gmap string Conversation
}.

(** What one call takes from outside the manager: the string
    [uuid.uuid4()] yields if a [Conversation] is constructed, the clock
    readings for [created_at] and for the appended message, and the
    outcome of awaiting [telemetry.format_telemetry_context]. *)
Record Ambient : Type := {
  uuid4 : string;
  created_now : Z;
  message_now : Z;
  telemetry_outcome : Result string
}.

Definition with_conversations (self : ContextManager)
    (convs : gmap string Conversation) : ContextManager :=
  {| settings := settings self; _conversations := convs |}.

(** [ContextManager.create_conversation]: the new object is stored
    under its generated id. *)
Definition create_conversation (self : ContextManager) (env : Ambient)
    : Conversation * ContextManager :=
  let conv := {| id := uuid4 env; messages := [];
                 created_at := created_now env; network_context := ∅ |} in
  (conv, with_conversations self (<[id conv := conv]> (_conversations self))).

(** [ContextManager.get_conversation]. *)
Definition get_conversation (self : ContextManager) (conversation_id : string)
    : option Conversation :=
  _conversations self !! conversation_id.

(** [ContextManager.delete_conversation]. *)
Definition delete_conversation (self : ContextManager) (conversation_id : string)
    : bool * ContextManager :=
  match _conversations self !! conversation_id with
  | Some _ => (true, with_conversations self (delete conversation_id (_conversations self)))
  | None => (false, self)
  end.

(** [ContextManager.build_llm_messages].  [slot] is the dict key of
    the entry that holds the object bound to [conv]: the requested id
    when the lookup succeeds, the generated id after
    [create_conversation].  The assignment [conv.id = conversation_id]
    changes the attribute of the stored object and not its key. *)
Definition build_llm_messages (self : ContextManager) (env : Ambient)
    (conversation_id user_message : string) (source destination : option string)
    : list ChatDict * ContextManager :=
  let '(slot, conv, self1) :=
    match get_conversation self conversation_id with
    | Some conv => (conversation_id, conv, self)
    | None =>
        let '(conv, self1) := create_conversation self env in
        let slot := id conv in
        let conv := {| id := conversation_id; messages := messages conv;
                       created_at := created_at conv;
                       network_context := network_context conv |} in
        (slot, conv, with_conversations self1 (<[slot := conv]> (_conversations self1)))
    end in
  let template_name := classify_query user_message in
  let telemetry_context :=
    match telemetry_outcome env with
    | Ok text => Some text
    | Err _ => None
    end in
  let history := get_history conv (Some (context_window_size (settings self1))) in
  let msgs := build_messages user_message (Some history) template_name telemetry_context in
  let '(_, conv) := add_message conv (message_now env) "user" user_message ∅ in
  (msgs, with_conversations self1 (<[slot := conv]> (_conversations self1))).

(** [ContextManager.record_assistant_response]; [now] is the clock
    reading for the appended message. *)
Definition record_assistant_response (self : ContextManager) (now : Z)
    (conversation_id content : string) : ContextManager :=
  match get_conversation self conversation_id with
  | Some conv =>
      let '(_, conv) := add_message conv now "assistant" content ∅ in
      let conv :=
        if max_conversation_history (settings self) <? message_count conv then
          let excess := message_count conv - max_conversation_history (settings self) in
          {| id := id conv; messages := slice_from excess (messages conv);
             created_at := created_at conv;
             network_context := network_context conv |}
        else conv in
      with_conversations self (<[conversation_id := conv]> (_conversations self))
  | None => self
  end.

(** The user turn a call appends. *)
Definition user_turn (env : Ambient) (text : string) : Message :=
  {| m_role := "user"; m_content := text;
     m_timestamp := message_now env; m_metadata := ∅ |}.

(** The assistant turn a commit appends. *)
Definition assistant_turn (now : Z) (text : string) : Message :=
  {| m_role := "assistant"; m_content := text;
     m_timestamp := now; m_metadata := ∅ |}.

(** A manager that holds no conversation yet, and two calls made by a
    client that remembers the id ["session-42"]; the telemetry source
    is down during both. *)
Definition empty_manager : ContextManager :=
  {| settings := default_settings; _conversations := ∅ |}.

Definition first_call : Ambient :=
  {| uuid4 := "0b5c1d6e-8a44-4c0f-9d3e-2f7a61c3e901";
     created_now := 1000; message_now := 1001;
     telemetry_outcome := Err (RuntimeError "telemetry unavailable") |}.

Definition second_call : Ambient :=
  {| uuid4 := "5e0d9a3b-17c2-4b7e-a1f4-c86d20b4f7aa";
     created_now := 2000; message_now := 2001;
     telemetry_outcome := Err (RuntimeError "telemetry unavailable") |}.

Definition after_first_call : ContextManager :=
  snd (build_llm_messages empty_manager first_call
         "session-42" "Is the Chicago path healthy?" None None).

Definition after_first_reply : ContextManager :=
  record_assistant_response after_first_call 1002 "session-42" "Yes, it is.".

(** A manager that keeps two messages per conversation and holds one
    conversation with a complete exchange. *)
Definition short_memory : ContextManager :=
  {| settings := {| max_conversation_history := 2; context_window_size := 10 |};
     _conversations :=
       {[ "c-1" := {| id := "c-1";
                      messages :=
                        [ {| m_role := "user"; m_content := "Is the path up?";
                             m_timestamp := 10; m_metadata := ∅ |};
                          {| m_role := "assistant"; m_content := "It is.";
                             m_timestamp := 11; m_metadata := ∅ |} ];
                      created_at := 9; network_context := ∅ |} ]} |}.

End Manager.

End Context.

(** ** diagnostics/traceroute.py: the analyzer *)

Module PathAnalysis.

Import Traceroute.

(** The dict [analyze_path_change] returns.  ["hops_added"] and
    ["hops_removed"] are lists made from sets, in an order Python
    leaves open; the model keeps the sets.  [x or 0] yields the integer
    0 where the model has the float zero. *)
Record PathChange : Type := {
  path_changed : bool;
  hops_added : gset string;
  hops_removed : gset string;
  old_hop_count : nat;
  new_hop_count : nat;
  rtt_change_ms : float
}.

(** [{h.ip_address for h in result.hops}]. *)
Definition ip_set (result : TracerouteResult) : gset string :=
  list_to_set (map ip_address (hops result)).

(** [x or 0] for [x : float | None]. *)
Definition or_zero (x : option float) : float :=
  match x with
  | Some v => if float_truthy v then v else 0%float
  | None => 0%float
  end.

(** Truth value of a set: non-empty. *)
Definition set_truthy (s : gset string) : bool := negb (bool_decide (s = ∅)).

(** [TracerouteAnalyzer.analyze_path_change]. *)
Definition analyze_path_change (old new : TracerouteResult) : PathChange :=
  let old_ips := ip_set old in
  let new_ips := ip_set new in
  let added := new_ips ∖ old_ips in
  let removed := old_ips ∖ new_ips in
  {| path_changed := set_truthy added || set_truthy removed;
     hops_added := added;
     hops_removed := removed;
     old_hop_count := hop_count old;
     new_hop_count := hop_count new;
     rtt_change_ms :=
       PrimFloat.sub (or_zero (total_rtt_ms new)) (or_zero (total_rtt_ms old)) |}.

(** One entry of a topology: address, host name, location, autonomous
    system number. *)
Definition HopData : Type := string * string * string * Z.

Definition MOCK_TOPOLOGY : gmap (string * string) (list HopData) :=
  <[("sdsc-prp.ucsd.edu", "nrp-chi.uchicago.edu") :=
      [ ("10.0.1.1", "gw-sdsc.ucsd.edu", "San Diego, CA", 64512);
        ("198.17.46.1", "cenic-la.cenic.org", "Los Angeles, CA", 2152);
        ("134.55.40.1", "esnet-snv.es.net", "Sunnyvale, CA", 293);
        ("134.55.50.5", "esnet-den.es.net", "Denver, CO", 293);
        ("134.55.60.1", "esnet-chi.es.net", "Chicago, IL", 293);
        ("192.170.232.1", "i2-chi.internet2.edu", "Chicago, IL", 11537);
        ("10.10.1.1", "gw-chi.uchicago.edu", "Chicago, IL", 160) ]]> (
  <[("nrp-chi.uchicago.edu", "nrp-sea.washington.edu") :=
      [ ("10.10.1.1", "gw-chi.uchicago.edu", "Chicago, IL", 160);
        ("192.170.232.5", "i2-chi.internet2.edu", "Chicago, IL", 11537);
        ("192.170.233.1", "i2-den.internet2.edu", "Denver, CO", 11537);
        ("192.170.234.1", "i2-sea.internet2.edu", "Seattle, WA", 11537);
        ("10.20.1.1", "gw-sea.washington.edu", "Seattle, WA", 73) ]]> ∅).

(** What one run of [_mock_traceroute] takes from outside: the list
    [_generate_random_path()] yields if it is called, the clock
    reading, and for the iteration with index [k] the values of
    [random.uniform(1.0, 15.0)] and of [random.random()]. *)
Record Run : Type := {
  random_path : list HopData;
  run_now : Z;
  hop_latency : nat -> float;
  response_draw : nat -> float
}.

Section Mock.
Context {rt : Anomaly.Runtime}.

#[local] Set Warnings "-inexact-float".

(** The loop of [_mock_traceroute] from the iteration with index [k]
    on; [enumerate(hop_data, 1)] numbers that hop [k + 1]. *)
Fixpoint mock_hops (run : Run) (k : nat) (cumulative_rtt : float)
    (hop_data : list HopData) : list TracerouteHop :=
  match hop_data with
  | [] => []
  | (ip, host, place, number) :: rest =>
      let latency := hop_latency run k in
      let responding := float_gt (response_draw run k) 0.05%float in
      let cumulative_rtt := PrimFloat.add cumulative_rtt latency in
      {| hop_number := Z.of_nat k + 1;
         ip_address := ip;
         hostname := Some host;
         rtt_ms := if responding then Some (Anomaly.round cumulative_rtt 2) else None;
         asn := Some number;
         location := Some place;
         is_responding := responding |}
      :: mock_hops run (S k) cumulative_rtt rest
  end.

#[local] Set Warnings "inexact-float".

(** [TracerouteAnalyzer._mock_traceroute]. *)
Definition _mock_traceroute (run : Run) (src dst : string) : TracerouteResult :=
  let hop_data :=
    match MOCK_TOPOLOGY !! (src, dst) with
    | Some known => known
    | None => random_path run
    end in
  {| source := src;
     destination := dst;
     timestamp := run_now run;
     hops := mock_hops run 0 0%float hop_data;
     completed := true |}.

(** [TracerouteAnalyzer.trace]; [NotImplementedError] is a
    [RuntimeError]. *)
Definition trace (enable_mock : bool) (run : Run) (src dst : string)
    : Result TracerouteResult :=
  if enable_mock then Ok (_mock_traceroute run src dst)
  else Err (RuntimeError "Production traceroute integration pending").

(** [TracerouteAnalyzer.compare_paths]: [for _ in range(count)] runs
    [trace] [count] times, not at all for a [count] below 1; [runs k]
    is what the run with index [k] takes from outside. *)
Fixpoint compare_loop (enable_mock : bool) (runs : nat -> Run) (src dst : string)
    (k remaining : nat) (results : list TracerouteResult)
    : Result (list TracerouteResult) :=
  match remaining with
  | O => Ok results
  | S remaining' =>
      result ← trace enable_mock (runs k) src dst;
      compare_loop enable_mock runs src dst (S k) remaining' (results ++ [result])
  end.

Definition compare_paths (enable_mock : bool) (runs : nat -> Run) (src dst : string)
    (count : Z) : Result (list TracerouteResult) :=
  compare_loop enable_mock runs src dst 0 (Z.to_nat count) [].

End Mock.

(** A run that always answers after 5 ms, and two traces of the same
    route whose hops are listed in a different order. *)
Definition steady_run : Run :=
  {| random_path := [("10.9.9.1", "router-1.denver.net", "Denver, CO", 293)];
     run_now := 0;
     hop_latency := fun _ => 5%float;
     response_draw := fun _ => 0.5%float |}.

Definition two_hops (first second : string) : TracerouteResult :=
  {| source := "a"; destination := "b"; timestamp := 0;
     hops := [ {| hop_number := 1; ip_address := first; hostname := None;
                  rtt_ms := Some 5%float; asn := None; location := None;
                  is_responding := true |};
               {| hop_number := 2; ip_address := second; hostname := None;
                  rtt_ms := Some 9%float; asn := None; location := None;
                  is_responding := true |} ];
     completed := true |}.

End PathAnalysis.

(** ** More string methods *)

Module PyText.

(** [c.isalpha()] on ASCII, which is also "is cased". *)
Definition is_letter (c : ascii) : bool :=
  let n := nat_of_ascii c in
  ((65 <=? n)%nat && (n <=? 90)%nat) || ((97 <=? n)%nat && (n <=? 122)%nat).

Definition upper_ascii (c : ascii) : ascii :=
  let n := nat_of_ascii c in
  if (97 <=? n)%nat && (n <=? 122)%nat then ascii_of_nat (n - 32) else c.

(** [str.upper()]: an ASCII letter is raised where it stands, what any
    other character becomes is read from the database. *)
Fixpoint upper_from {U : Unicode} (whole : string) (i : nat) (s : string)
    : string :=
  match s with
  | EmptyString => EmptyString
  | String c s' =>
      if is_ascii c then String (upper_ascii c) (upper_from whole (S i) s')
      else upper_other whole i +:+ upper_from whole (S i) s'
  end.

Definition upper {U : Unicode} (s : string) : string := upper_from s 0 s.

(** [s.replace(old, new)] for single characters. *)
Fixpoint replace_char (old new : ascii) (s : string) : string :=
  match s with
  | EmptyString => EmptyString
  | String c s' =>
      String (if Ascii.eqb c old then new else c) (replace_char old new s')
  end.

(** [str.title()] on ASCII text, which the values of the enumerations
    it is applied to are: a letter that follows a letter is lower-cased,
    any other letter is upper-cased. *)
Fixpoint title_from (previous_is_cased : bool) (s : string) : string :=
  match s with
  | EmptyString => EmptyString
  | String c s' =>
      String (if previous_is_cased then lower_ascii c else upper_ascii c)
             (title_from (is_letter c) s')
  end.

Definition title (s : string) : string := title_from false s.

(** [str(n)] for a count. *)
Definition str_nat (n : nat) : string := NilEmpty.string_of_uint (Nat.to_uint n).

End PyText.

(** ** diagnostics/telemetry.py *)

Module Telemetry.

Import Perfsonar Anomaly PyText.

#[local] Abbreviation nl := PromptEngine.nl.

(** [AnomalyType.value] and [AnomalySeverity.value]. *)
Definition type_value (t : AnomalyType) : string :=
  match t with
  | THROUGHPUT_DROP => "throughput_drop"
  | LATENCY_SPIKE => "latency_spike"
  | PACKET_LOSS => "packet_loss"
  | JITTER_INCREASE => "jitter_increase"
  | PATH_CHANGE => "path_change"
  | LINK_FLAP => "link_flap"
  end.

Definition severity_value (s : AnomalySeverity) : string :=
  match s with
  | LOW => "low"
  | MEDIUM => "medium"
  | HIGH => "high"
  | CRITICAL => "critical"
  end.

(** How values are rendered inside f-strings: [str(x)] of a float and
    [datetime.isoformat()]. *)
Class Rendering : Type := {
  str_float : float -> string;
  isoformat : Z -> string
}.

(** The dict of [NetworkPath.to_dict]. *)
Record PathDict : Type := {
  pd_source : string;
  pd_destination : string;
  pd_throughput_gbps : option float;
  pd_latency_ms : option float;
  pd_packet_loss_pct : option float;
  pd_jitter_ms : option float;
  pd_retransmits_pct : option float;
  pd_hop_count : option Z;
  pd_health_status : string;
  pd_last_updated : option string
}.

(** The dict of [get_network_summary]. *)
Record Summary : Type := {
  s_timestamp : string;
  total_paths : nat;
  healthy : nat;
  degraded : nat;
  warning : nat;
  critical : nat;
  paths : list PathDict
}.

(** What the perfSONAR client and the clock hand to one call: the
    outcome of each awaited fetch and the time. *)
Record Fetched : Type := {
  path_health : Result NetworkPath;
  throughput_6h : Result (list PerfSONARMeasurement);
  latency_6h : Result (list PerfSONARMeasurement);
  network_paths : Result (list NetworkPath);
  fetched_now : Z
}.

Section Processor.
Context {U : Unicode} {rt : Runtime} {rd : Rendering}.

(** [NetworkPath.to_dict]. *)
Definition path_to_dict (p : NetworkPath) : PathDict :=
  {| pd_source := path_source p;
     pd_destination := path_destination p;
     pd_throughput_gbps := throughput_gbps p;
     pd_latency_ms := latency_ms p;
     pd_packet_loss_pct := packet_loss_pct p;
     pd_jitter_ms := jitter_ms p;
     pd_retransmits_pct := retransmits_pct p;
     pd_hop_count := Perfsonar.hop_count p;
     pd_health_status := health_status p;
     pd_last_updated := isoformat <$> last_updated p |}.

(** [sum(1 for p in paths if p.health_status == status)]. *)
Definition count_status (status : string) (all_paths : list NetworkPath) : nat :=
  length (List.filter (fun p => String.eqb (health_status p) status) all_paths).

(** [TelemetryProcessor.get_network_summary]. *)
Definition get_network_summary (env : Fetched) : Result Summary :=
  all_paths ← network_paths env;
  let n_healthy := count_status "healthy" all_paths in
  let n_degraded := count_status "degraded" all_paths in
  let n_warning := count_status "warning" all_paths in
  let n_critical := count_status "critical" all_paths in
  Ok {| s_timestamp := isoformat (fetched_now env);
        total_paths := length all_paths;
        healthy := n_healthy;
        degraded := n_degraded;
        warning := n_warning;
        critical := n_critical;
        paths := map path_to_dict all_paths |}.

(** [Anomaly.format_for_llm]. *)
Definition format_for_llm (a : Anomaly) : string :=
  "**" +:+ title (replace_char "_" " " (type_value (anomaly_type a))) +:+ "** "
  +:+ "[" +:+ upper (severity_value (severity a)) +:+ "]" +:+ nl
  +:+ "Path: " +:+ a_source a +:+ " → " +:+ a_destination a +:+ nl
  +:+ "Current: " +:+ str_float (current_value a) +:+ " " +:+ a_unit a +:+ " "
  +:+ "(baseline: " +:+ str_float (baseline_value a) +:+ " " +:+ a_unit a +:+ ", "
  +:+ "threshold: " +:+ str_float (threshold a) +:+ " " +:+ a_unit a +:+ ")" +:+ nl
  +:+ "Detected: " +:+ isoformat (detected_at a) +:+ nl
  +:+ "Description: " +:+ description a.

(** [f"{x}"] for [x : float | None]. *)
Definition str_opt_float (x : option float) : string :=
  match x with
  | Some v => str_float v
  | None => "None"
  end.

(** [source and destination] as a condition: both are given and
    neither is the empty string. *)
Definition endpoints (src dst : option string) : option (string * string) :=
  match src, dst with
  | Some s, Some d => if str_truthy s && str_truthy d then Some (s, d) else None
  | _, _ => None
  end.

(** The list [lines] that [format_telemetry_context] builds before it
    joins it. *)
Definition context_lines (detector : AnomalyDetector) (env : Fetched)
    (src dst : option string) : Result (list string) :=
  let lines := [] in
  match endpoints src dst with
  | Some (s, d) =>
      path ← path_health env;
      let lines := lines ++ ["**Path**: " +:+ s +:+ " → " +:+ d] in
      let lines := lines ++ ["**Status**: " +:+ upper (health_status path)] in
      let lines := lines ++ ["**Throughput**: "
                             +:+ str_opt_float (throughput_gbps path) +:+ " Gbps"] in
      let lines := lines ++ ["**Latency**: "
                             +:+ str_opt_float (latency_ms path) +:+ "ms"] in
      let lines := lines ++ ["**Packet Loss**: "
                             +:+ str_opt_float (packet_loss_pct path) +:+ "%"] in
      let lines := lines ++ ["**Jitter**: "
                             +:+ str_opt_float (jitter_ms path) +:+ "ms"] in
      throughput ← throughput_6h env;
      latency ← latency_6h env;
      anomalies ← detect_all detector throughput latency s d;
      match anomalies with
      | [] => Ok lines
      | _ :: _ =>
          let lines := lines ++ [nl +:+ "**Active Anomalies** ("
                                 +:+ str_nat (length anomalies) +:+ "):"] in
          Ok (lines ++ map (fun a => "- " +:+ format_for_llm a) (take 3 anomalies))
      end
  | None =>
      summary ← get_network_summary env;
      Ok (lines ++
          [ "**Network Overview** (" +:+ str_nat (total_paths summary)
            +:+ " monitored paths)";
            "- Healthy: " +:+ str_nat (healthy summary);
            "- Warning: " +:+ str_nat (warning summary);
            "- Degraded: " +:+ str_nat (degraded summary);
            "- Critical: " +:+ str_nat (critical summary) ])
  end.

(** [TelemetryProcessor.format_telemetry_context]. *)
Definition format_telemetry_context (detector : AnomalyDetector) (env : Fetched)
    (src dst : option string) : Result string :=
  lines ← context_lines detector env src dst;
  Ok (String.concat nl lines).

End Processor.

(** A rendering for running the formatters on concrete data: times
    and floats appear as fixed marks. *)
Definition sample_rendering : Rendering :=
  {| str_float := fun _ => "#"; isoformat := fun _ => "T" |}.

(** Six hours of samples from the lists above, and a fleet of three
    paths. *)
Definition sample_fetch : Fetched :=
  {| path_health := Ok (measured (Some 8%float) (Some 20%float) (Some 0%float));
     throughput_6h := Ok recent_throughput;
     latency_6h := Ok recent_latency;
     network_paths :=
       Ok [ measured (Some 8%float) (Some 20%float) (Some 0%float);
            measured None None (Some 2%float);
            measured None (Some 150%float) None ];
     fetched_now := 0 |}.

End Telemetry.

(** ** api/routes/chat.py *)

Module ChatRoute.

Import PromptEngine Context.

(** [config.LLMModel]. *)
Inductive LLMModel : Type := QWEN3_VL | GLM_4_7 | GPT_OSS.

Definition model_value (m : LLMModel) : string :=
  match m with
  | QWEN3_VL => "qwen3-vl"
  | GLM_4_7 => "glm-4.7"
  | GPT_OSS => "gpt-oss"
  end.

(** [LLMModel(text)]: the member with that value; [None] stands for the
    [ValueError] raised when there is none. *)
Definition model_of_value (text : string) : option LLMModel :=
  if String.eqb text "qwen3-vl" then Some QWEN3_VL
  else if String.eqb text "glm-4.7" then Some GLM_4_7
  else if String.eqb text "gpt-oss" then Some GPT_OSS
  else None.

(** [api.models.chat.ChatRequest], as the route receives it. *)
Record ChatRequest : Type := {
  message : string;
  conversation_id : option string;
  model : option string;
  source : option string;
  destination : option string;
  stream : bool
}.

(** [llm.client.LLMResponse]. *)
Record LLMResponse : Type := {
  r_content : string;
  r_model : string;
  r_usage : gmap string Z;
  finish_reason : string
}.

(** The outcome of awaiting [llm.chat_completion]: a response, or an
    exception [e], kept as the text [str(e)]. *)
Inductive Completion : Type :=
| Replied (response : LLMResponse)
| Failed (text : string).

(** The client the route calls: messages and model to outcome. *)
Definition LLMClient : Type := list ChatDict -> option LLMModel -> Completion.

Inductive ChatRole : Type := USER | ASSISTANT | SYSTEM.

Record ChatMessage : Type := {
  cm_role : ChatRole;
  cm_content : string;
  cm_timestamp : option Z
}.

Record ChatResponse : Type := {
  cr_conversation_id : string;
  cr_message : ChatMessage;
  cr_model : string;
  cr_usage : gmap string Z;
  cr_network_context : option (gmap string string)
}.

(** [fastapi.HTTPException]. *)
Record HTTPException : Type := { status_code : Z; detail : string }.

Inductive Reply (A : Type) : Type :=
| Return (value : A)
| Raise (e : HTTPException).
Arguments Return {A} value.
Arguments Raise {A} e.

(** What one request takes from outside: the generated id and clock
    reading for the route's own [create_conversation], what
    [build_llm_messages] takes, the clock reading for the assistant
    turn and the one for the response. *)
Record Call : Type := {
  on_create : Ambient;
  on_compose : Ambient;
  reply_now : Z;
  response_now : Z
}.

Section Route.
Context {U : Unicode}.

(** [send_message].  [llm_client] and [context_manager] are the
    module-level [_llm_client] and [_context_manager]; the second
    component of the result is [_context_manager] after the request,
    whether it returned or raised. *)
Definition send_message (llm_client : option LLMClient)
    (context_manager : option ContextManager) (env : Call) (request : ChatRequest)
    : Reply ChatResponse * option ContextManager :=
  match llm_client with
  | None => (Raise {| status_code := 503; detail := "LLM client not initialized" |},
             context_manager)
  | Some llm =>
  match context_manager with
  | None => (Raise {| status_code := 503;
                      detail := "Context manager not initialized" |}, None)
  | Some ctx =>
      let '(conv_id, ctx) :=
        if opt_str_truthy (conversation_id request)
        then (default "" (conversation_id request), ctx)
        else let '(conv, ctx) := create_conversation ctx (on_create env) in
             (id conv, ctx) in
      let '(messages, ctx) :=
        build_llm_messages ctx (on_compose env) conv_id (message request)
          (source request) (destination request) in
      let checked : Reply (option LLMModel) :=
        match model request with
        | Some text =>
            if str_truthy text then
              match model_of_value text with
              | Some m => Return (Some m)
              | None =>
                  Raise {| status_code := 400;
                           detail := "Invalid model: " +:+ text
                                     +:+ ". Choose from: ['qwen3-vl', 'glm-4.7', 'gpt-oss']" |}
              end
            else Return None
        | None => Return None
        end in
      match checked with
      | Raise e => (Raise e, Some ctx)
      | Return chosen =>
          match llm messages chosen with
          | Failed text =>
              (Raise {| status_code := 502;
                        detail := "LLM service error: " +:+ text |}, Some ctx)
          | Replied response =>
              let ctx := record_assistant_response ctx (reply_now env) conv_id
                           (r_content response) in
              (Return {| cr_conversation_id := conv_id;
                         cr_message := {| cm_role := ASSISTANT;
                                          cm_content := r_content response;
                                          cm_timestamp := Some (response_now env) |};
                         cr_model := r_model response;
                         cr_usage := r_usage response;
                         cr_network_context := None |},
               Some ctx)
          end
      end
  end
  end.

(** A client that always answers, one that is down, and a request
    that opens a session. *)
Definition echo_client : LLMClient :=
  fun _ _ => Replied {| r_content := "All paths are healthy.";
                        r_model := "qwen3-vl"; r_usage := ∅;
                        finish_reason := "stop" |}.

Definition down_client : LLMClient := fun _ _ => Failed "connection refused".

Definition opening_request : ChatRequest :=
  {| message := "Is the Chicago path healthy?"; conversation_id := None;
     model := None; source := None; destination := None; stream := false |}.

Definition opening_call : Call :=
  {| on_create := first_call; on_compose := second_call;
     reply_now := 1002; response_now := 1003 |}.

End Route.

End ChatRoute.

(** ** Keyword lists of the classifier *)

Module Keywords.

(** The three lists [classify_query] tests, in its order. *)
Definition ANOMALY : list string := ["anomaly"; "unusual"; "strange"; "weird"; "spike"].
Definition REMEDIATION : list string := ["fix"; "remediat"; "resolve"; "repair"; "action"].
Definition TELEMETRY : list string :=
  ["telemetry"; "metric"; "measurement"; "perfsonar"; "data"].

(** Some keyword of the list occurs in the lower-cased text. *)
Definition mentions {U : Unicode} (kws : list string) (text : string) : Prop :=
  exists kw, In kw kws /\ PromptEngine.occurs_in kw (lower text).

End Keywords.

(** * Properties *)

(** ** Facts about the Python built-ins *)

Section PyFacts.
Context {A : Type}.
Implicit Types l : list A.

Lemma slice_from_nonneg (i : Z) l :
  0 <= i -> slice_from i l = drop (Z.to_nat i) l.
Proof.
  intros Hi. unfold slice_from.
  destruct (Z.ltb_spec i 0) as [Hneg | _]; [lia |].
  destruct (Z.le_gt_cases i (Z.of_nat (length l))) as [Hle | Hgt].
  - by rewrite Z.min_l.
  - rewrite Z.min_r by lia. rewrite Nat2Z.id.
    rewrite drop_all. symmetry. apply drop_ge. lia.
Qed.

Lemma slice_from_neg (i : Z) l :
  i < 0 -> slice_from i l = drop (length l - Z.to_nat (- i)) l.
Proof.
  intros Hi. unfold slice_from.
  destruct (Z.ltb_spec i 0) as [_ | Hge]; [| lia].
  f_equal. lia.
Qed.

Lemma slice_from_suffix (i : Z) l : slice_from i l `suffix_of` l.
Proof. unfold slice_from. apply suffix_drop. Qed.

Lemma slice_from_empty (i : Z) : slice_from i (@nil A) = [].
Proof. unfold slice_from. apply drop_nil. Qed.

Variable key : A -> Z.

Lemma insert_by_sorted (x : A) l :
  Sorted (fun a b => key a <= key b) l ->
  Sorted (fun a b => key a <= key b) (insert_by key x l).
Proof.
  induction 1 as [| y l Hsorted IH Hhd]; simpl.
  - repeat constructor.
  - destruct (Z.leb_spec (key x) (key y)) as [Hle | Hgt].
    + constructor; [by constructor | by constructor].
    + constructor; [exact IH |].
      destruct l as [| z l]; simpl.
      * constructor. lia.
      * destruct (Z.leb_spec (key x) (key z)); constructor; [lia |].
        by inversion Hhd.
Qed.

Lemma sort_by_sorted l : Sorted (fun a b => key a <= key b) (sort_by key l).
Proof.
  induction l as [| x l IH]; simpl; [constructor |].
  by apply insert_by_sorted.
Qed.

(** Inserting [x] changes the run of elements with key [k] only when
    [x] has that key, and then [x] comes first in the run. *)
Lemma insert_by_select (k : Z) (x : A) l :
  List.filter (fun a => key a =? k) (insert_by key x l)
  = List.filter (fun a => key a =? k) (x :: l).
Proof.
  induction l as [| y l IH]; [done |].
  cbn [insert_by].
  destruct (Z.leb_spec (key x) (key y)) as [Hle | Hgt]; [done |].
  cbn [List.filter] in *.
  destruct (Z.eqb_spec (key x) k) as [Hx | Hx];
    destruct (Z.eqb_spec (key y) k) as [Hy | Hy]; try lia;
    rewrite IH; done.
Qed.

Lemma sort_by_select (k : Z) l :
  List.filter (fun a => key a =? k) (sort_by key l)
  = List.filter (fun a => key a =? k) l.
Proof.
  induction l as [| x l IH]; [done |].
  cbn [sort_by foldr]. fold (sort_by key l).
  rewrite insert_by_select. cbn [List.filter]. by rewrite IH.
Qed.

(** The head of a sorted list has the least key. *)
Lemma sorted_head_least (x : A) l :
  Sorted (fun a b => key a <= key b) (x :: l) -> forall y, In y l -> key x <= key y.
Proof.
  intros Hsorted y Hin.
  apply Sorted_StronglySorted in Hsorted; [| intros a b c; lia].
  inversion Hsorted as [| ? ? _ Hall]; subst.
  by apply (proj1 (List.Forall_forall _ _) Hall).
Qed.

Lemma select_In (k : Z) (x : A) l :
  In x (List.filter (fun a => key a =? k) l) -> In x l.
Proof. intros Hin. by apply List.filter_In in Hin as [Hin _]. Qed.

(** Two lists in key order with the same elements of each key, in the
    same order, are equal: a stable sort has one possible result. *)
Lemma stable_sort_unique l1 l2 :
  Sorted (fun a b => key a <= key b) l1 ->
  Sorted (fun a b => key a <= key b) l2 ->
  (forall k, List.filter (fun a => key a =? k) l1
             = List.filter (fun a => key a =? k) l2) ->
  l1 = l2.
Proof.
  revert l2. induction l1 as [| x l1 IH]; intros l2 Hs1 Hs2 Hsel.
  - destruct l2 as [| y l2]; [done |].
    specialize (Hsel (key y)). cbn in Hsel. by rewrite Z.eqb_refl in Hsel.
  - destruct l2 as [| y l2].
    { specialize (Hsel (key x)). cbn in Hsel. by rewrite Z.eqb_refl in Hsel. }
    assert (Hxy : key x = key y).
    { apply Z.le_antisymm.
      - pose proof (Hsel (key y)) as Hy. cbn [List.filter] in Hy.
        rewrite (Z.eqb_refl (key y)) in Hy.
        destruct (Z.eqb_spec (key x) (key y)) as [-> | Hne]; [lia |].
        apply (sorted_head_least _ _ Hs1). apply (select_In (key y)).
        rewrite Hy. by left.
      - pose proof (Hsel (key x)) as Hx. cbn [List.filter] in Hx.
        rewrite (Z.eqb_refl (key x)) in Hx.
        destruct (Z.eqb_spec (key y) (key x)) as [-> | Hne]; [lia |].
        apply (sorted_head_least _ _ Hs2). apply (select_In (key x)).
        rewrite <- Hx. by left. }
    assert (Hhead : x = y /\ forall k, List.filter (fun a => key a =? k) l1
                                       = List.filter (fun a => key a =? k) l2).
    { split.
      - specialize (Hsel (key x)). cbn [List.filter] in Hsel.
        rewrite <- Hxy, Z.eqb_refl in Hsel. by injection Hsel.
      - intros k. specialize (Hsel k). cbn [List.filter] in Hsel.
        rewrite <- Hxy in Hsel.
        destruct (key x =? k); [by injection Hsel | done]. }
    destruct Hhead as [<- Htail]. f_equal.
    apply IH; [by inversion Hs1 | by inversion Hs2 | exact Htail].
Qed.

(** Where an element is inserted: past every element with a smaller
    key, and in front of a rest whose keys are not smaller. *)
Lemma insert_by_front (x : A) l :
  Forall (fun y => key x <= key y) l -> insert_by key x l = x :: l.
Proof.
  destruct 1 as [| y l Hy _]; [done |].
  cbn [insert_by]. destruct (Z.leb_spec (key x) (key y)); [done | lia].
Qed.

Lemma insert_by_skip (x : A) l1 l2 :
  Forall (fun y => key y < key x) l1 ->
  insert_by key x (l1 ++ l2) = l1 ++ insert_by key x l2.
Proof.
  induction 1 as [| y l1 Hy _ IH]; [done |].
  cbn [app insert_by]. destruct (Z.leb_spec (key x) (key y)); [lia |].
  by rewrite IH.
Qed.

Lemma sort_by_Permutation l : Permutation (sort_by key l) l.
Proof.
  induction l as [| x l IH]; [done |].
  cbn [sort_by foldr]. fold (sort_by key l).
  transitivity (x :: sort_by key l); [| by constructor].
  clear IH. induction (sort_by key l) as [| y s IHs]; [done |].
  cbn [insert_by]. destruct (key x <=? key y); [done |].
  rewrite IHs. apply perm_swap.
Qed.

(** Hence [sort_by] yields the only list that is in key order and keeps
    the elements of each key in their order in [l]. *)
Lemma sort_by_canonical l l' :
  Sorted (fun a b => key a <= key b) l' ->
  (forall k, List.filter (fun a => key a =? k) l'
             = List.filter (fun a => key a =? k) l) ->
  l' = sort_by key l.
Proof.
  intros Hsorted Hstable. apply stable_sort_unique; [done | apply sort_by_sorted |].
  intros k. by rewrite sort_by_select.
Qed.

End PyFacts.

(** ** Facts about substring search and lower-casing *)

Lemma append_nil_l (s : string) : EmptyString +:+ s = s.
Proof. reflexivity. Qed.

Lemma append_cons (c : ascii) (a b : string) :
  String c a +:+ b = String c (a +:+ b).
Proof. reflexivity. Qed.

Lemma prefix_true_split (kw s : string) :
  String.prefix kw s = true -> exists after : string, s = kw +:+ after.
Proof.
  revert s. induction kw as [| c kw IH]; intros s Hp.
  - by exists s.
  - destruct s as [| d s]; [done |].
    cbn [String.prefix] in Hp.
    destruct (Ascii.ascii_dec c d) as [-> | Hne]; [| done].
    destruct (IH s Hp) as [after ->]. by exists after.
Qed.

Lemma prefix_app_true (kw after : string) : String.prefix kw (kw +:+ after) = true.
Proof.
  induction kw as [| c kw IH].
  - rewrite append_nil_l. by destruct after.
  - rewrite append_cons. cbn [String.prefix].
    by destruct (Ascii.ascii_dec c c).
Qed.

Lemma contains_occurs (kw s : string) :
  contains kw s = true <-> PromptEngine.occurs_in kw s.
Proof.
  unfold PromptEngine.occurs_in. split.
  - induction s as [| d s IH]; cbn [contains]; intros Hc.
    + rewrite orb_false_r in Hc.
      destruct (prefix_true_split _ _ Hc) as [after Heq].
      by exists EmptyString, after.
    + apply orb_true_iff in Hc as [Hp | Hrest].
      * destruct (prefix_true_split _ _ Hp) as [after Heq].
        by exists EmptyString, after.
      * destruct (IH Hrest) as (before & after & ->).
        by exists (String d before), after.
  - intros (before & after & ->).
    induction before as [| d before IH].
    + rewrite append_nil_l.
      destruct (kw +:+ after) eqn:Heq; cbn [contains]; rewrite <- Heq;
        by rewrite prefix_app_true.
    + rewrite append_cons. cbn [contains]. rewrite IH. apply orb_true_r.
Qed.

Lemma append_assoc (a b c : string) : (a +:+ b) +:+ c = a +:+ (b +:+ c).
Proof.
  induction a as [| d a IH]; [done |].
  by rewrite !append_cons, IH.
Qed.

Section Lowering.
Context {U : Unicode}.

(** Lower-casing goes through a text unit by unit: what a part of the
    text becomes depends on the whole text and on where the part
    stands, and the parts are joined in order. *)
Lemma lower_from_app (whole : string) (i : nat) (a b : string) :
  lower_from whole i (a +:+ b)
  = lower_from whole i a +:+ lower_from whole (i + String.length a) b.
Proof.
  revert i. induction a as [| c a IH]; intros i.
  - cbn [String.length]. by rewrite Nat.add_0_r, !append_nil_l.
  - rewrite append_cons. cbn [lower_from String.length].
    rewrite IH, Nat.add_succ_r. cbn [Nat.add].
    destruct (is_ascii c); [by rewrite append_cons | by rewrite append_assoc].
Qed.

(** A run of ASCII characters without capital letters is kept, whatever
    the text around it. *)
Lemma lower_from_lowercase (whole : string) (i : nat) (kw : string) :
  lowercase_text kw = true -> lower_from whole i kw = kw.
Proof.
  unfold lowercase_text. revert i.
  induction kw as [| c kw IH]; intros i Hkw; [done |].
  cbn [all_units] in Hkw. apply andb_true_iff in Hkw as [Hc Hkw].
  apply andb_true_iff in Hc as [Hascii Hfixed].
  cbn [lower_from]. rewrite Hascii, (IH _ Hkw).
  by apply Ascii.eqb_eq in Hfixed as ->.
Qed.

(** A keyword without capital letters that occurs in a text still
    occurs after the text is lower-cased. *)
Lemma occurs_in_lower (kw text : string) :
  lowercase_text kw = true -> PromptEngine.occurs_in kw text ->
  PromptEngine.occurs_in kw (lower text).
Proof.
  intros Hkw (before & after & ->). unfold lower.
  rewrite !lower_from_app, (lower_from_lowercase _ _ _ Hkw).
  by eexists _, _.
Qed.

(** On a text of ASCII characters the database is not consulted. *)
Lemma lower_from_ascii (whole : string) (i : nat) (s : string) :
  ascii_text s = true -> lower_from whole i s = map_units lower_ascii s.
Proof.
  unfold ascii_text. revert i.
  induction s as [| c s IH]; intros i Hs; [done |].
  cbn [all_units] in Hs. apply andb_true_iff in Hs as [Hc Hs].
  cbn [lower_from map_units]. by rewrite Hc, (IH _ Hs).
Qed.

Lemma upper_from_ascii (whole : string) (i : nat) (s : string) :
  ascii_text s = true -> PyText.upper_from whole i s = map_units PyText.upper_ascii s.
Proof.
  unfold ascii_text. revert i.
  induction s as [| c s IH]; intros i Hs; [done |].
  cbn [all_units] in Hs. apply andb_true_iff in Hs as [Hc Hs].
  cbn [PyText.upper_from map_units]. by rewrite Hc, (IH _ Hs).
Qed.

End Lowering.

Lemma any_in_true (kw : string) (kws : list string) (s : string) :
  In kw kws -> PromptEngine.occurs_in kw s -> any_in kws s = true.
Proof.
  intros Hin Hocc. unfold any_in. apply existsb_exists.
  exists kw. split; [exact Hin | by apply contains_occurs].
Qed.

Lemma any_in_occurs (kws : list string) (s : string) :
  any_in kws s = true <-> exists kw, In kw kws /\ PromptEngine.occurs_in kw s.
Proof.
  unfold any_in. rewrite existsb_exists.
  split; intros (kw & Hin & Hocc); exists kw; (split; [exact Hin |]);
    by apply contains_occurs.
Qed.

Lemma any_in_none (kws : list string) (s : string) :
  any_in kws s = false <-> forall kw, In kw kws -> ~ PromptEngine.occurs_in kw s.
Proof.
  split.
  - intros Hnone kw Hin Hocc.
    by rewrite (any_in_true kw kws s Hin Hocc) in Hnone.
  - intros Hnone. destruct (any_in kws s) eqn:Hany; [| done].
    apply any_in_occurs in Hany as (kw & Hin & Hocc). by destruct (Hnone kw Hin).
Qed.

(** The rules of a table decide the key: first-match evaluation has one
    result. *)
Lemma first_match_functional (lowered : string)
    (rules : list (list string * string)) (key1 key2 : string) :
  PromptEngine.first_match lowered rules key1 ->
  PromptEngine.first_match lowered rules key2 -> key1 = key2.
Proof.
  intros Hfirst. revert key2.
  induction Hfirst as [| kws key kw rest Hin Hocc | kws key result rest Hnone _ IH];
    intros key2 Hsecond.
  - by inversion Hsecond.
  - inversion Hsecond as [| | ? ? ? ? Hnone' _]; subst; [done |].
    by destruct (Hnone' kw Hin).
  - inversion Hsecond as [| ? ? kw' ? Hin' Hocc' |]; subst; [| by apply IH].
    by destruct (Hnone kw' Hin').
Qed.

(** ** Path health (diagnostics/perfsonar.py) *)

Section HealthStatus.
Import Perfsonar.

(** A float that is false as a condition is a zero, and a zero is not
    above a positive constant. *)
Lemma falsy_not_gt (v c : float) :
  float_truthy v = false -> PrimFloat.ltb 0%float c = true -> float_gt v c = false.
Proof.
  unfold float_truthy, float_gt. intros Hz Hc.
  apply negb_false_iff in Hz.
  rewrite FloatAxioms.eqb_spec in Hz.
  rewrite FloatAxioms.ltb_spec in Hc |- *.
  change (FloatOps.Prim2SF 0%float) with (SpecFloat.S754_zero false) in Hz, Hc.
  destruct (FloatOps.Prim2SF v) as [sv | sv | | sv mv ev];
    destruct (FloatOps.Prim2SF c) as [sc | sc | | sc mc ec];
    try done; try (by destruct sv); try (by destruct sc).
Qed.

Lemma guarded_gt (field : option float) (c : float) :
  PrimFloat.ltb 0%float c = true ->
  opt_float_truthy field && from_option (fun v => float_gt v c) false field
  = triggers field (fun v => float_gt v c).
Proof.
  intros Hc. destruct field as [v |]; [| done]. cbn.
  destruct (float_truthy v) eqn:Hv; [done |].
  symmetry. by apply falsy_not_gt.
Qed.

(** The code follows the documented precedence on every path whose
    throughput is missing or is not zero. *)
Lemma health_status_precedence (p : NetworkPath) :
  throughput_gbps p = None \/ opt_float_truthy (throughput_gbps p) = true ->
  health_status p = precedence_status p.
Proof.
  intros Hthr. unfold health_status, precedence_status.
  rewrite !guarded_gt by reflexivity.
  destruct (triggers (packet_loss_pct p) _); [done |].
  destruct (triggers (packet_loss_pct p) _); [done |].
  destruct (triggers (latency_ms p) _); [done |].
  cbn [orb].
  destruct Hthr as [-> | Hthr]; [done |].
  rewrite Hthr. by destruct (throughput_gbps p).
Qed.

(** The four paths of the repository's own test of the status. *)
#[local] Set Warnings "-inexact-float".
Example health_status_scenarios :
  health_status (measured (Some 8%float) (Some 20%float) (Some 0%float)) = "healthy"
  /\ health_status (measured None None (Some 0.8%float)) = "degraded"
  /\ health_status (measured None None (Some 2%float)) = "critical"
  /\ health_status (measured None (Some 150%float) (Some 0%float)) = "warning".
Proof. repeat split; reflexivity. Qed.
#[local] Set Warnings "inexact-float".

End HealthStatus.

(** C2. The status is meant to follow the precedence critical, degraded,
    warning, healthy with a present zero evaluated like any other
    value; on a path whose throughput is present and zero, with latency
    and packet loss in range, the documented rule gives "warning" and
    the code gives "healthy". *)
Theorem health_status_zero_throughput :
  Perfsonar.precedence_status Perfsonar.stalled_path = "warning"
  /\ Perfsonar.health_status Perfsonar.stalled_path = "healthy".
Proof. split; reflexivity. Qed.

(** ** Route analysis (diagnostics/traceroute.py) *)

Section RouteAnalysis.
Import Traceroute.

Lemma problematic_fold (all_hops : list TracerouteHop)
    (entries : list (nat * TracerouteHop)) (acc : list TracerouteHop) :
  fold_left (problematic_step all_hops) entries acc
  = acc ++ map snd (List.filter (flagged all_hops) entries).
Proof.
  revert acc. induction entries as [| [i hop] entries IH]; intros acc.
  - by rewrite app_nil_r.
  - cbn [fold_left List.filter]. rewrite IH.
    unfold problematic_step, flagged. cbn [fst snd].
    destruct (is_responding hop); cbn [negb orb].
    + destruct (latency_jump all_hops i hop); [| done].
      by rewrite <- app_assoc.
    + by rewrite <- app_assoc.
Qed.

(** What the loop computes: the hops, in path order, that do not
    respond or that pass the latency test of the code. *)
Lemma problematic_hops_filter (tr : TracerouteResult) :
  problematic_hops tr
  = map snd (List.filter (flagged (hops tr)) (enumerate (hops tr))).
Proof. unfold problematic_hops. by rewrite problematic_fold. Qed.

(** The first hop can only be reported for not responding. *)
Lemma first_hop_only_by_silence (all_hops : list TracerouteHop)
    (hop : TracerouteHop) :
  flagged all_hops (O, hop) = negb (is_responding hop).
Proof. unfold flagged, latency_jump. cbn. apply orb_false_r. Qed.

(** Every hop the code reports is problematic by the documented rule. *)
Lemma flagged_sound (all_hops : list TracerouteHop) (i : nat)
    (hop : TracerouteHop) :
  flagged all_hops (i, hop) = true -> problematic_by_rule all_hops i hop = true.
Proof.
  unfold flagged, problematic_by_rule, latency_jump, rtt_delta_exceeds.
  cbn [fst snd]. destruct (is_responding hop); cbn [negb orb andb]; [| done].
  destruct i as [| j]; [done |].
  replace (S j - 1)%nat with j by lia. cbn [Nat.ltb Nat.leb andb].
  destruct (all_hops !! j) as [prev |]; [| by rewrite andb_false_r].
  intros H. apply andb_true_iff in H as [_ H].
  by apply andb_true_iff in H as [_ H].
Qed.

(** On a trace none of whose round-trip times is a present zero, the
    code and the documented rule agree hop by hop. *)
Lemma flagged_complete (all_hops : list TracerouteHop) (i : nat)
    (hop : TracerouteHop) :
  (forall h, h ∈ hop :: all_hops ->
             rtt_ms h = None \/ opt_float_truthy (rtt_ms h) = true) ->
  flagged all_hops (i, hop) = problematic_by_rule all_hops i hop.
Proof.
  intros Hnz.
  unfold flagged, problematic_by_rule, latency_jump, rtt_delta_exceeds.
  cbn [fst snd]. destruct (is_responding hop); cbn [negb orb andb]; [| done].
  destruct i as [| j]; [done |].
  replace (S j - 1)%nat with j by lia. cbn [Nat.ltb Nat.leb andb].
  destruct (all_hops !! j) as [prev |] eqn:Hprev; [| by rewrite andb_false_r].
  assert (Hin : prev ∈ hop :: all_hops).
  { apply list_elem_of_further. by eapply list_elem_of_lookup_2. }
  destruct (Hnz hop ltac:(left)) as [-> | ->]; [done |].
  destruct (Hnz prev Hin) as [-> | ->]; [by destruct (rtt_ms hop) | done].
Qed.


End RouteAnalysis.

(** C3. The problematic hops are meant to be the silent hops together
    with the responding hops whose round-trip time exceeds that of the
    hop before by more than 20 ms.  In the trace [jump_after_zero] the
    second hop responds 25 ms after a first hop whose time is 0.0: the
    rule reports it, the code reports nothing. *)
Theorem problematic_hops_zero_rtt :
  Traceroute.problematic_by_rule (Traceroute.hops Traceroute.jump_after_zero) 1 Traceroute.far_hop = true
  /\ Traceroute.problematic_hops Traceroute.jump_after_zero = [].
Proof. split; reflexivity. Qed.




(** A responding final hop whose time is 0.0: the last responding hop
    has a time, the total has none. *)
Example total_rtt_ms_zero_final :
  Traceroute.last_responding_rtt Traceroute.instant_trace = Some 0%float
  /\ Traceroute.total_rtt_ms Traceroute.instant_trace = None.
Proof. split; reflexivity. Qed.

(** ** Query classification (llm/prompt_engine.py) *)

(** C6. The classifier goes through the rules in the fixed order
    anomaly, remediation, telemetry: its result is the key of the first
    rule one of whose keywords occurs in the lower-cased text, no
    keyword of an earlier rule occurring there, and the general
    template when no keyword of any rule occurs.  The text decides the
    result: no other key fits the rules.  A text in which both "fix"
    and "anomaly" occur is classified as an anomaly explanation. *)
Theorem classify_query_first_match (U : Unicode) (text : string) :
  PromptEngine.first_match (lower text) PromptEngine.RULES
    (PromptEngine.classify_query text)
  /\ (forall key,
        PromptEngine.first_match (lower text) PromptEngine.RULES key ->
        key = PromptEngine.classify_query text)
  /\ (PromptEngine.occurs_in "fix" text ->
      PromptEngine.occurs_in "anomaly" text ->
      PromptEngine.classify_query text = "anomaly_explanation").
Proof.
  assert (Hrules :
    PromptEngine.first_match (lower text) PromptEngine.RULES
      (PromptEngine.classify_query text)).
  { unfold PromptEngine.classify_query, PromptEngine.RULES.
    match goal with |- context [if any_in ?kws ?s then _ else _] =>
      destruct (any_in kws s) eqn:Hanomaly end.
    { apply any_in_occurs in Hanomaly as (kw & Hin & Hocc).
      by eapply PromptEngine.rule_applies. }
    apply PromptEngine.rule_passed; [exact (proj1 (any_in_none _ _) Hanomaly) |].
    match goal with |- context [if any_in ?kws ?s then _ else _] =>
      destruct (any_in kws s) eqn:Hremediation end.
    { apply any_in_occurs in Hremediation as (kw & Hin & Hocc).
      by eapply PromptEngine.rule_applies. }
    apply PromptEngine.rule_passed; [exact (proj1 (any_in_none _ _) Hremediation) |].
    match goal with |- context [if any_in ?kws ?s then _ else _] =>
      destruct (any_in kws s) eqn:Htelemetry end.
    { apply any_in_occurs in Htelemetry as (kw & Hin & Hocc).
      by eapply PromptEngine.rule_applies. }
    apply PromptEngine.rule_passed; [exact (proj1 (any_in_none _ _) Htelemetry) |].
    apply PromptEngine.no_rule_left. }
  split; [exact Hrules |]. split.
  - intros key Hkey. exact (first_match_functional _ _ _ _ Hkey Hrules).
  - intros _ Hanomaly. unfold PromptEngine.classify_query.
    rewrite (any_in_true "anomaly"); [done | by left |].
    by apply occurs_in_lower.
Qed.

Lemma classify_query_first_match_witness :
  PromptEngine.classify_query (U := caseless) "How do I fix this anomaly?"
  = "anomaly_explanation"
  /\ PromptEngine.classify_query (U := caseless) "Please FIX the link."
     = "remediation".
Proof.
  split.
  - destruct (classify_query_first_match caseless "How do I fix this anomaly?")
      as (_ & _ & Hboth).
    apply Hboth.
    + exists "How do I ", " this anomaly?". reflexivity.
    + exists "How do I fix this ", "?". reflexivity.
  - destruct (classify_query_first_match caseless "Please FIX the link.")
      as (_ & Hunique & _).
    symmetry. apply Hunique.
    apply PromptEngine.rule_passed.
    + apply (proj1 (any_in_none _ _)). vm_compute. reflexivity.
    + apply (PromptEngine.rule_applies _ _ _ "fix"); [by left |].
      exists "please ", " the link.". vm_compute. reflexivity.
Defined.

(** ** Anomaly detection (diagnostics/anomaly.py) *)

Section Detection.
Import Perfsonar Anomaly.
Context {rt : Runtime}.

Lemma classify_severity_total (d a b c : float) :
  exists sev, _classify_severity d [a; b; c] = Ok sev.
Proof.
  unfold _classify_severity. cbn.
  repeat case_match; by eexists.
Qed.

Lemma throughput_check_total (mean_val stdev_val pct : float) (src dst : string)
    (m : PerfSONARMeasurement) :
  exists found, throughput_check mean_val stdev_val pct src dst m = Ok found.
Proof.
  unfold throughput_check.
  match goal with |- context [if ?c then _ else Ok None] => destruct c end;
    [| by eexists].
  match goal with |- context [_classify_severity ?d [?a; ?b; ?c]] =>
    destruct (classify_severity_total d a b c) as [sev ->] end.
  by eexists.
Qed.

Lemma latency_check_total (mean_val stdev_val pct : float) (src dst : string)
    (m : PerfSONARMeasurement) :
  exists found, latency_check mean_val stdev_val pct src dst m = Ok found.
Proof.
  unfold latency_check.
  match goal with |- context [if ?c then _ else Ok None] => destruct c end;
    [| by eexists].
  match goal with |- context [_classify_severity ?d [?a; ?b; ?c]] =>
    destruct (classify_severity_total d a b c) as [sev ->] end.
  by eexists.
Qed.

Lemma scan_total (check : PerfSONARMeasurement -> Result (option Anomaly))
    (recent : list PerfSONARMeasurement) (acc : list Anomaly) :
  (forall m, exists found, check m = Ok found) ->
  exists out, scan check recent acc = Ok out.
Proof.
  intros Hcheck. revert acc.
  induction recent as [| m rest IH]; intros acc; cbn [scan].
  - by eexists.
  - destruct (Hcheck m) as [[a |] ->]; cbn; apply IH.
Qed.

Lemma detect_throughput_total (self : AnomalyDetector)
    (ms : list PerfSONARMeasurement) (src dst : string) :
  is_Some (thresholds self !! "throughput_drop_pct") ->
  statistics_return ms ->
  exists out, detect_throughput_anomalies self ms src dst = Ok out.
Proof.
  intros [pct Hpct] [[mean_val Hmean] [stdev_val Hstdev]].
  unfold detect_throughput_anomalies, getitem.
  destruct (length ms <? 5)%nat; [by eexists |].
  rewrite Hmean, Hpct. cbn [mbind Result_bind].
  destruct (1 <? length (map value ms))%nat; [rewrite Hstdev |];
    cbn [mbind Result_bind]; apply scan_total; intros m;
    apply throughput_check_total.
Qed.

Lemma detect_latency_total (self : AnomalyDetector)
    (ms : list PerfSONARMeasurement) (src dst : string) :
  is_Some (thresholds self !! "latency_spike_pct") ->
  statistics_return ms ->
  exists out, detect_latency_anomalies self ms src dst = Ok out.
Proof.
  intros [pct Hpct] [[mean_val Hmean] [stdev_val Hstdev]].
  unfold detect_latency_anomalies, getitem.
  destruct (length ms <? 5)%nat; [by eexists |].
  rewrite Hmean, Hpct. cbn [mbind Result_bind].
  destruct (1 <? length (map value ms))%nat; [rewrite Hstdev |];
    cbn [mbind Result_bind]; apply scan_total; intros m;
    apply latency_check_total.
Qed.

Lemma severity_order_inj (s1 s2 : AnomalySeverity) :
  severity_order s1 = severity_order s2 -> s1 = s2.
Proof. by destruct s1, s2. Qed.

Lemma rank_eqb_decide (s1 s2 : AnomalySeverity) :
  (severity_order s1 =? severity_order s2) = bool_decide (s1 = s2).
Proof. by destruct s1, s2. Qed.

(** Sorting by rank keeps, for each severity, the anomalies of that
    severity in the order they had. *)
Lemma sort_by_rank_stable (s : AnomalySeverity) (l : list Anomaly) :
  of_severity s (sort_by (fun a => severity_order (severity a)) l) = of_severity s l.
Proof.
  unfold of_severity.
  pose proof (sort_by_select (fun a => severity_order (severity a))
                (severity_order s) l) as Hsel.
  rewrite !(List.filter_ext (fun a => bool_decide (severity a = s))
              (fun a => severity_order (severity a) =? severity_order s));
    [exact Hsel | |]; intros a; symmetry; apply rank_eqb_decide.
Qed.

Lemma of_severity_all (s : AnomalySeverity) (l : list Anomaly) :
  Forall (fun a => severity a = s) (of_severity s l).
Proof.
  apply List.Forall_forall. intros a Hin.
  apply List.filter_In in Hin as [_ Hs]. by apply bool_decide_eq_true in Hs.
Qed.

Lemma of_severity_below (s : AnomalySeverity) (l : list Anomaly) (x : Anomaly) :
  severity_order s < severity_order (severity x) ->
  Forall (fun a => severity_order (severity a) < severity_order (severity x))
         (of_severity s l).
Proof.
  intros Hlt. eapply List.Forall_impl; [| apply of_severity_all].
  by intros a ->.
Qed.

Lemma of_severity_above (s : AnomalySeverity) (l : list Anomaly) (x : Anomaly) :
  severity_order (severity x) <= severity_order s ->
  Forall (fun a => severity_order (severity x) <= severity_order (severity a))
         (of_severity s l).
Proof.
  intros Hle. eapply List.Forall_impl; [| apply of_severity_all].
  by intros a ->.
Qed.

(** Sorting by the rank of [severity_order] puts the critical
    anomalies first, then the high, the medium and the low ones, and
    keeps the order within each group. *)
Lemma sort_by_rank_critical_first (l : list Anomaly) :
  sort_by (fun a => severity_order (severity a)) l = critical_first l.
Proof.
  induction l as [| x l IH]; [done |].
  cbn [sort_by foldr]. fold (sort_by (fun a => severity_order (severity a)) l).
  rewrite IH. unfold critical_first, of_severity. cbn [List.filter].
  fold (of_severity CRITICAL l) (of_severity HIGH l)
       (of_severity MEDIUM l) (of_severity LOW l).
  destruct (severity x) eqn:Hx; cbn [bool_decide decide_rel AnomalySeverity_eq_dec];
    cbn.
  - rewrite insert_by_skip by (apply of_severity_below; rewrite Hx; done).
    f_equal.
    rewrite insert_by_skip by (apply of_severity_below; rewrite Hx; done).
    f_equal.
    rewrite insert_by_skip by (apply of_severity_below; rewrite Hx; done).
    f_equal.
    apply insert_by_front, of_severity_above. by rewrite Hx.
  - rewrite insert_by_skip by (apply of_severity_below; rewrite Hx; done).
    f_equal.
    rewrite insert_by_skip by (apply of_severity_below; rewrite Hx; done).
    f_equal.
    apply insert_by_front. apply Forall_app.
    split; apply of_severity_above; by rewrite Hx.
  - rewrite insert_by_skip by (apply of_severity_below; rewrite Hx; done).
    f_equal.
    apply insert_by_front. rewrite !Forall_app.
    repeat split; apply of_severity_above; by rewrite Hx.
  - apply insert_by_front. rewrite !Forall_app.
    repeat split; apply of_severity_above; by rewrite Hx.
Qed.

End Detection.

(** C9. With fewer than five samples each detector returns the empty
    list, whatever the thresholds are; no exception is raised. *)
Theorem detect_short_input_empty (rt : Anomaly.Runtime)
    (self : Anomaly.AnomalyDetector)
    (ms : list Perfsonar.PerfSONARMeasurement) (src dst : string) :
  (length ms < 5)%nat ->
  Anomaly.detect_throughput_anomalies self ms src dst = Ok []
  /\ Anomaly.detect_latency_anomalies self ms src dst = Ok [].
Proof.
  intros Hshort.
  unfold Anomaly.detect_throughput_anomalies, Anomaly.detect_latency_anomalies.
  destruct (Nat.ltb_spec (length ms) 5) as [_ | Hlong]; [done | lia].
Qed.

Lemma detect_short_input_empty_witness :
  Anomaly.detect_throughput_anomalies (rt := Anomaly.sample_runtime)
    {| Anomaly.thresholds := ∅ |}
    [Anomaly.sample 0 9%float; Anomaly.sample 60 3%float] "" "" = Ok []
  /\ Anomaly.detect_latency_anomalies (rt := Anomaly.sample_runtime)
    {| Anomaly.thresholds := ∅ |}
    [Anomaly.sample 0 9%float; Anomaly.sample 60 3%float] "" "" = Ok [].
Proof.
  apply (detect_short_input_empty Anomaly.sample_runtime). cbn. lia.
Defined.

(** C4. [detect_all] returns a list exactly when both detectors do,
    and the list is then the critical anomalies, followed by the high,
    the medium and the low ones, where each group holds the anomalies
    of that severity in the order they have in the throughput
    detector's output followed by the latency detector's output.  It
    does return when the thresholds hold the two percentages the
    detectors read and the statistics return on both sample lists. *)
Theorem detect_all_sorted_stable (rt : Anomaly.Runtime)
    (self : Anomaly.AnomalyDetector)
    (throughput_data latency_data : list Perfsonar.PerfSONARMeasurement)
    (src dst : string) :
  (forall out,
     Anomaly.detect_all self throughput_data latency_data src dst = Ok out
     <-> exists from_throughput from_latency,
           Anomaly.detect_throughput_anomalies self throughput_data src dst
             = Ok from_throughput
           /\ Anomaly.detect_latency_anomalies self latency_data src dst
             = Ok from_latency
           /\ out = Anomaly.critical_first (from_throughput ++ from_latency))
  /\ (is_Some (Anomaly.thresholds self !! "throughput_drop_pct") ->
      is_Some (Anomaly.thresholds self !! "latency_spike_pct") ->
      Anomaly.statistics_return throughput_data ->
      Anomaly.statistics_return latency_data ->
      exists out,
        Anomaly.detect_all self throughput_data latency_data src dst = Ok out).
Proof.
  assert (Hiff : forall out,
    Anomaly.detect_all self throughput_data latency_data src dst = Ok out
    <-> exists from_throughput from_latency,
          Anomaly.detect_throughput_anomalies self throughput_data src dst
            = Ok from_throughput
          /\ Anomaly.detect_latency_anomalies self latency_data src dst
            = Ok from_latency
          /\ out = Anomaly.critical_first (from_throughput ++ from_latency)).
  { intros out. unfold Anomaly.detect_all.
    destruct (Anomaly.detect_throughput_anomalies self throughput_data src dst)
      as [a | e]; cbn [mbind Result_bind];
      [| split; [done | by intros (? & ? & ? & _)]].
    destruct (Anomaly.detect_latency_anomalies self latency_data src dst)
      as [b | e]; cbn [mbind Result_bind];
      [| split; [done | by intros (? & ? & _ & ? & _)]].
    cbn [app]. rewrite sort_by_rank_critical_first. split.
    - intros [= <-]. by exists a, b.
    - by intros (? & ? & [= <-] & [= <-] & ->). }
  split; [exact Hiff |].
  intros Hthr Hlat Hstat_thr Hstat_lat.
  destruct (detect_throughput_total self throughput_data src dst Hthr Hstat_thr)
    as [a Ha].
  destruct (detect_latency_total self latency_data src dst Hlat Hstat_lat)
    as [b Hb].
  eexists. apply Hiff. by exists a, b.
Qed.

Lemma detect_all_sorted_stable_witness :
  exists from_throughput from_latency,
    Anomaly.detect_all (rt := Anomaly.sample_runtime) (Anomaly.init None)
      Anomaly.dipped_throughput Anomaly.surging_latency "" ""
    = Ok (Anomaly.critical_first (from_throughput ++ from_latency))
    /\ map Anomaly.severity (from_throughput ++ from_latency)
       = [Anomaly.MEDIUM; Anomaly.CRITICAL]
    /\ map Anomaly.severity (Anomaly.critical_first (from_throughput ++ from_latency))
       = [Anomaly.CRITICAL; Anomaly.MEDIUM].
Proof.
  destruct (detect_all_sorted_stable Anomaly.sample_runtime (Anomaly.init None)
              Anomaly.dipped_throughput Anomaly.surging_latency "" "")
    as [Hiff _].
  destruct (Anomaly.detect_throughput_anomalies (rt := Anomaly.sample_runtime)
              (Anomaly.init None) Anomaly.dipped_throughput "" "")
    as [a | e] eqn:Ha; [| vm_compute in Ha; discriminate].
  destruct (Anomaly.detect_latency_anomalies (rt := Anomaly.sample_runtime)
              (Anomaly.init None) Anomaly.surging_latency "" "")
    as [b | e] eqn:Hb; [| vm_compute in Hb; discriminate].
  exists a, b. split.
  - apply Hiff. by exists a, b.
  - vm_compute in Ha. vm_compute in Hb.
    injection Ha as <-. injection Hb as <-. split; reflexivity.
Defined.

(** The run of the two detectors on the samples around 3 Gbps and
    70 ms: the drop is critical, the spike is high, and the critical
    one comes first. *)
Example detect_all_recent :
  (fun out => map (fun a => (Anomaly.severity a, Anomaly.anomaly_type a,
                             Anomaly.detected_at a)) out)
  <$> (match Anomaly.detect_all (rt := Anomaly.sample_runtime) (Anomaly.init None)
               Anomaly.recent_throughput Anomaly.recent_latency "" "" with
       | Ok out => Some out
       | Err _ => None
       end)
  = Some [ (Anomaly.CRITICAL, Anomaly.THROUGHPUT_DROP, 8);
           (Anomaly.HIGH, Anomaly.LATENCY_SPIKE, 4) ].
Proof. vm_compute. reflexivity. Qed.

(** ** Conversation store and context composer (context/manager.py) *)

Section Store.
Import PromptEngine Context.
Context {U : Unicode}.

Lemma get_history_empty (conv : Conversation) (window : option Z) :
  messages conv = [] -> get_history conv window = [].
Proof.
  intros Hnil. unfold get_history. rewrite Hnil.
  destruct window as [n |]; [| done].
  destruct (negb (n =? 0)); [| done].
  by rewrite slice_from_empty.
Qed.

(** The message list of [build_messages] without history. *)
Lemma build_messages_no_history (text template : string) (tele : option string) :
  exists system_text,
    build_messages text (Some []) template tele
    = [ {| role := "system"; content := system_text |};
        {| role := "user"; content := text |} ].
Proof.
  unfold build_messages. cbn [app].
  destruct tele as [ctx |]; [destruct (str_truthy ctx) |]; by eexists.
Qed.

(** The message list of [build_messages] in general: the system message,
    the history as given, the new user message. *)
Lemma build_messages_shape (text template : string) (tele : option string)
    (history : list ChatDict) :
  exists system_text,
    build_messages text (Some history) template tele
    = {| role := "system"; content := system_text |}
      :: history ++ [ {| role := "user"; content := text |} ].
Proof.
  unfold build_messages. cbn [app].
  destruct tele as [ctx |]; [destruct (str_truthy ctx) |];
    destruct history; by eexists.
Qed.

(** A call on an id the store holds: the window is taken from the
    history as it stood, and the user turn is appended to the stored
    conversation. *)
Lemma build_llm_messages_known_id (self : ContextManager) (env : Ambient)
    (cid text : string) (src dst : option string) (conv : Conversation) :
  get_conversation self cid = Some conv ->
  (exists system_text,
     fst (build_llm_messages self env cid text src dst)
     = {| role := "system"; content := system_text |}
       :: get_history conv (Some (context_window_size (settings self)))
       ++ [ {| role := "user"; content := text |} ])
  /\ exists conv',
       get_conversation (snd (build_llm_messages self env cid text src dst)) cid
       = Some conv'
       /\ id conv' = id conv
       /\ messages conv' = messages conv ++ [user_turn env text].
Proof.
  intros Hfound. unfold build_llm_messages. rewrite Hfound. cbn [fst snd add_message].
  split; [apply build_messages_shape |].
  eexists. split; [| split].
  - unfold get_conversation, with_conversations. cbn. apply lookup_insert_eq.
  - done.
  - done.
Qed.

(** A call on an id the store does not hold leaves that id without an
    entry, unless the generated id happens to be the requested one: the
    new conversation sits under the generated id. *)
Lemma build_llm_messages_unknown_id_slot (self : ContextManager) (env : Ambient)
    (cid text : string) (src dst : option string) :
  get_conversation self cid = None ->
  uuid4 env <> cid ->
  get_conversation (snd (build_llm_messages self env cid text src dst)) cid = None.
Proof.
  intros Hmissing Hfresh. unfold build_llm_messages. rewrite Hmissing.
  unfold get_conversation in *. cbn.
  by rewrite !lookup_insert_ne.
Qed.

End Store.

(** C10. Committing an assistant turn under an id the store does not
    hold changes nothing: the manager afterwards is the manager before,
    so no message is stored and no conversation is touched, and the
    call returns without raising. *)
Theorem record_assistant_response_unknown_id (self : Context.ContextManager)
    (now : Z) (cid content : string) :
  Context.get_conversation self cid = None ->
  Context.record_assistant_response self now cid content = self.
Proof.
  intros Hmissing. unfold Context.record_assistant_response. by rewrite Hmissing.
Qed.

Lemma record_assistant_response_unknown_id_witness :
  Context.record_assistant_response Context.empty_manager 7 "nobody" "hello"
  = Context.empty_manager.
Proof.
  apply record_assistant_response_unknown_id. reflexivity.
Defined.

(** C7. A call on an id the store does not hold returns exactly a
    system message followed by a user message whose content is the
    user's text; the conversation it creates had an empty history when
    the window was taken and holds the user turn, and only it,
    afterwards. *)
Theorem build_llm_messages_new_conversation (U : Unicode)
    (self : Context.ContextManager) (env : Context.Ambient) (cid text : string) (src dst : option string) :
  Context.get_conversation self cid = None ->
  (exists system_text,
     fst (Context.build_llm_messages self env cid text src dst)
     = [ {| PromptEngine.role := "system"; PromptEngine.content := system_text |};
         {| PromptEngine.role := "user"; PromptEngine.content := text |} ])
  /\ Context.get_conversation
       (snd (Context.build_llm_messages self env cid text src dst))
       (Context.uuid4 env)
     = Some {| Context.id := cid;
               Context.messages := [Context.user_turn env text];
               Context.created_at := Context.created_now env;
               Context.network_context := ∅ |}.
Proof.
  intros Hmissing. unfold Context.build_llm_messages. rewrite Hmissing.
  cbn [Context.create_conversation fst snd Context.add_message Context.id
       Context.messages Context.created_at Context.network_context].
  split.
  - rewrite get_history_empty by done. apply build_messages_no_history.
  - unfold Context.get_conversation, Context.with_conversations. cbn.
    by rewrite lookup_insert_eq.
Qed.

Lemma build_llm_messages_new_conversation_witness :
  map PromptEngine.role
    (fst (Context.build_llm_messages (U := caseless) Context.empty_manager
            Context.first_call "session-42" "Is the Chicago path healthy?"
            None None))
  = ["system"; "user"].
Proof.
  destruct (build_llm_messages_new_conversation caseless Context.empty_manager
              Context.first_call "session-42" "Is the Chicago path healthy?"
              None None eq_refl) as [[system_text Hshape] _].
  rewrite Hshape. reflexivity.
Defined.

(** C5. When an assistant turn is committed to a stored conversation
    and the count of messages then exceeds the history bound, exactly
    the bound's number of most recent messages remain, in the order in
    which they were appended: the old messages followed by the new one,
    without the oldest ones.  (Under a negative bound none remains.)
    When the count does not exceed the bound every message remains.  A
    user turn appended by the composer goes to the end of the history
    in the same way, so no append reorders the messages that are
    there. *)
Theorem record_assistant_response_window (U : Unicode)
    (self : Context.ContextManager) (now : Z) (cid content : string)
    (conv : Context.Conversation) :
  Context.get_conversation self cid = Some conv ->
  (exists conv',
     Context.get_conversation
       (Context.record_assistant_response self now cid content) cid = Some conv'
     /\ (Context.max_conversation_history (Context.settings self)
           < Z.of_nat (length (Context.messages conv)) + 1 ->
         Z.of_nat (length (Context.messages conv'))
         = Z.max 0 (Context.max_conversation_history (Context.settings self))
         /\ Context.messages conv'
            = drop (length (Context.messages conv) + 1
                    - Z.to_nat (Context.max_conversation_history
                                  (Context.settings self)))
                   (Context.messages conv ++ [Context.assistant_turn now content]))
     /\ (Z.of_nat (length (Context.messages conv)) + 1
           <= Context.max_conversation_history (Context.settings self) ->
         Context.messages conv'
         = Context.messages conv ++ [Context.assistant_turn now content])
     /\ Context.messages conv'
          `suffix_of` (Context.messages conv ++ [Context.assistant_turn now content]))
  /\ (forall env text src dst,
        exists conv',
          Context.get_conversation
            (snd (Context.build_llm_messages self env cid text src dst)) cid
          = Some conv'
          /\ Context.messages conv'
             = Context.messages conv ++ [Context.user_turn env text]).
Proof.
  intros Hfound. split.
  - unfold Context.record_assistant_response. rewrite Hfound.
    cbn [Context.add_message].
    fold (Context.assistant_turn now content).
    set (appended := Context.messages conv ++ [Context.assistant_turn now content]).
    assert (Hlen : length appended = (length (Context.messages conv) + 1)%nat).
    { unfold appended. rewrite length_app. cbn. lia. }
    unfold Context.message_count. cbn [Context.messages]. fold appended.
    destruct (Z.ltb_spec (Context.max_conversation_history (Context.settings self))
                (Z.of_nat (length appended))) as [Hover | Hfits].
    + eexists. split; [apply lookup_insert_eq |].
      cbn [Context.messages].
      rewrite slice_from_nonneg by lia.
      split; [| split; [lia | apply suffix_drop]].
      intros _. split.
      * rewrite length_drop. lia.
      * destruct (Z.le_gt_cases 0
                    (Context.max_conversation_history (Context.settings self)))
          as [Hbound | Hnegative]; [f_equal; lia |].
        by rewrite !drop_ge by lia.
    + eexists. split; [apply lookup_insert_eq |].
      cbn [Context.messages].
      split; [lia |]. split; [done | done].
  - intros env text src dst.
    destruct (build_llm_messages_known_id self env cid text src dst conv Hfound)
      as (_ & conv' & Hget & _ & Hmsgs).
    by exists conv'.
Qed.

Lemma record_assistant_response_window_witness :
  exists conv',
    Context.get_conversation
      (Context.record_assistant_response Context.short_memory 12 "c-1"
         "And it is fast.") "c-1" = Some conv'
    /\ map Context.m_content (Context.messages conv')
       = ["It is."; "And it is fast."].
Proof.
  destruct (record_assistant_response_window caseless Context.short_memory 12
              "c-1" "And it is fast."
              {| Context.id := "c-1";
                 Context.messages :=
                   [ {| Context.m_role := "user";
                        Context.m_content := "Is the path up?";
                        Context.m_timestamp := 10; Context.m_metadata := ∅ |};
                     {| Context.m_role := "assistant";
                        Context.m_content := "It is.";
                        Context.m_timestamp := 11; Context.m_metadata := ∅ |} ];
                 Context.created_at := 9;
                 Context.network_context := ∅ |} eq_refl)
    as [(conv' & Hget & Htrim & _) _].
  exists conv'. split; [exact Hget |].
  destruct Htrim as [_ ->]; [vm_compute; reflexivity | reflexivity].
Defined.

(** C1. A call on an id the store does not hold is meant to leave the
    new conversation reachable under that id.  Starting from an empty
    store, after the first call with the id "session-42" the store has
    no entry for it: the conversation, whose [id] attribute does read
    "session-42", sits under the generated id; the assistant reply
    committed under "session-42" is dropped; and the second call with
    the same id returns a system message and the new user message
    only, without the first call's user message. *)
Theorem build_llm_messages_unknown_id_not_resumed (U : Unicode) :
  Context.get_conversation Context.after_first_call "session-42" = None
  /\ (Context.get_conversation Context.after_first_call
        (Context.uuid4 Context.first_call)
      = Some {| Context.id := "session-42";
                Context.messages :=
                  [Context.user_turn Context.first_call "Is the Chicago path healthy?"];
                Context.created_at := 1000;
                Context.network_context := ∅ |})
  /\ Context.after_first_reply = Context.after_first_call
  /\ map (fun m => (PromptEngine.role m, PromptEngine.content m))
         (tail (fst (Context.build_llm_messages Context.after_first_reply
                       Context.second_call "session-42" "And the Seattle path?"
                       None None)))
     = [("user", "And the Seattle path?")].
Proof.
  assert (Hmissing :
    Context.get_conversation Context.after_first_call "session-42" = None).
  { apply build_llm_messages_unknown_id_slot; [reflexivity | discriminate]. }
  assert (Hreply : Context.after_first_reply = Context.after_first_call).
  { unfold Context.after_first_reply, Context.record_assistant_response.
    by rewrite Hmissing. }
  split; [exact Hmissing |]. split; [reflexivity |]. split; [exact Hreply |].
  rewrite Hreply. unfold Context.build_llm_messages. rewrite Hmissing.
  reflexivity.
Qed.

(** * Further properties of the code *)

(** ** The conversation store *)

Section StoreMore.
Import PromptEngine Context.
Context {U : Unicode}.

Lemma get_history_some (conv : Conversation) (n : Z) :
  n <> 0 -> get_history conv (Some n) = map to_dict (slice_from (- n) (messages conv)).
Proof.
  intros Hn. unfold get_history.
  by destruct (Z.eqb_spec n 0) as [-> | _].
Qed.

Lemma build_llm_messages_settings (self : ContextManager) (env : Ambient)
    (cid text : string) (src dst : option string) :
  settings (snd (build_llm_messages self env cid text src dst)) = settings self.
Proof.
  unfold build_llm_messages.
  by destruct (get_conversation self cid).
Qed.

(** The stored messages after a call on a known id. *)
Lemma build_llm_messages_known_store (self : ContextManager) (env : Ambient)
    (cid text : string) (src dst : option string) (conv : Conversation) :
  get_conversation self cid = Some conv ->
  get_conversation (snd (build_llm_messages self env cid text src dst)) cid
  = Some {| id := id conv;
            messages := messages conv ++ [user_turn env text];
            created_at := created_at conv;
            network_context := network_context conv |}.
Proof.
  intros Hfound. unfold build_llm_messages. rewrite Hfound.
  cbn [fst snd add_message]. unfold get_conversation, with_conversations. cbn.
  apply lookup_insert_eq.
Qed.

End StoreMore.

(** X1. With a positive window [n], [get_history] returns the last [n]
    messages (all of them when there are fewer), in order, as role and
    content pairs. *)
Theorem get_history_window (conv : Context.Conversation) (n : Z) :
  0 < n ->
  Context.get_history conv (Some n)
  = map Context.to_dict
      (drop (length (Context.messages conv) - Z.to_nat n) (Context.messages conv))
  /\ length (Context.get_history conv (Some n))
     = Nat.min (length (Context.messages conv)) (Z.to_nat n).
Proof.
  intros Hpos. rewrite get_history_some by lia.
  rewrite slice_from_neg by lia. rewrite Z.opp_involutive.
  split; [done |].
  rewrite length_map, length_drop. lia.
Qed.

Lemma get_history_window_witness :
  length (Context.get_history
            {| Context.id := "c"; Context.messages :=
                 [ Context.assistant_turn 1 "one"; Context.assistant_turn 2 "two";
                   Context.assistant_turn 3 "three" ];
               Context.created_at := 0; Context.network_context := ∅ |}
            (Some 2))
  = 2%nat.
Proof.
  destruct (get_history_window
              {| Context.id := "c"; Context.messages :=
                   [ Context.assistant_turn 1 "one"; Context.assistant_turn 2 "two";
                     Context.assistant_turn 3 "three" ];
                 Context.created_at := 0; Context.network_context := ∅ |}
              2 ltac:(lia)) as [_ Hlen].
  rewrite Hlen. reflexivity.
Defined.

(** X2. A window that is not positive does not bound the history: with
    0 the whole history is returned, and with a negative number [-k]
    the oldest [k] messages are dropped and all later ones returned. *)
Theorem get_history_nonpositive (conv : Context.Conversation) (n : Z) :
  n <= 0 ->
  Context.get_history conv (Some n)
  = map Context.to_dict (drop (Z.to_nat (- n)) (Context.messages conv)).
Proof.
  intros Hn. destruct (Z.eq_dec n 0) as [-> | Hne].
  - reflexivity.
  - rewrite get_history_some by done. by rewrite slice_from_nonneg by lia.
Qed.

Lemma get_history_nonpositive_witness :
  Context.get_history
    {| Context.id := "c"; Context.messages :=
         [ Context.assistant_turn 1 "one"; Context.assistant_turn 2 "two";
           Context.assistant_turn 3 "three" ];
       Context.created_at := 0; Context.network_context := ∅ |}
    (Some (-1))
  = [ {| PromptEngine.role := "assistant"; PromptEngine.content := "two" |};
      {| PromptEngine.role := "assistant"; PromptEngine.content := "three" |} ].
Proof.
  rewrite get_history_nonpositive by lia. reflexivity.
Defined.

(** X3. On a stored conversation and with a positive window size, the
    message list is the system message, then the last
    [context_window_size] messages of the history as it stood before
    the call, then the new user message: at most
    [context_window_size + 2] messages. *)
Theorem build_llm_messages_window_bound (U : Unicode)
    (self : Context.ContextManager)
    (env : Context.Ambient) (cid text : string) (src dst : option string)
    (conv : Context.Conversation) :
  Context.get_conversation self cid = Some conv ->
  0 < Context.context_window_size (Context.settings self) ->
  (exists system_text,
     fst (Context.build_llm_messages self env cid text src dst)
     = {| PromptEngine.role := "system"; PromptEngine.content := system_text |}
       :: map Context.to_dict
            (drop (length (Context.messages conv)
                   - Z.to_nat (Context.context_window_size (Context.settings self)))
                  (Context.messages conv))
       ++ [ {| PromptEngine.role := "user"; PromptEngine.content := text |} ])
  /\ Z.of_nat (length (fst (Context.build_llm_messages self env cid text src dst)))
     <= Context.context_window_size (Context.settings self) + 2.
Proof.
  intros Hfound Hpos.
  destruct (build_llm_messages_known_id self env cid text src dst conv Hfound)
    as [[system_text Hshape] _].
  rewrite Hshape. rewrite get_history_some by lia.
  rewrite slice_from_neg by lia. rewrite Z.opp_involutive.
  split; [by exists system_text |].
  cbn [length]. rewrite length_app, length_map, length_drop. cbn [length]. lia.
Qed.

Lemma build_llm_messages_window_bound_witness :
  Z.of_nat (length (fst (Context.build_llm_messages (U := caseless) (Context.after_first_call (U := caseless))
                           Context.second_call
                           (Context.uuid4 Context.first_call) "And now?" None None)))
  <= 12.
Proof.
  apply (build_llm_messages_window_bound caseless (Context.after_first_call (U := caseless)) Context.second_call
           (Context.uuid4 Context.first_call) "And now?" None None
           {| Context.id := "session-42";
              Context.messages :=
                [Context.user_turn Context.first_call "Is the Chicago path healthy?"];
              Context.created_at := 1000;
              Context.network_context := ∅ |}).
  - reflexivity.
  - vm_compute. reflexivity.
Defined.

(** X4. A call of [build_llm_messages] touches one entry of the store,
    the one of the requested id or, when that id is unknown, the one
    of the generated id; every other conversation and the settings
    stay as they were. *)
Theorem build_llm_messages_frame (U : Unicode)
    (self : Context.ContextManager)
    (env : Context.Ambient) (cid text : string) (src dst : option string)
    (other : string) :
  other <> cid -> other <> Context.uuid4 env ->
  Context.get_conversation
    (snd (Context.build_llm_messages self env cid text src dst)) other
  = Context.get_conversation self other
  /\ Context.settings (snd (Context.build_llm_messages self env cid text src dst))
     = Context.settings self.
Proof.
  intros Hcid Huuid. split; [| apply build_llm_messages_settings].
  unfold Context.build_llm_messages.
  destruct (Context.get_conversation self cid) as [conv |];
    unfold Context.get_conversation; cbn.
  - by rewrite lookup_insert_ne.
  - by rewrite !lookup_insert_ne.
Qed.

Lemma build_llm_messages_frame_witness :
  Context.get_conversation
    (snd (Context.build_llm_messages (U := caseless) (Context.after_first_call (U := caseless)) Context.second_call
            "session-43" "Hello" None None))
    (Context.uuid4 Context.first_call)
  = Context.get_conversation (Context.after_first_call (U := caseless))
      (Context.uuid4 Context.first_call).
Proof.
  apply (build_llm_messages_frame caseless (Context.after_first_call (U := caseless)) Context.second_call
           "session-43" "Hello" None None (Context.uuid4 Context.first_call));
    discriminate.
Defined.

(** X5. Committing an assistant turn under one id leaves every other
    conversation and the settings as they were. *)
Theorem record_assistant_response_frame (self : Context.ContextManager)
    (now : Z) (cid content other : string) :
  other <> cid ->
  Context.get_conversation
    (Context.record_assistant_response self now cid content) other
  = Context.get_conversation self other
  /\ Context.settings (Context.record_assistant_response self now cid content)
     = Context.settings self.
Proof.
  intros Hother. unfold Context.record_assistant_response.
  destruct (Context.get_conversation self cid) as [conv |]; [| done].
  unfold Context.get_conversation. cbn. by rewrite lookup_insert_ne.
Qed.

Lemma record_assistant_response_frame_witness :
  Context.get_conversation
    (Context.record_assistant_response (Context.after_first_call (U := caseless)) 5
       "elsewhere" "reply")
    (Context.uuid4 Context.first_call)
  = Context.get_conversation (Context.after_first_call (U := caseless))
      (Context.uuid4 Context.first_call).
Proof.
  apply (record_assistant_response_frame (Context.after_first_call (U := caseless)) 5
           "elsewhere" "reply" (Context.uuid4 Context.first_call)).
  discriminate.
Defined.

(** X6. [delete_conversation] answers true exactly when the id had an
    entry; afterwards the id has none, and every other conversation is
    as before. *)
Theorem delete_conversation_removes (self : Context.ContextManager)
    (cid : string) :
  (fst (Context.delete_conversation self cid) = true
   <-> is_Some (Context.get_conversation self cid))
  /\ Context.get_conversation (snd (Context.delete_conversation self cid)) cid = None
  /\ (forall other, other <> cid ->
        Context.get_conversation (snd (Context.delete_conversation self cid)) other
        = Context.get_conversation self other).
Proof.
  unfold Context.delete_conversation, Context.get_conversation.
  destruct (Context._conversations self !! cid) as [conv |] eqn:Hfound; cbn.
  - split; [by split; eauto |].
    split; [apply lookup_delete_eq |].
    intros other Hother. by rewrite lookup_delete_ne.
  - split; [split; [done | by intros [? ?]] |].
    split; [exact Hfound | done].
Qed.

(** X7. A conversation made by [create_conversation] is found under
    its generated id with an empty history; if that id was free,
    deleting it again gives back the manager as it was. *)
Theorem create_then_delete (self : Context.ContextManager) (env : Context.Ambient) :
  Context.get_conversation (snd (Context.create_conversation self env))
    (Context.uuid4 env)
  = Some (fst (Context.create_conversation self env))
  /\ Context.messages (fst (Context.create_conversation self env)) = []
  /\ (Context.get_conversation self (Context.uuid4 env) = None ->
      Context.delete_conversation (snd (Context.create_conversation self env))
        (Context.uuid4 env)
      = (true, self)).
Proof.
  unfold Context.create_conversation, Context.get_conversation. cbn.
  split; [apply lookup_insert_eq |]. split; [done |].
  intros Hfree. unfold Context.delete_conversation, Context.with_conversations. cbn.
  rewrite lookup_insert_eq. cbn.
  rewrite delete_insert_eq, (delete_id _ _ Hfree). by destruct self.
Qed.

Lemma create_then_delete_witness :
  Context.delete_conversation
    (snd (Context.create_conversation Context.empty_manager Context.first_call))
    (Context.uuid4 Context.first_call)
  = (true, Context.empty_manager).
Proof.
  destruct (create_then_delete Context.empty_manager Context.first_call)
    as (_ & _ & Hback).
  apply Hback. reflexivity.
Defined.

(** X8. A complete turn on a stored conversation, the composer call
    followed by the commit of the reply, with a history bound of at
    least 2: the stored history ends with the user turn and the
    assistant turn, what precedes them is a suffix of the old history,
    and the count does not exceed the bound.  Trimming never splits
    the exchange just recorded. *)
Theorem complete_turn_kept (U : Unicode)
    (self : Context.ContextManager) (env : Context.Ambient)
    (now : Z) (cid text reply : string) (src dst : option string)
    (conv : Context.Conversation) :
  Context.get_conversation self cid = Some conv ->
  2 <= Context.max_conversation_history (Context.settings self) ->
  exists conv' kept,
    Context.get_conversation
      (Context.record_assistant_response
         (snd (Context.build_llm_messages self env cid text src dst)) now cid reply)
      cid = Some conv'
    /\ Context.messages conv'
       = kept ++ [Context.user_turn env text; Context.assistant_turn now reply]
    /\ kept `suffix_of` Context.messages conv
    /\ Z.of_nat (length (Context.messages conv'))
       <= Context.max_conversation_history (Context.settings self).
Proof.
  intros Hfound Hbound.
  pose proof (build_llm_messages_known_store self env cid text src dst conv Hfound)
    as Hstored.
  unfold Context.record_assistant_response. rewrite Hstored.
  rewrite build_llm_messages_settings.
  cbn [Context.add_message Context.messages].
  fold (Context.assistant_turn now reply).
  unfold Context.message_count at 1 2. cbn [Context.messages].
  rewrite <- app_assoc. cbn [app].
  set (old := Context.messages conv).
  set (pair := [Context.user_turn env text; Context.assistant_turn now reply]).
  assert (Hlen : length (old ++ pair) = (length old + 2)%nat).
  { rewrite length_app. reflexivity. }
  destruct (Z.ltb_spec (Context.max_conversation_history (Context.settings self))
              (Z.of_nat (length (old ++ pair)))) as [Hover | Hfits].
  - eexists. exists (drop (Z.to_nat (Z.of_nat (length (old ++ pair))
                       - Context.max_conversation_history (Context.settings self)))
                      old).
    split; [apply lookup_insert_eq |].
    cbn [Context.messages]. rewrite slice_from_nonneg by lia.
    split; [| split].
    + rewrite drop_app_le by lia. done.
    + apply suffix_drop.
    + cbn [Context.messages]. rewrite length_drop. lia.
  - eexists. exists old.
    split; [apply lookup_insert_eq |].
    cbn [Context.messages]. split; [done |]. split; [done |]. lia.
Qed.

Lemma complete_turn_kept_witness :
  exists conv',
    Context.get_conversation
      (Context.record_assistant_response
         (snd (Context.build_llm_messages (U := caseless) (Context.after_first_call (U := caseless)) Context.second_call
                 (Context.uuid4 Context.first_call) "And now?" None None))
         2002 (Context.uuid4 Context.first_call) "Still healthy.")
      (Context.uuid4 Context.first_call) = Some conv'
    /\ Z.of_nat (length (Context.messages conv')) <= 50.
Proof.
  destruct (complete_turn_kept caseless (Context.after_first_call (U := caseless)) Context.second_call 2002
              (Context.uuid4 Context.first_call) "And now?" "Still healthy."
              None None
              {| Context.id := "session-42";
                 Context.messages :=
                   [Context.user_turn Context.first_call "Is the Chicago path healthy?"];
                 Context.created_at := 1000;
                 Context.network_context := ∅ |})
    as (conv' & kept & Hget & _ & _ & Hcount).
  - reflexivity.
  - vm_compute. discriminate.
  - exists conv'. split; [exact Hget | exact Hcount].
Defined.

(** X9. The system message of [build_llm_messages] is the system
    prompt of the template the classifier picks for the user text.
    When the telemetry call raises, or returns the empty string, the
    prompt is used as it is: the failure is not passed on.  When it
    returns a text, the text follows the prompt after the telemetry
    heading. *)
Theorem build_llm_messages_system_message (U : Unicode)
    (self : Context.ContextManager)
    (env : Context.Ambient) (cid text : string) (src dst : option string) :
  exists rest,
    fst (Context.build_llm_messages self env cid text src dst)
    = {| PromptEngine.role := "system";
         PromptEngine.content :=
           match Context.telemetry_outcome env with
           | Ok (String c t) =>
               PromptEngine.get_system_prompt (PromptEngine.classify_query text)
               +:+ PromptEngine.nl +:+ PromptEngine.nl +:+ "---" +:+ PromptEngine.nl
               +:+ "**Current Network Telemetry Context**:" +:+ PromptEngine.nl
               +:+ String c t
           | Ok EmptyString | Err _ =>
               PromptEngine.get_system_prompt (PromptEngine.classify_query text)
           end |}
      :: rest.
Proof.
  unfold Context.build_llm_messages.
  destruct (Context.get_conversation self cid) as [conv |];
    cbn [fst snd Context.create_conversation Context.add_message];
    unfold PromptEngine.build_messages; cbn [app];
    destruct (Context.telemetry_outcome env) as [[| c t] | e]; cbn [str_truthy];
    match goal with
    | |- context [match ?h with [] => _ | _ :: _ => _ end] => destruct h
    end; by eexists.
Qed.

(** ** The prompt engine *)

Section PromptMore.
Import PromptEngine PyText.
Context {U : Unicode}.

Lemma lower_ascii_idem (c : ascii) : lower_ascii (lower_ascii c) = lower_ascii c.
Proof. destruct c as [[] [] [] [] [] [] [] []]; reflexivity. Qed.

Lemma lower_upper_ascii (c : ascii) : lower_ascii (upper_ascii c) = lower_ascii c.
Proof. destruct c as [[] [] [] [] [] [] [] []]; reflexivity. Qed.

Lemma is_ascii_lower_ascii (c : ascii) : is_ascii (lower_ascii c) = is_ascii c.
Proof. destruct c as [[] [] [] [] [] [] [] []]; reflexivity. Qed.

Lemma is_ascii_upper_ascii (c : ascii) : is_ascii (upper_ascii c) = is_ascii c.
Proof. destruct c as [[] [] [] [] [] [] [] []]; reflexivity. Qed.

Lemma map_units_ascii_text (f : ascii -> ascii) (s : string) :
  (forall c, is_ascii (f c) = is_ascii c) ->
  ascii_text (map_units f s) = ascii_text s.
Proof.
  intros Hf. unfold ascii_text.
  induction s as [| c s IH]; [done |].
  cbn [map_units all_units]. by rewrite Hf, IH.
Qed.

Lemma map_units_lower_after (f : ascii -> ascii) (s : string) :
  (forall c, lower_ascii (f c) = lower_ascii c) ->
  map_units lower_ascii (map_units f s) = map_units lower_ascii s.
Proof.
  intros Hf. induction s as [| c s IH]; [done |].
  cbn [map_units]. by rewrite Hf, IH.
Qed.

(** On a text of ASCII characters, lower-casing twice is lower-casing
    once, and lower-casing the upper-cased text is lower-casing the
    text. *)
Lemma lower_idem (s : string) : ascii_text s = true -> lower (lower s) = lower s.
Proof.
  intros Hs. unfold lower at 2 3. rewrite !lower_from_ascii by done.
  unfold lower. rewrite lower_from_ascii.
  - apply map_units_lower_after, lower_ascii_idem.
  - by rewrite (map_units_ascii_text _ _ is_ascii_lower_ascii).
Qed.

Lemma lower_upper (s : string) : ascii_text s = true -> lower (upper s) = lower s.
Proof.
  intros Hs. unfold upper, lower at 2. rewrite upper_from_ascii by done.
  rewrite lower_from_ascii by done.
  unfold lower. rewrite lower_from_ascii.
  - apply map_units_lower_after, lower_upper_ascii.
  - by rewrite (map_units_ascii_text _ _ is_ascii_upper_ascii).
Qed.

Lemma any_in_mentions (kws : list string) (text : string) :
  any_in kws (lower text) = true <-> Keywords.mentions kws text.
Proof.
  unfold any_in, Keywords.mentions. rewrite existsb_exists.
  split; intros (kw & Hin & Hocc); exists kw; (split; [exact Hin |]);
    by apply contains_occurs.
Qed.

Lemma any_in_not_mentions (kws : list string) (text : string) :
  any_in kws (lower text) = false <-> ~ Keywords.mentions kws text.
Proof.
  rewrite <- any_in_mentions. by destruct (any_in kws (lower text)).
Qed.

(** The classifier yields one of four keys. *)
Lemma classify_query_range (text : string) :
  classify_query text = "anomaly_explanation"
  \/ classify_query text = "remediation"
  \/ classify_query text = "telemetry_analysis"
  \/ classify_query text = "general_diagnostics".
Proof.
  unfold classify_query.
  repeat match goal with
         | |- context [any_in ?kws ?s] => destruct (any_in kws s)
         end; auto.
Qed.

End PromptMore.

(** X10. On a text of ASCII characters the classification does not
    depend on the case of the letters: lower-casing or upper-casing
    the text leaves the result unchanged. *)
Theorem classify_query_case_insensitive (U : Unicode) (text : string) :
  ascii_text text = true ->
  PromptEngine.classify_query (lower text) = PromptEngine.classify_query text
  /\ PromptEngine.classify_query (PyText.upper text)
     = PromptEngine.classify_query text.
Proof.
  intros Hascii. unfold PromptEngine.classify_query.
  by rewrite lower_idem, lower_upper.
Qed.

Lemma classify_query_case_insensitive_witness :
  PromptEngine.classify_query (U := caseless)
    (PyText.upper (U := caseless) "Why is the latency so strange?")
  = PromptEngine.classify_query (U := caseless) "Why is the latency so strange?".
Proof.
  destruct (classify_query_case_insensitive caseless
              "Why is the latency so strange?" eq_refl) as [_ Hupper].
  exact Hupper.
Defined.

(** Beyond ASCII the database decides: a text that spells "spike" with
    a Kelvin sign holds no keyword as it stands and is classified as an
    anomaly question, because lower-casing turns the sign into k. *)
Example classify_query_kelvin_sign :
  any_in Keywords.ANOMALY ("SPI" +:+ kelvin_sign +:+ "E in latency") = false
  /\ lower (U := with_kelvin) ("SPI" +:+ kelvin_sign +:+ "E in latency")
     = "spike in latency"
  /\ PromptEngine.classify_query (U := with_kelvin)
       ("SPI" +:+ kelvin_sign +:+ "E in latency")
     = "anomaly_explanation".
Proof. vm_compute. repeat split; reflexivity. Qed.

(** X11. The key the classifier returns is always a key of
    [TEMPLATES], so [get_system_prompt] on it returns that template's
    system prompt and never takes its fallback for unknown names. *)
Theorem classify_query_known_template (U : Unicode)
    (text : string) :
  exists template,
    PromptEngine.TEMPLATES !! PromptEngine.classify_query text = Some template
    /\ PromptEngine.get_system_prompt (PromptEngine.classify_query text)
       = PromptEngine.system_prompt template.
Proof.
  unfold PromptEngine.get_system_prompt.
  destruct (classify_query_range text) as [-> | [-> | [-> | ->]]];
    eexists; split; reflexivity.
Qed.

(** X12. What each result of the classifier means in terms of the
    keywords that occur in the lower-cased text: an anomaly keyword
    gives the anomaly template whatever else occurs; a remediation
    keyword gives the remediation template only when no anomaly
    keyword occurs; a telemetry keyword gives the telemetry template
    only when neither of the other kinds occurs; and the general
    template is the result exactly when no keyword occurs. *)
Theorem classify_query_outcomes (U : Unicode)
    (text : string) :
  (PromptEngine.classify_query text = "anomaly_explanation"
   <-> Keywords.mentions Keywords.ANOMALY text)
  /\ (PromptEngine.classify_query text = "remediation"
      <-> ~ Keywords.mentions Keywords.ANOMALY text
          /\ Keywords.mentions Keywords.REMEDIATION text)
  /\ (PromptEngine.classify_query text = "telemetry_analysis"
      <-> ~ Keywords.mentions Keywords.ANOMALY text
          /\ ~ Keywords.mentions Keywords.REMEDIATION text
          /\ Keywords.mentions Keywords.TELEMETRY text)
  /\ (PromptEngine.classify_query text = "general_diagnostics"
      <-> ~ Keywords.mentions Keywords.ANOMALY text
          /\ ~ Keywords.mentions Keywords.REMEDIATION text
          /\ ~ Keywords.mentions Keywords.TELEMETRY text).
Proof.
  rewrite <- !any_in_not_mentions, <- !any_in_mentions.
  unfold PromptEngine.classify_query, Keywords.ANOMALY, Keywords.REMEDIATION,
    Keywords.TELEMETRY.
  repeat match goal with
         | |- context [any_in ?kws ?s] => destruct (any_in kws s)
         end;
    repeat split; intros; try done; try tauto;
    repeat match goal with H : _ /\ _ |- _ => destruct H end; done.
Qed.

(** ** The anomaly detector *)

Section DetectionMore.
Import Perfsonar Anomaly.
Context {rt : Runtime}.

(** What [scan] returns: the anomalies it started with, then those the
    check reports for the samples, in sample order. *)
Lemma scan_found (P : PerfSONARMeasurement -> Anomaly -> Prop)
    (check : PerfSONARMeasurement -> Result (option Anomaly))
    (recent : list PerfSONARMeasurement) (acc out : list Anomaly) :
  (forall m a, check m = Ok (Some a) -> P m a) ->
  scan check recent acc = Ok out ->
  exists found pairs,
    out = acc ++ found
    /\ found = map snd pairs
    /\ map fst pairs `sublist_of` recent
    /\ Forall (fun pair => P (fst pair) (snd pair)) pairs.
Proof.
  intros Hcheck. revert acc.
  induction recent as [| m rest IH]; intros acc Hscan; cbn [scan] in Hscan.
  - injection Hscan as <-. exists [], []. by rewrite app_nil_r.
  - destruct (check m) as [[a |] | e] eqn:Hm; cbn in Hscan; [| | done].
    + destruct (IH _ Hscan) as (found & pairs & -> & -> & Hsub & Hall).
      exists (a :: map snd pairs), ((m, a) :: pairs).
      split; [by rewrite <- app_assoc |]. split; [done |].
      split; [by constructor |].
      constructor; [by apply Hcheck | exact Hall].
    + destruct (IH _ Hscan) as (found & pairs & -> & -> & Hsub & Hall).
      exists (map snd pairs), pairs.
      split; [done |]. split; [done |]. split; [by constructor | exact Hall].
Qed.

(** What an anomaly reported for a throughput sample looks like. *)
Lemma throughput_check_reports (mean_val stdev_val pct : float) (src dst : string)
    (m : PerfSONARMeasurement) (a : Anomaly) :
  throughput_check mean_val stdev_val pct src dst m = Ok (Some a) ->
  anomaly_type a = THROUGHPUT_DROP /\ a_unit a = "Gbps"
  /\ detected_at a = timestamp m
  /\ a_source a = str_or src (source m)
  /\ a_destination a = str_or dst (destination m).
Proof.
  unfold throughput_check.
  match goal with |- context [if ?c then _ else Ok None] => destruct c end;
    [| done].
  match goal with |- context [_classify_severity ?d [?x; ?y; ?z]] =>
    destruct (classify_severity_total d x y z) as [sev ->] end.
  cbn. intros [= <-]. done.
Qed.

Lemma latency_check_reports (mean_val stdev_val pct : float) (src dst : string)
    (m : PerfSONARMeasurement) (a : Anomaly) :
  latency_check mean_val stdev_val pct src dst m = Ok (Some a) ->
  anomaly_type a = LATENCY_SPIKE /\ a_unit a = "ms"
  /\ detected_at a = timestamp m
  /\ a_source a = str_or src (source m)
  /\ a_destination a = str_or dst (destination m).
Proof.
  unfold latency_check.
  match goal with |- context [if ?c then _ else Ok None] => destruct c end;
    [| done].
  match goal with |- context [_classify_severity ?d [?x; ?y; ?z]] =>
    destruct (classify_severity_total d x y z) as [sev ->] end.
  cbn. intros [= <-]. done.
Qed.

Lemma recent_at_most_ten {A : Type} (l : list A) :
  slice_from (-10) l = drop (length l - 10) l
  /\ (length (slice_from (-10) l) <= 10)%nat.
Proof.
  rewrite slice_from_neg by lia. split; [done |].
  rewrite length_drop. change (Z.to_nat (- -10)) with 10%nat. lia.
Qed.

(** The output of a detector, as pairs of a sample among the last ten
    and the anomaly reported for it. *)
Lemma detect_throughput_pairs (self : AnomalyDetector)
    (ms : list PerfSONARMeasurement) (src dst : string) (out : list Anomaly) :
  detect_throughput_anomalies self ms src dst = Ok out ->
  exists pairs,
    out = map snd pairs
    /\ map fst pairs `sublist_of` drop (length ms - 10) ms
    /\ Forall (fun pair =>
         anomaly_type (snd pair) = THROUGHPUT_DROP /\ a_unit (snd pair) = "Gbps"
         /\ detected_at (snd pair) = timestamp (fst pair)
         /\ a_source (snd pair) = str_or src (source (fst pair))
         /\ a_destination (snd pair) = str_or dst (destination (fst pair))) pairs.
Proof.
  unfold detect_throughput_anomalies, getitem.
  destruct (length ms <? 5)%nat.
  { intros [= <-]. exists []. split; [done |]. split; [apply sublist_nil_l | done]. }
  destruct (mean (map value ms)) as [mean_val | e]; [| done].
  cbn [mbind Result_bind].
  match goal with
  | |- context [(if ?c then stdev ?v else Ok ?z) ≫= _] =>
      destruct (if c then stdev v else Ok z) as [stdev_val | e]; [| done]
  end.
  cbn [mbind Result_bind].
  destruct (thresholds self !! "throughput_drop_pct") as [pct |]; [| done].
  cbn [mbind Result_bind]. intros Hscan.
  eapply scan_found in Hscan as (found & pairs & -> & -> & Hsub & Hall);
    [| intros m a Hm; exact (throughput_check_reports _ _ _ _ _ _ _ Hm)].
  exists pairs. split; [done |]. split; [| exact Hall].
  by rewrite <- (proj1 (recent_at_most_ten ms)).
Qed.

Lemma detect_latency_pairs (self : AnomalyDetector)
    (ms : list PerfSONARMeasurement) (src dst : string) (out : list Anomaly) :
  detect_latency_anomalies self ms src dst = Ok out ->
  exists pairs,
    out = map snd pairs
    /\ map fst pairs `sublist_of` drop (length ms - 10) ms
    /\ Forall (fun pair =>
         anomaly_type (snd pair) = LATENCY_SPIKE /\ a_unit (snd pair) = "ms"
         /\ detected_at (snd pair) = timestamp (fst pair)
         /\ a_source (snd pair) = str_or src (source (fst pair))
         /\ a_destination (snd pair) = str_or dst (destination (fst pair))) pairs.
Proof.
  unfold detect_latency_anomalies, getitem.
  destruct (length ms <? 5)%nat.
  { intros [= <-]. exists []. split; [done |]. split; [apply sublist_nil_l | done]. }
  destruct (mean (map value ms)) as [mean_val | e]; [| done].
  cbn [mbind Result_bind].
  match goal with
  | |- context [(if ?c then stdev ?v else Ok ?z) ≫= _] =>
      destruct (if c then stdev v else Ok z) as [stdev_val | e]; [| done]
  end.
  cbn [mbind Result_bind].
  destruct (thresholds self !! "latency_spike_pct") as [pct |]; [| done].
  cbn [mbind Result_bind]. intros Hscan.
  eapply scan_found in Hscan as (found & pairs & -> & -> & Hsub & Hall);
    [| intros m a Hm; exact (latency_check_reports _ _ _ _ _ _ _ Hm)].
  exists pairs. split; [done |]. split; [| exact Hall].
  by rewrite <- (proj1 (recent_at_most_ten ms)).
Qed.

(** A detector given at least five samples and thresholds without
    its key does not get past the lookup: it raises what the
    statistics raise, and [KeyError] when they return. *)
Lemma detect_throughput_no_key (self : AnomalyDetector)
    (ms : list PerfSONARMeasurement) (src dst : string) :
  (5 <= length ms)%nat ->
  thresholds self !! "throughput_drop_pct" = None ->
  exists e,
    detect_throughput_anomalies self ms src dst = Err e
    /\ (statistics_return ms -> e = KeyError "throughput_drop_pct").
Proof.
  intros Hlong Hmissing. unfold detect_throughput_anomalies, getitem.
  destruct (Nat.ltb_spec (length ms) 5) as [Hshort | _]; [lia |].
  rewrite Hmissing, length_map.
  destruct (Nat.ltb_spec 1 (length ms)) as [_ | Hone]; [| lia].
  destruct (mean (map value ms)) as [mean_val | e] eqn:Hmean;
    cbn [mbind Result_bind].
  - destruct (stdev (map value ms)) as [stdev_val | e] eqn:Hstdev;
      cbn [mbind Result_bind]; eexists; (split; [reflexivity |]).
    + by intros _.
    + intros [_ [stdev_val Hsome]]. congruence.
  - eexists. split; [reflexivity |]. intros [[mean_val Hsome] _]. congruence.
Qed.

Lemma detect_latency_no_key (self : AnomalyDetector)
    (ms : list PerfSONARMeasurement) (src dst : string) :
  (5 <= length ms)%nat ->
  thresholds self !! "latency_spike_pct" = None ->
  exists e,
    detect_latency_anomalies self ms src dst = Err e
    /\ (statistics_return ms -> e = KeyError "latency_spike_pct").
Proof.
  intros Hlong Hmissing. unfold detect_latency_anomalies, getitem.
  destruct (Nat.ltb_spec (length ms) 5) as [Hshort | _]; [lia |].
  rewrite Hmissing, length_map.
  destruct (Nat.ltb_spec 1 (length ms)) as [_ | Hone]; [| lia].
  destruct (mean (map value ms)) as [mean_val | e] eqn:Hmean;
    cbn [mbind Result_bind].
  - destruct (stdev (map value ms)) as [stdev_val | e] eqn:Hstdev;
      cbn [mbind Result_bind]; eexists; (split; [reflexivity |]).
    + by intros _.
    + intros [_ [stdev_val Hsome]]. congruence.
  - eexists. split; [reflexivity |]. intros [[mean_val Hsome] _]. congruence.
Qed.

Lemma sublist_map {A B : Type} (f : A -> B) (l1 l2 : list A) :
  l1 `sublist_of` l2 -> map f l1 `sublist_of` map f l2.
Proof. induction 1; cbn; by constructor. Qed.

(** From the pairs: at most ten anomalies, and their times of
    detection are times of the last ten samples, in sample order. *)
Lemma pairs_bounded (ms : list PerfSONARMeasurement)
    (pairs : list (PerfSONARMeasurement * Anomaly)) :
  map fst pairs `sublist_of` drop (length ms - 10) ms ->
  Forall (fun pair => detected_at (snd pair) = timestamp (fst pair)) pairs ->
  (length (map snd pairs) <= 10)%nat
  /\ map detected_at (map snd pairs)
     `sublist_of` map timestamp (drop (length ms - 10) ms).
Proof.
  intros Hsub Hall. split.
  - apply sublist_length in Hsub. rewrite length_map in Hsub.
    rewrite length_map. rewrite length_drop in Hsub. lia.
  - replace (map detected_at (map snd pairs)) with (map timestamp (map fst pairs)).
    + by apply sublist_map.
    + rewrite !map_map. apply map_ext_Forall.
      eapply Forall_impl; [exact Hall |]. intros pair Hpair. by rewrite Hpair.
Qed.

End DetectionMore.

(** X13. A detector looks at the last ten samples only: it reports at
    most ten anomalies, and their detection times are sample times of
    the last ten samples, in the order of the samples.  [detect_all]
    therefore reports at most twenty. *)
Theorem detect_reports_recent (rt : Anomaly.Runtime) (self : Anomaly.AnomalyDetector)
    (throughput_data latency_data : list Perfsonar.PerfSONARMeasurement)
    (src dst : string) :
  (forall out,
     Anomaly.detect_throughput_anomalies self throughput_data src dst = Ok out ->
     (length out <= 10)%nat
     /\ map Anomaly.detected_at out
        `sublist_of` map Perfsonar.timestamp
                       (drop (length throughput_data - 10) throughput_data))
  /\ (forall out,
        Anomaly.detect_latency_anomalies self latency_data src dst = Ok out ->
        (length out <= 10)%nat
        /\ map Anomaly.detected_at out
           `sublist_of` map Perfsonar.timestamp
                          (drop (length latency_data - 10) latency_data))
  /\ (forall out,
        Anomaly.detect_all self throughput_data latency_data src dst = Ok out ->
        (length out <= 20)%nat).
Proof.
  assert (Hthr : forall out,
     Anomaly.detect_throughput_anomalies self throughput_data src dst = Ok out ->
     (length out <= 10)%nat
     /\ map Anomaly.detected_at out
        `sublist_of` map Perfsonar.timestamp
                       (drop (length throughput_data - 10) throughput_data)).
  { intros out Hout.
    destruct (detect_throughput_pairs _ _ _ _ _ Hout) as (pairs & -> & Hsub & Hall).
    apply pairs_bounded; [exact Hsub |].
    eapply Forall_impl; [exact Hall |]. by intros pair (_ & _ & Htime & _). }
  assert (Hlat : forall out,
     Anomaly.detect_latency_anomalies self latency_data src dst = Ok out ->
     (length out <= 10)%nat
     /\ map Anomaly.detected_at out
        `sublist_of` map Perfsonar.timestamp
                       (drop (length latency_data - 10) latency_data)).
  { intros out Hout.
    destruct (detect_latency_pairs _ _ _ _ _ Hout) as (pairs & -> & Hsub & Hall).
    apply pairs_bounded; [exact Hsub |].
    eapply Forall_impl; [exact Hall |]. by intros pair (_ & _ & Htime & _). }
  split; [exact Hthr |]. split; [exact Hlat |].
  intros out Hout. unfold Anomaly.detect_all in Hout.
  destruct (Anomaly.detect_throughput_anomalies self throughput_data src dst)
    as [a | e] eqn:Ha; [| done].
  destruct (Anomaly.detect_latency_anomalies self latency_data src dst)
    as [b | e] eqn:Hb; [| done].
  cbn in Hout. injection Hout as <-.
  match goal with |- context [foldr (insert_by ?key) [] ?l] =>
    change (foldr (insert_by key) [] l) with (sort_by key l);
    rewrite (Permutation_length (sort_by_Permutation key l)) end.
  rewrite length_app.
  destruct (Hthr a eq_refl) as [Hla _]. destruct (Hlat b eq_refl) as [Hlb _]. lia.
Qed.

Lemma detect_reports_recent_witness :
  exists out,
    Anomaly.detect_all (rt := Anomaly.sample_runtime) (Anomaly.init None)
      Anomaly.recent_throughput Anomaly.recent_latency "" "" = Ok out
    /\ (length out <= 20)%nat.
Proof.
  destruct (detect_reports_recent Anomaly.sample_runtime (Anomaly.init None)
              Anomaly.recent_throughput Anomaly.recent_latency "" "")
    as (_ & _ & Hall).
  eexists. split; [vm_compute; reflexivity |].
  apply Hall. vm_compute. reflexivity.
Defined.

(** X14. Every anomaly of the throughput detector is a throughput drop
    in Gbps and every anomaly of the latency detector a latency spike
    in ms; when the caller passes a non-empty source or destination,
    the anomalies carry it instead of the endpoints of the samples. *)
Theorem detect_labels (rt : Anomaly.Runtime) (self : Anomaly.AnomalyDetector)
    (ms : list Perfsonar.PerfSONARMeasurement) (src dst : string) :
  (forall out,
     Anomaly.detect_throughput_anomalies self ms src dst = Ok out ->
     Forall (fun a => Anomaly.anomaly_type a = Anomaly.THROUGHPUT_DROP
                      /\ Anomaly.a_unit a = "Gbps"
                      /\ (src <> "" -> Anomaly.a_source a = src)
                      /\ (dst <> "" -> Anomaly.a_destination a = dst)) out)
  /\ (forall out,
        Anomaly.detect_latency_anomalies self ms src dst = Ok out ->
        Forall (fun a => Anomaly.anomaly_type a = Anomaly.LATENCY_SPIKE
                         /\ Anomaly.a_unit a = "ms"
                         /\ (src <> "" -> Anomaly.a_source a = src)
                         /\ (dst <> "" -> Anomaly.a_destination a = dst)) out).
Proof.
  assert (Hor : forall given fallback : string,
            given <> "" -> str_or given fallback = given).
  { intros given fallback Hne. by destruct given. }
  split; intros out Hout.
  - destruct (detect_throughput_pairs _ _ _ _ _ Hout) as (pairs & -> & _ & Hall).
    apply Forall_fmap. eapply Forall_impl; [exact Hall |].
    intros pair (Htype & Hunit & _ & Hsrc & Hdst). cbn.
    repeat split; [done | done | |]; intros Hne; by rewrite ?Hsrc, ?Hdst, Hor.
  - destruct (detect_latency_pairs _ _ _ _ _ Hout) as (pairs & -> & _ & Hall).
    apply Forall_fmap. eapply Forall_impl; [exact Hall |].
    intros pair (Htype & Hunit & _ & Hsrc & Hdst). cbn.
    repeat split; [done | done | |]; intros Hne; by rewrite ?Hsrc, ?Hdst, Hor.
Qed.

Lemma detect_labels_witness :
  exists out,
    Anomaly.detect_throughput_anomalies (rt := Anomaly.sample_runtime)
      (Anomaly.init None) Anomaly.recent_throughput "sdsc" "" = Ok out
    /\ Forall (fun a => Anomaly.a_source a = "sdsc") out.
Proof.
  destruct (detect_labels Anomaly.sample_runtime (Anomaly.init None)
              Anomaly.recent_throughput "sdsc" "") as [Hthr _].
  eexists. split; [vm_compute; reflexivity |].
  eapply Forall_impl; [apply Hthr; vm_compute; reflexivity |].
  intros a (_ & _ & Hsrc & _). by apply Hsrc.
Defined.

(** X15. With at least five throughput samples and thresholds that
    lack the key "throughput_drop_pct", the throughput detector returns
    no list: it raises, and what it raises is [KeyError] for that key
    whenever the two statistics return on the samples (otherwise it is
    the error of the statistics, which are computed first).
    [detect_all] raises the same error, whatever the latency samples
    are: the latency detector is not reached. *)
Theorem detect_missing_threshold (rt : Anomaly.Runtime)
    (self : Anomaly.AnomalyDetector)
    (throughput_data latency_data : list Perfsonar.PerfSONARMeasurement)
    (src dst : string) :
  (5 <= length throughput_data)%nat ->
  Anomaly.thresholds self !! "throughput_drop_pct" = None ->
  exists e,
    Anomaly.detect_throughput_anomalies self throughput_data src dst = Err e
    /\ Anomaly.detect_all self throughput_data latency_data src dst = Err e
    /\ (Anomaly.statistics_return throughput_data ->
        e = KeyError "throughput_drop_pct").
Proof.
  intros Hlong Hmissing.
  destruct (detect_throughput_no_key self throughput_data src dst Hlong Hmissing)
    as (e & Hthr & Hkey).
  exists e. split; [exact Hthr |]. split; [| exact Hkey].
  unfold Anomaly.detect_all. by rewrite Hthr.
Qed.

Lemma detect_missing_threshold_witness :
  Anomaly.detect_all (rt := Anomaly.sample_runtime)
    {| Anomaly.thresholds := <["latency_spike_pct" := 50%float]> ∅ |}
    Anomaly.recent_throughput [] "" ""
  = Err (KeyError "throughput_drop_pct").
Proof.
  destruct (detect_missing_threshold Anomaly.sample_runtime
              {| Anomaly.thresholds := <["latency_spike_pct" := 50%float]> ∅ |}
              Anomaly.recent_throughput [] "" "")
    as (e & _ & Hall & Hkey).
  - cbn. lia.
  - reflexivity.
  - rewrite Hall. f_equal. apply Hkey.
    split; eexists; vm_compute; reflexivity.
Defined.

(** When a sample is not finite the deviation raises before the
    thresholds are read, so the missing key goes unnoticed. *)
Example detect_missing_threshold_not_reached :
  Anomaly.detect_throughput_anomalies (rt := Anomaly.sample_runtime)
    {| Anomaly.thresholds := ∅ |}
    [ Anomaly.sample 0 9%float; Anomaly.sample 1 9%float;
      Anomaly.sample 2 infinity; Anomaly.sample 3 9%float;
      Anomaly.sample 4 9%float ] "" ""
  = Err (AttributeError "'float' object has no attribute 'numerator'").
Proof. vm_compute. reflexivity. Qed.

(** X16. Custom thresholds replace the defaults as a whole: a
    non-empty dict is kept as given, so with one that does not set
    "latency_spike_pct" the latency detector returns no list on any
    input of at least five samples; whenever the two statistics return
    on the samples it raises [KeyError] for that key instead of falling
    back to the default value. *)
Theorem partial_thresholds_not_merged (rt : Anomaly.Runtime)
    (given : gmap string float) (ms : list Perfsonar.PerfSONARMeasurement)
    (src dst : string) :
  given <> ∅ ->
  given !! "latency_spike_pct" = None ->
  (5 <= length ms)%nat ->
  Anomaly.thresholds (Anomaly.init (Some given)) = given
  /\ exists e,
       Anomaly.detect_latency_anomalies (Anomaly.init (Some given)) ms src dst
       = Err e
       /\ (Anomaly.statistics_return ms -> e = KeyError "latency_spike_pct").
Proof.
  intros Hnonempty Hmissing Hlong.
  assert (Hkept : Anomaly.init (Some given) = {| Anomaly.thresholds := given |}).
  { unfold Anomaly.init. destruct (decide (size given = 0%nat)) as [Hzero | _]; [| done].
    by apply map_size_empty_iff in Hzero. }
  rewrite Hkept. split; [done |].
  by apply detect_latency_no_key.
Qed.

Lemma partial_thresholds_not_merged_witness :
  Anomaly.detect_latency_anomalies (rt := Anomaly.sample_runtime)
    (Anomaly.init (Some (<["throughput_drop_pct" := 30%float]> ∅)))
    Anomaly.recent_latency "" ""
  = Err (KeyError "latency_spike_pct").
Proof.
  destruct (partial_thresholds_not_merged Anomaly.sample_runtime
              (<["throughput_drop_pct" := 30%float]> ∅) Anomaly.recent_latency "" "")
    as (_ & e & Hlat & Hkey).
  - intros Hempty.
    apply (f_equal (fun m => m !! "throughput_drop_pct")) in Hempty.
    vm_compute in Hempty. discriminate.
  - reflexivity.
  - cbn. lia.
  - rewrite Hlat. f_equal. apply Hkey.
    split; eexists; vm_compute; reflexivity.
Defined.

(** X17. [_classify_severity] reads the third threshold first: on a
    list of fewer than three thresholds it raises [IndexError]
    whatever the deviation is, and on a list of at least three it
    returns a severity. *)
Theorem classify_severity_needs_three (deviation : float) (ths : list float) :
  ((length ths < 3)%nat -> Anomaly._classify_severity deviation ths = Err IndexError)
  /\ ((3 <= length ths)%nat ->
      exists sev, Anomaly._classify_severity deviation ths = Ok sev).
Proof.
  unfold Anomaly._classify_severity, list_getitem.
  destruct ths as [| t0 [| t1 [| t2 rest]]]; cbn; split; intros Hlen;
    try lia; try done.
  repeat case_match; by eexists.
Qed.

Lemma classify_severity_needs_three_witness :
  Anomaly._classify_severity 75%float [20%float; 40%float] = Err IndexError.
Proof.
  apply (classify_severity_needs_three 75%float [20%float; 40%float]). cbn. lia.
Defined.

(** ** The route analyzer *)

Section RouteMore.
Import Traceroute PathAnalysis.

Lemma enumerate_snd {A : Type} (l : list A) : map snd (enumerate l) = l.
Proof.
  unfold enumerate.
  change (map snd (imap (fun i x => (id i, x)) l) = l).
  generalize (@id nat). induction l as [| x l IH]; intros g; [done |].
  cbn [imap map snd]. f_equal. apply (IH (g ∘ S)).
Qed.

Lemma enumerate_lookup {A : Type} (l : list A) (i : nat) (x : A) :
  In (i, x) (enumerate l) <-> l !! i = Some x.
Proof.
  rewrite <- list_elem_of_In. unfold enumerate.
  rewrite (elem_of_lookup_imap (fun i x => (i, x))). split.
  - intros (j & y & [= -> ->] & Hy). exact Hy.
  - intros Hx. by exists i, x.
Qed.

Lemma filter_sublist {A : Type} (f : A -> bool) (l : list A) :
  List.filter f l `sublist_of` l.
Proof.
  induction l as [| x l IH]; cbn; [constructor |].
  destruct (f x); by constructor.
Qed.

(** A hop is reported exactly when the test of the loop holds at one
    of its positions. *)
Lemma problematic_hops_In (tr : TracerouteResult) (h : TracerouteHop) :
  In h (problematic_hops tr)
  <-> exists i, hops tr !! i = Some h /\ flagged (hops tr) (i, h) = true.
Proof.
  rewrite problematic_hops_filter, in_map_iff. split.
  - intros ([i h'] & Heq & Hin). cbn in Heq. subst h'.
    apply List.filter_In in Hin as [Hin Hflag].
    exists i. split; [by apply enumerate_lookup | exact Hflag].
  - intros (i & Hi & Hflag). exists (i, h). split; [done |].
    apply List.filter_In. split; [by apply enumerate_lookup | exact Hflag].
Qed.

End RouteMore.

(** X18. The problematic hops are hops of the trace, in path order,
    and every hop that does not respond is among them. *)
Theorem problematic_hops_in_path_order (tr : Traceroute.TracerouteResult) :
  Traceroute.problematic_hops tr `sublist_of` Traceroute.hops tr
  /\ (forall h, In h (Traceroute.hops tr) ->
        Traceroute.is_responding h = false ->
        In h (Traceroute.problematic_hops tr)).
Proof.
  split.
  - rewrite problematic_hops_filter.
    pose proof (sublist_map snd _ _
                  (filter_sublist (Traceroute.flagged (Traceroute.hops tr))
                     (enumerate (Traceroute.hops tr)))) as Hsub.
    by rewrite enumerate_snd in Hsub.
  - intros h Hin Hsilent.
    apply list_elem_of_In, list_elem_of_lookup in Hin as [i Hi].
    apply problematic_hops_In. exists i. split; [exact Hi |].
    unfold Traceroute.flagged. cbn [fst snd]. by rewrite Hsilent.
Qed.

(** X19. Every hop the code reports is problematic by the documented
    rule at its position: it does not respond, or it responds and its
    round-trip time exceeds that of the hop before it by more than
    20 ms.  In particular a responding first hop is never reported. *)
Theorem problematic_hops_sound (tr : Traceroute.TracerouteResult)
    (h : Traceroute.TracerouteHop) :
  In h (Traceroute.problematic_hops tr) ->
  exists i,
    Traceroute.hops tr !! i = Some h
    /\ Traceroute.problematic_by_rule (Traceroute.hops tr) i h = true
    /\ (Traceroute.is_responding h = true -> (0 < i)%nat).
Proof.
  intros Hin. apply problematic_hops_In in Hin as (i & Hi & Hflag).
  exists i. split; [exact Hi |]. split; [by apply flagged_sound |].
  intros Hresp. destruct i as [| i]; [| lia].
  rewrite first_hop_only_by_silence, Hresp in Hflag. done.
Qed.

Lemma problematic_hops_sound_witness :
  exists i,
    Traceroute.hops Traceroute.silent_tail !! i
    = Some {| Traceroute.hop_number := 2; Traceroute.ip_address := "198.17.46.1";
              Traceroute.hostname := None; Traceroute.rtt_ms := None;
              Traceroute.asn := None; Traceroute.location := None;
              Traceroute.is_responding := false |}.
Proof.
  destruct (problematic_hops_sound Traceroute.silent_tail
              {| Traceroute.hop_number := 2; Traceroute.ip_address := "198.17.46.1";
                 Traceroute.hostname := None; Traceroute.rtt_ms := None;
                 Traceroute.asn := None; Traceroute.location := None;
                 Traceroute.is_responding := false |})
    as (i & Hi & _).
  - vm_compute. by left.
  - by exists i.
Defined.

(** X20. On a trace in which no round-trip time is a present zero, the
    problematic hops are exactly the hops that are problematic by the
    documented rule, in path order. *)
Theorem problematic_hops_complete (tr : Traceroute.TracerouteResult) :
  (forall h, In h (Traceroute.hops tr) ->
     Traceroute.rtt_ms h = None \/ opt_float_truthy (Traceroute.rtt_ms h) = true) ->
  Traceroute.problematic_hops tr
  = map snd
      (List.filter
         (fun entry => Traceroute.problematic_by_rule (Traceroute.hops tr)
                         (fst entry) (snd entry))
         (enumerate (Traceroute.hops tr))).
Proof.
  intros Hnonzero. rewrite problematic_hops_filter. f_equal.
  apply List.filter_ext_in. intros [i h] Hin.
  apply enumerate_lookup in Hin.
  apply flagged_complete. intros h' Hh'.
  apply Hnonzero. apply list_elem_of_In.
  apply elem_of_cons in Hh' as [-> | Hh']; [| done].
  by eapply list_elem_of_lookup_2.
Qed.

Lemma problematic_hops_complete_witness :
  Traceroute.problematic_hops Traceroute.silent_tail
  = map snd
      (List.filter
         (fun entry => Traceroute.problematic_by_rule
                         (Traceroute.hops Traceroute.silent_tail)
                         (fst entry) (snd entry))
         (enumerate (Traceroute.hops Traceroute.silent_tail))).
Proof.
  apply problematic_hops_complete.
  intros h [<- | [<- | []]]; [by right | by left].
Defined.

Section PathChangeFacts.
Import Traceroute PathAnalysis.
Context {rt : Anomaly.Runtime}.

Lemma set_truthy_false (s : gset string) : set_truthy s = false <-> s = ∅.
Proof.
  unfold set_truthy. rewrite negb_false_iff. apply bool_decide_eq_true.
Qed.

Lemma mock_hops_length (run : Run) (k : nat) (c : float) (data : list HopData) :
  length (mock_hops run k c data) = length data.
Proof.
  revert k c. induction data as [| [[[ip host] place] number] rest IH];
    intros k c; cbn [mock_hops length]; [done |].
  by rewrite IH.
Qed.

Lemma mock_hops_lookup (run : Run) (k : nat) (c : float) (data : list HopData)
    (j : nat) (h : TracerouteHop) :
  mock_hops run k c data !! j = Some h ->
  hop_number h = Z.of_nat (k + j) + 1
  /\ (is_responding h = true <-> is_Some (rtt_ms h))
  /\ exists ip host place number,
       data !! j = Some (ip, host, place, number) /\ ip_address h = ip.
Proof.
  revert k c j h. induction data as [| [[[ip host] place] number] rest IH];
    intros k c j h Hj; cbn [mock_hops] in Hj; [done |].
  destruct j as [| j].
  - injection Hj as <-. cbn [hop_number is_responding rtt_ms ip_address].
    rewrite Nat.add_0_r. split; [done |]. split.
    + destruct (float_gt (response_draw run k) _).
      * split; [by eexists | done].
      * split; [done | by intros [? ?]].
    + by exists ip, host, place, number.
  - destruct (IH _ _ _ _ Hj) as (Hnum & Hresp & Hdata).
    split; [rewrite Hnum; f_equal; lia |]. split; [exact Hresp | exact Hdata].
Qed.

Lemma compare_loop_mock (runs : nat -> Run) (src dst : string) (k remaining : nat)
    (acc : list TracerouteResult) :
  exists results,
    compare_loop true runs src dst k remaining acc = Ok results
    /\ length results = (length acc + remaining)%nat.
Proof.
  revert k acc. induction remaining as [| remaining IH]; intros k acc;
    cbn [compare_loop].
  - exists acc. split; [done | lia].
  - cbn. destruct (IH (S k) (acc ++ [_mock_traceroute (runs k) src dst]))
      as (results & -> & Hlen).
    exists results. split; [done |]. rewrite length_app in Hlen. cbn in Hlen. lia.
Qed.

End PathChangeFacts.

(** X21. [analyze_path_change] reports no change exactly when every
    address that occurs among the hops of one trace occurs among the
    hops of the other; the hops added are the addresses that occur in
    the new trace and not in the old one, and the hops removed those
    that occur in the old trace and not in the new one.  The order of
    the hops and repeated addresses play no part: traces whose address
    lists are permutations of each other count as unchanged. *)
Theorem analyze_path_change_same_addresses
    (old new : Traceroute.TracerouteResult) :
  (PathAnalysis.path_changed (PathAnalysis.analyze_path_change old new) = false
   <-> forall ip,
         In ip (map Traceroute.ip_address (Traceroute.hops old))
         <-> In ip (map Traceroute.ip_address (Traceroute.hops new)))
  /\ (forall ip,
        ip ∈ PathAnalysis.hops_added (PathAnalysis.analyze_path_change old new)
        <-> In ip (map Traceroute.ip_address (Traceroute.hops new))
            /\ ~ In ip (map Traceroute.ip_address (Traceroute.hops old)))
  /\ (forall ip,
        ip ∈ PathAnalysis.hops_removed (PathAnalysis.analyze_path_change old new)
        <-> In ip (map Traceroute.ip_address (Traceroute.hops old))
            /\ ~ In ip (map Traceroute.ip_address (Traceroute.hops new)))
  /\ (Permutation (map Traceroute.ip_address (Traceroute.hops old))
                  (map Traceroute.ip_address (Traceroute.hops new)) ->
      PathAnalysis.path_changed (PathAnalysis.analyze_path_change old new) = false).
Proof.
  assert (Hset : forall tr ip,
    ip ∈ PathAnalysis.ip_set tr
    <-> In ip (map Traceroute.ip_address (Traceroute.hops tr))).
  { intros tr ip. unfold PathAnalysis.ip_set.
    by rewrite elem_of_list_to_set, list_elem_of_In. }
  assert (Hiff :
    PathAnalysis.path_changed (PathAnalysis.analyze_path_change old new) = false
    <-> forall ip,
          In ip (map Traceroute.ip_address (Traceroute.hops old))
          <-> In ip (map Traceroute.ip_address (Traceroute.hops new))).
  { unfold PathAnalysis.analyze_path_change. cbn [PathAnalysis.path_changed].
    rewrite orb_false_iff, !set_truthy_false.
    setoid_rewrite <- Hset.
    generalize (PathAnalysis.ip_set old), (PathAnalysis.ip_set new).
    intros olds news. split.
    - intros [Hadded Hremoved] ip. split; intros Hip.
      + destruct (decide (ip ∈ news)) as [Hin | Hout]; [done |].
        assert (Hgone : ip ∈ olds ∖ news) by by apply elem_of_difference.
        rewrite Hremoved in Hgone. by apply not_elem_of_empty in Hgone.
      + destruct (decide (ip ∈ olds)) as [Hin | Hout]; [done |].
        assert (Hnew : ip ∈ news ∖ olds) by by apply elem_of_difference.
        rewrite Hadded in Hnew. by apply not_elem_of_empty in Hnew.
    - intros Hsame. split; apply set_eq; intros ip;
        rewrite elem_of_difference; split;
        [ intros [Hin Hout]; by apply Hsame in Hin
        | intros Hip; by apply not_elem_of_empty in Hip
        | intros [Hin Hout]; by apply Hsame in Hin
        | intros Hip; by apply not_elem_of_empty in Hip ]. }
  split; [exact Hiff |].
  split; [| split].
  - intros ip. unfold PathAnalysis.analyze_path_change.
    cbn [PathAnalysis.hops_added]. by rewrite elem_of_difference, !Hset.
  - intros ip. unfold PathAnalysis.analyze_path_change.
    cbn [PathAnalysis.hops_removed]. by rewrite elem_of_difference, !Hset.
  - intros Hperm. apply Hiff. intros ip.
    split; apply Permutation_in; [done | by symmetry].
Qed.

Lemma analyze_path_change_same_addresses_witness :
  PathAnalysis.path_changed
    (PathAnalysis.analyze_path_change (PathAnalysis.two_hops "10.0.0.1" "10.0.0.2")
       (PathAnalysis.two_hops "10.0.0.2" "10.0.0.1"))
  = false
  /\ "10.0.0.9"
     ∈ PathAnalysis.hops_added
         (PathAnalysis.analyze_path_change
            (PathAnalysis.two_hops "10.0.0.1" "10.0.0.2")
            (PathAnalysis.two_hops "10.0.0.1" "10.0.0.9")).
Proof.
  split.
  - destruct (analyze_path_change_same_addresses
                (PathAnalysis.two_hops "10.0.0.1" "10.0.0.2")
                (PathAnalysis.two_hops "10.0.0.2" "10.0.0.1"))
      as (_ & _ & _ & Hperm).
    apply Hperm. cbn. apply perm_swap.
  - destruct (analyze_path_change_same_addresses
                (PathAnalysis.two_hops "10.0.0.1" "10.0.0.2")
                (PathAnalysis.two_hops "10.0.0.1" "10.0.0.9"))
      as (_ & Hadded & _).
    apply Hadded. cbn. split; [by right; left |].
    intros [Hfirst | [Hsecond | []]]; discriminate.
Defined.

(** A rerouted trace: its second hop is reported as added, the one it
    replaced as removed, and the path as changed. *)
Example analyze_path_change_rerouted :
  let change :=
    PathAnalysis.analyze_path_change (PathAnalysis.two_hops "10.0.0.1" "10.0.0.2")
      (PathAnalysis.two_hops "10.0.0.1" "10.0.0.9") in
  PathAnalysis.path_changed change = true
  /\ elements (PathAnalysis.hops_added change) = ["10.0.0.9"]
  /\ elements (PathAnalysis.hops_removed change) = ["10.0.0.2"].
Proof. vm_compute. repeat split; reflexivity. Qed.

(** Comparing in the other direction swaps the roles: the hops
    added from one trace to the other are the hops removed the other
    way, the verdict and the hop counts are mirrored, no added address
    occurs in the old trace, and no removed one in the new trace. *)
Lemma analyze_path_change_swap (old new : Traceroute.TracerouteResult) :
  PathAnalysis.hops_added (PathAnalysis.analyze_path_change old new)
  = PathAnalysis.hops_removed (PathAnalysis.analyze_path_change new old)
  /\ PathAnalysis.path_changed (PathAnalysis.analyze_path_change old new)
     = PathAnalysis.path_changed (PathAnalysis.analyze_path_change new old)
  /\ PathAnalysis.old_hop_count (PathAnalysis.analyze_path_change old new)
     = PathAnalysis.new_hop_count (PathAnalysis.analyze_path_change new old)
  /\ PathAnalysis.hops_added (PathAnalysis.analyze_path_change old new)
     ## PathAnalysis.ip_set old
  /\ PathAnalysis.hops_removed (PathAnalysis.analyze_path_change old new)
     ## PathAnalysis.ip_set new.
Proof.
  unfold PathAnalysis.analyze_path_change. cbn.
  split; [done |]. split; [apply orb_comm |]. split; [done |].
  split; apply elem_of_disjoint; intros ip Hin Hother;
    apply elem_of_difference in Hin; tauto.
Qed.

(** X22. A mock trace has one hop per entry of the topology it is
    built from (the known route between the two endpoints, or else the
    random path), numbered 1, 2, 3, ... in order and carrying the
    entry's address; a hop has a round-trip time exactly when it
    responds; and the trace is marked completed. *)
Theorem mock_traceroute_hops (rt : Anomaly.Runtime) (run : PathAnalysis.Run)
    (src dst : string) :
  Traceroute.completed (PathAnalysis._mock_traceroute run src dst) = true
  /\ Traceroute.hop_count (PathAnalysis._mock_traceroute run src dst)
     = length (default (PathAnalysis.random_path run)
                 (PathAnalysis.MOCK_TOPOLOGY !! (src, dst)))
  /\ (forall k h,
        Traceroute.hops (PathAnalysis._mock_traceroute run src dst) !! k = Some h ->
        Traceroute.hop_number h = Z.of_nat k + 1
        /\ (Traceroute.is_responding h = true <-> is_Some (Traceroute.rtt_ms h))
        /\ exists ip host place number,
             default (PathAnalysis.random_path run)
               (PathAnalysis.MOCK_TOPOLOGY !! (src, dst)) !! k
             = Some (ip, host, place, number)
             /\ Traceroute.ip_address h = ip).
Proof.
  unfold PathAnalysis._mock_traceroute, Traceroute.hop_count.
  cbn [Traceroute.completed Traceroute.hops].
  split; [done |]. split.
  - rewrite mock_hops_length. by destruct (PathAnalysis.MOCK_TOPOLOGY !! (src, dst)).
  - intros k h Hk.
    destruct (PathAnalysis.MOCK_TOPOLOGY !! (src, dst)) as [known |];
      apply mock_hops_lookup in Hk; exact Hk.
Qed.

(** X23. [compare_paths] with the mock enabled returns one trace per
    requested run; a count below 1 gives the empty list, also when the
    mock is disabled; with the mock disabled any count of at least 1
    raises the "integration pending" error. *)
Theorem compare_paths_count (rt : Anomaly.Runtime) (runs : nat -> PathAnalysis.Run)
    (src dst : string) (count : Z) :
  (exists results,
     PathAnalysis.compare_paths true runs src dst count = Ok results
     /\ length results = Z.to_nat count)
  /\ (count <= 0 ->
      PathAnalysis.compare_paths false runs src dst count = Ok [])
  /\ (0 < count ->
      PathAnalysis.compare_paths false runs src dst count
      = Err (RuntimeError "Production traceroute integration pending")).
Proof.
  unfold PathAnalysis.compare_paths. split; [| split].
  - destruct (compare_loop_mock runs src dst 0 (Z.to_nat count) [])
      as (results & Hok & Hlen).
    by exists results.
  - intros Hcount. by replace (Z.to_nat count) with 0%nat by lia.
  - intros Hcount. destruct (Z.to_nat count) as [| n] eqn:Hn; [lia | done].
Qed.

Lemma compare_paths_count_witness :
  PathAnalysis.compare_paths (rt := Anomaly.sample_runtime) false
    (fun _ => PathAnalysis.steady_run) "a" "b" 2
  = Err (RuntimeError "Production traceroute integration pending").
Proof.
  destruct (compare_paths_count Anomaly.sample_runtime
              (fun _ => PathAnalysis.steady_run) "a" "b" 2) as (_ & _ & Hraise).
  apply Hraise. lia.
Defined.

(** ** The telemetry processor *)

Section TelemetryFacts.
Import Perfsonar Anomaly Telemetry.
Context {U : Unicode}.
Context {rt : Runtime} {rd : Rendering}.

(** The status is one of the four labels. *)
Lemma health_status_range (p : NetworkPath) :
  health_status p = "healthy" \/ health_status p = "degraded"
  \/ health_status p = "warning" \/ health_status p = "critical".
Proof.
  unfold health_status.
  repeat match goal with
         | |- context [if ?c then _ else _] => destruct c
         end; auto.
Qed.

Lemma count_status_cons (status : string) (p : NetworkPath)
    (rest : list NetworkPath) :
  count_status status (p :: rest)
  = ((if String.eqb (health_status p) status then 1 else 0)
     + count_status status rest)%nat.
Proof.
  unfold count_status. cbn [List.filter].
  by destruct (String.eqb (health_status p) status).
Qed.

Lemma count_status_total (all_paths : list NetworkPath) :
  (count_status "healthy" all_paths + count_status "degraded" all_paths
   + count_status "warning" all_paths + count_status "critical" all_paths
   = length all_paths)%nat.
Proof.
  induction all_paths as [| p rest IH]; [done |].
  rewrite !count_status_cons. cbn [length].
  destruct (health_status_range p) as [-> | [-> | [-> | ->]]]; cbn; lia.
Qed.

Lemma network_summary_inv (env : Fetched) (summary : Summary) :
  get_network_summary env = Ok summary ->
  exists all_paths,
    network_paths env = Ok all_paths
    /\ total_paths summary = length all_paths
    /\ healthy summary = count_status "healthy" all_paths
    /\ degraded summary = count_status "degraded" all_paths
    /\ warning summary = count_status "warning" all_paths
    /\ critical summary = count_status "critical" all_paths
    /\ paths summary = map path_to_dict all_paths.
Proof.
  unfold get_network_summary.
  destruct (network_paths env) as [all_paths | e]; [| done].
  cbn. intros [= <-]. by exists all_paths.
Qed.

End TelemetryFacts.

(** X24. In a network summary the four status counts add up to the
    number of paths, which is also the number of path entries listed;
    and when the paths cannot be fetched the summary raises the same
    error. *)
Theorem network_summary_counts (rd : Telemetry.Rendering) (env : Telemetry.Fetched) :
  (forall summary,
     Telemetry.get_network_summary env = Ok summary ->
     (Telemetry.healthy summary + Telemetry.degraded summary
      + Telemetry.warning summary + Telemetry.critical summary
      = Telemetry.total_paths summary)%nat
     /\ Telemetry.total_paths summary = length (Telemetry.paths summary))
  /\ (forall e,
        Telemetry.network_paths env = Err e ->
        Telemetry.get_network_summary env = Err e).
Proof.
  split.
  - intros summary Hsummary.
    destruct (network_summary_inv env summary Hsummary)
      as (all_paths & _ & -> & -> & -> & -> & -> & ->).
    split; [apply count_status_total | by rewrite length_map].
  - intros e He. unfold Telemetry.get_network_summary. by rewrite He.
Qed.

Lemma network_summary_counts_witness :
  exists summary,
    Telemetry.get_network_summary (rd := Telemetry.sample_rendering)
      Telemetry.sample_fetch = Ok summary
    /\ (Telemetry.healthy summary + Telemetry.degraded summary
        + Telemetry.warning summary + Telemetry.critical summary
        = Telemetry.total_paths summary)%nat.
Proof.
  destruct (network_summary_counts Telemetry.sample_rendering Telemetry.sample_fetch)
    as [Hcounts _].
  eexists. split; [reflexivity |].
  apply Hcounts. reflexivity.
Defined.

(** X25. The telemetry context is the entries of [lines] joined by
    newlines, and their number is bounded: five
    for the network overview, which is what is produced unless both
    endpoints are given and non-empty; for a path, six entries for the
    path and, when anomalies were detected, one heading and at most
    three anomalies, so never more than ten. *)
Theorem context_lines_bounded (U : Unicode)
    (rt : Anomaly.Runtime) (rd : Telemetry.Rendering)
    (detector : Anomaly.AnomalyDetector) (env : Telemetry.Fetched)
    (src dst : option string) (lines : list string) :
  Telemetry.context_lines detector env src dst = Ok lines ->
  Telemetry.format_telemetry_context detector env src dst
  = Ok (String.concat PromptEngine.nl lines)
  /\ (length lines <= 10)%nat
  /\ (Telemetry.endpoints src dst = None -> length lines = 5%nat)
  /\ (is_Some (Telemetry.endpoints src dst) -> (6 <= length lines)%nat).
Proof.
  intros Hlines. split.
  { unfold Telemetry.format_telemetry_context. by rewrite Hlines. }
  revert Hlines. unfold Telemetry.context_lines.
  destruct (Telemetry.endpoints src dst) as [[s d] |].
  - destruct (Telemetry.path_health env) as [path | e]; [| done].
    destruct (Telemetry.throughput_6h env) as [throughput | e]; [| done].
    destruct (Telemetry.latency_6h env) as [latency | e]; [| done].
    cbn. destruct (Anomaly.detect_all detector throughput latency s d)
      as [[| a anomalies] | e]; [| | done]; cbn; intros [= <-].
    + cbn. split; [lia |]. split; [done | lia].
    + cbn [length]. rewrite length_map, length_take.
      split; [lia |]. split; [done | lia].
  - destruct (Telemetry.get_network_summary env) as [summary | e]; [| done].
    cbn. intros [= <-]. cbn. split; [lia |]. split; [done |]. by intros [? ?].
Qed.

Lemma context_lines_bounded_witness :
  exists lines,
    Telemetry.context_lines (U := caseless) (rt := Anomaly.sample_runtime)
      (rd := Telemetry.sample_rendering) (Anomaly.init None)
      Telemetry.sample_fetch (Some "sdsc") (Some "chi") = Ok lines
    /\ (length lines <= 10)%nat.
Proof.
  eexists. split; [vm_compute; reflexivity |].
  destruct (context_lines_bounded caseless Anomaly.sample_runtime Telemetry.sample_rendering
              (Anomaly.init None) Telemetry.sample_fetch (Some "sdsc") (Some "chi")
              _ ltac:(vm_compute; reflexivity)) as (_ & Hbound & _).
  exact Hbound.
Defined.

(** ** The chat route *)

Section ChatFacts.
Import PromptEngine Context ChatRoute.
Context {U : Unicode}.

(** What [send_message] does up to the model check when the request
    names a stored conversation. *)
Lemma send_message_known (llm : LLMClient) (ctx : ContextManager) (env : Call)
    (request : ChatRequest) (cid : string) :
  conversation_id request = Some cid -> cid <> "" ->
  opt_str_truthy (conversation_id request) = true
  /\ default "" (conversation_id request) = cid.
Proof. intros -> Hne. by destruct cid. Qed.

End ChatFacts.

(** X26. A request without a conversation id (or with the empty one)
    and without a model override, answered by the LLM, on a manager
    whose history bound is at least 2: the response carries the id
    generated for the new conversation and the assistant text, and the
    conversation stored under that id holds exactly the user turn
    followed by the assistant turn. *)
Theorem send_message_new_session (U : Unicode)
    (llm : ChatRoute.LLMClient)
    (ctx : Context.ContextManager) (env : ChatRoute.Call)
    (request : ChatRoute.ChatRequest) (response : ChatRoute.LLMResponse) :
  opt_str_truthy (ChatRoute.conversation_id request) = false ->
  opt_str_truthy (ChatRoute.model request) = false ->
  2 <= Context.max_conversation_history (Context.settings ctx) ->
  llm (fst (Context.build_llm_messages
              (snd (Context.create_conversation ctx (ChatRoute.on_create env)))
              (ChatRoute.on_compose env)
              (Context.uuid4 (ChatRoute.on_create env))
              (ChatRoute.message request)
              (ChatRoute.source request) (ChatRoute.destination request)))
      None
  = ChatRoute.Replied response ->
  exists ctx',
    ChatRoute.send_message (Some llm) (Some ctx) env request
    = (ChatRoute.Return
         {| ChatRoute.cr_conversation_id := Context.uuid4 (ChatRoute.on_create env);
            ChatRoute.cr_message :=
              {| ChatRoute.cm_role := ChatRoute.ASSISTANT;
                 ChatRoute.cm_content := ChatRoute.r_content response;
                 ChatRoute.cm_timestamp := Some (ChatRoute.response_now env) |};
            ChatRoute.cr_model := ChatRoute.r_model response;
            ChatRoute.cr_usage := ChatRoute.r_usage response;
            ChatRoute.cr_network_context := None |},
       Some ctx')
    /\ Context.messages
         <$> Context.get_conversation ctx' (Context.uuid4 (ChatRoute.on_create env))
       = Some [ Context.user_turn (ChatRoute.on_compose env)
                  (ChatRoute.message request);
                Context.assistant_turn (ChatRoute.reply_now env)
                  (ChatRoute.r_content response) ].
Proof.
  intros Hnew Hmodel Hbound Hllm.
  unfold ChatRoute.send_message. rewrite Hnew.
  set (created := Context.create_conversation ctx (ChatRoute.on_create env)) in *.
  assert (Hcreated :
    created
    = ({| Context.id := Context.uuid4 (ChatRoute.on_create env);
          Context.messages := [];
          Context.created_at := Context.created_now (ChatRoute.on_create env);
          Context.network_context := ∅ |}, snd created)) by reflexivity.
  rewrite Hcreated. cbn [Context.id].
  assert (Hfound :
    Context.get_conversation (snd created) (Context.uuid4 (ChatRoute.on_create env))
    = Some {| Context.id := Context.uuid4 (ChatRoute.on_create env);
              Context.messages := [];
              Context.created_at := Context.created_now (ChatRoute.on_create env);
              Context.network_context := ∅ |}).
  { unfold created, Context.create_conversation, Context.get_conversation. cbn.
    apply lookup_insert_eq. }
  pose proof (build_llm_messages_known_store (snd created) (ChatRoute.on_compose env)
                _ (ChatRoute.message request) (ChatRoute.source request)
                (ChatRoute.destination request) _ Hfound) as Hstored.
  destruct (Context.build_llm_messages (snd created) (ChatRoute.on_compose env)
              (Context.uuid4 (ChatRoute.on_create env)) (ChatRoute.message request)
              (ChatRoute.source request) (ChatRoute.destination request))
    as [messages composed] eqn:Hbuild.
  cbn [fst snd] in Hllm, Hstored.
  assert (Hsettings : Context.settings composed = Context.settings ctx).
  { replace composed with
      (snd (Context.build_llm_messages (snd created) (ChatRoute.on_compose env)
              (Context.uuid4 (ChatRoute.on_create env)) (ChatRoute.message request)
              (ChatRoute.source request) (ChatRoute.destination request)))
      by by rewrite Hbuild.
    by rewrite build_llm_messages_settings. }
  assert (Hchecked : opt_str_truthy (ChatRoute.model request) = false ->
    match ChatRoute.model request with
    | Some text =>
        if str_truthy text
        then match ChatRoute.model_of_value text with
             | Some m => ChatRoute.Return (Some m)
             | None =>
                 ChatRoute.Raise
                   {| ChatRoute.status_code := 400;
                      ChatRoute.detail :=
                        "Invalid model: " +:+ text
                        +:+ ". Choose from: ['qwen3-vl', 'glm-4.7', 'gpt-oss']" |}
             end
        else ChatRoute.Return None
    | None => ChatRoute.Return None
    end = ChatRoute.Return None).
  { destruct (ChatRoute.model request) as [text |]; [| done].
    cbn. by intros ->. }
  rewrite (Hchecked Hmodel), Hllm.
  eexists. split; [reflexivity |].
  unfold Context.record_assistant_response. rewrite Hstored, Hsettings.
  cbn [Context.add_message Context.messages app].
  unfold Context.message_count. cbn [Context.messages length].
  destruct (Z.ltb_spec (Context.max_conversation_history (Context.settings ctx))
              (Z.of_nat 2)) as [Hover | _]; [lia |].
  unfold Context.get_conversation. cbn. by rewrite lookup_insert_eq.
Qed.

Lemma send_message_new_session_witness :
  exists reply ctx',
    ChatRoute.send_message (U := caseless) (Some ChatRoute.echo_client) (Some Context.empty_manager)
      ChatRoute.opening_call ChatRoute.opening_request
    = (ChatRoute.Return reply, Some ctx')
    /\ ChatRoute.cr_conversation_id reply = Context.uuid4 Context.first_call.
Proof.
  destruct (send_message_new_session caseless ChatRoute.echo_client Context.empty_manager
              ChatRoute.opening_call ChatRoute.opening_request
              {| ChatRoute.r_content := "All paths are healthy.";
                 ChatRoute.r_model := "qwen3-vl"; ChatRoute.r_usage := ∅;
                 ChatRoute.finish_reason := "stop" |})
    as (ctx' & Hsent & _).
  - reflexivity.
  - reflexivity.
  - vm_compute. discriminate.
  - reflexivity.
  - eexists. exists ctx'. split; [exact Hsent | reflexivity].
Defined.

(** X27. The model override is checked after the composer has run: a
    request on a stored conversation that names an unknown model is
    answered with status 400 without the LLM being called, and the
    user turn stays appended to the conversation. *)
Theorem send_message_invalid_model (U : Unicode)
    (llm : ChatRoute.LLMClient)
    (ctx : Context.ContextManager) (env : ChatRoute.Call)
    (request : ChatRoute.ChatRequest) (cid text : string)
    (conv : Context.Conversation) :
  ChatRoute.conversation_id request = Some cid -> cid <> "" ->
  Context.get_conversation ctx cid = Some conv ->
  ChatRoute.model request = Some text -> text <> "" ->
  ChatRoute.model_of_value text = None ->
  exists ctx',
    ChatRoute.send_message (Some llm) (Some ctx) env request
    = (ChatRoute.Raise
         {| ChatRoute.status_code := 400;
            ChatRoute.detail :=
              "Invalid model: " +:+ text
              +:+ ". Choose from: ['qwen3-vl', 'glm-4.7', 'gpt-oss']" |},
       Some ctx')
    /\ Context.messages <$> Context.get_conversation ctx' cid
       = Some (Context.messages conv
               ++ [Context.user_turn (ChatRoute.on_compose env)
                     (ChatRoute.message request)]).
Proof.
  intros Hcid Hne Hfound Hmodel Htext Hunknown.
  destruct (send_message_known llm ctx env request cid Hcid Hne) as [Htruthy Hid].
  unfold ChatRoute.send_message. rewrite Htruthy, Hid, Hmodel, Hunknown.
  pose proof (build_llm_messages_known_store ctx (ChatRoute.on_compose env) cid
                (ChatRoute.message request) (ChatRoute.source request)
                (ChatRoute.destination request) conv Hfound) as Hstored.
  destruct (Context.build_llm_messages ctx (ChatRoute.on_compose env) cid
              (ChatRoute.message request) (ChatRoute.source request)
              (ChatRoute.destination request)) as [messages composed].
  cbn [snd] in Hstored.
  replace (str_truthy text) with true by by destruct text.
  eexists. split; [reflexivity |]. by rewrite Hstored.
Qed.

Lemma send_message_invalid_model_witness :
  exists ctx',
    ChatRoute.send_message (U := caseless) (Some ChatRoute.echo_client)
      (Some (Context.after_first_call (U := caseless))) ChatRoute.opening_call
      {| ChatRoute.message := "And now?";
         ChatRoute.conversation_id := Some (Context.uuid4 Context.first_call);
         ChatRoute.model := Some "gpt-5"; ChatRoute.source := None;
         ChatRoute.destination := None; ChatRoute.stream := false |}
    = (ChatRoute.Raise
         {| ChatRoute.status_code := 400;
            ChatRoute.detail :=
              "Invalid model: gpt-5. Choose from: ['qwen3-vl', 'glm-4.7', 'gpt-oss']" |},
       Some ctx').
Proof.
  destruct (send_message_invalid_model caseless ChatRoute.echo_client (Context.after_first_call (U := caseless))
              ChatRoute.opening_call
              {| ChatRoute.message := "And now?";
                 ChatRoute.conversation_id := Some (Context.uuid4 Context.first_call);
                 ChatRoute.model := Some "gpt-5"; ChatRoute.source := None;
                 ChatRoute.destination := None; ChatRoute.stream := false |}
              (Context.uuid4 Context.first_call) "gpt-5"
              {| Context.id := "session-42";
                 Context.messages :=
                   [Context.user_turn Context.first_call "Is the Chicago path healthy?"];
                 Context.created_at := 1000;
                 Context.network_context := ∅ |})
    as (ctx' & Hsent & _); try reflexivity; try discriminate.
  by exists ctx'.
Defined.

(** X28. When the LLM call fails on a request for a stored
    conversation without a model override, the route answers with
    status 502 and the text of the failure, and the conversation keeps
    the user turn with no assistant turn after it. *)
Theorem send_message_llm_failure (U : Unicode)
    (llm : ChatRoute.LLMClient)
    (ctx : Context.ContextManager) (env : ChatRoute.Call)
    (request : ChatRoute.ChatRequest) (cid what : string)
    (conv : Context.Conversation) :
  ChatRoute.conversation_id request = Some cid -> cid <> "" ->
  Context.get_conversation ctx cid = Some conv ->
  ChatRoute.model request = None ->
  llm (fst (Context.build_llm_messages ctx (ChatRoute.on_compose env) cid
              (ChatRoute.message request) (ChatRoute.source request)
              (ChatRoute.destination request)))
      None
  = ChatRoute.Failed what ->
  exists ctx',
    ChatRoute.send_message (Some llm) (Some ctx) env request
    = (ChatRoute.Raise
         {| ChatRoute.status_code := 502;
            ChatRoute.detail := "LLM service error: " +:+ what |},
       Some ctx')
    /\ Context.messages <$> Context.get_conversation ctx' cid
       = Some (Context.messages conv
               ++ [Context.user_turn (ChatRoute.on_compose env)
                     (ChatRoute.message request)]).
Proof.
  intros Hcid Hne Hfound Hmodel Hllm.
  destruct (send_message_known llm ctx env request cid Hcid Hne) as [Htruthy Hid].
  unfold ChatRoute.send_message. rewrite Htruthy, Hid, Hmodel.
  pose proof (build_llm_messages_known_store ctx (ChatRoute.on_compose env) cid
                (ChatRoute.message request) (ChatRoute.source request)
                (ChatRoute.destination request) conv Hfound) as Hstored.
  destruct (Context.build_llm_messages ctx (ChatRoute.on_compose env) cid
              (ChatRoute.message request) (ChatRoute.source request)
              (ChatRoute.destination request)) as [messages composed].
  cbn [fst snd] in Hstored, Hllm. rewrite Hllm.
  eexists. split; [reflexivity |]. by rewrite Hstored.
Qed.

Lemma send_message_llm_failure_witness :
  exists ctx',
    ChatRoute.send_message (U := caseless) (Some ChatRoute.down_client)
      (Some (Context.after_first_call (U := caseless))) ChatRoute.opening_call
      {| ChatRoute.message := "And now?";
         ChatRoute.conversation_id := Some (Context.uuid4 Context.first_call);
         ChatRoute.model := None; ChatRoute.source := None;
         ChatRoute.destination := None; ChatRoute.stream := false |}
    = (ChatRoute.Raise
         {| ChatRoute.status_code := 502;
            ChatRoute.detail := "LLM service error: connection refused" |},
       Some ctx').
Proof.
  destruct (send_message_llm_failure caseless ChatRoute.down_client (Context.after_first_call (U := caseless))
              ChatRoute.opening_call
              {| ChatRoute.message := "And now?";
                 ChatRoute.conversation_id := Some (Context.uuid4 Context.first_call);
                 ChatRoute.model := None; ChatRoute.source := None;
                 ChatRoute.destination := None; ChatRoute.stream := false |}
              (Context.uuid4 Context.first_call) "connection refused"
              {| Context.id := "session-42";
                 Context.messages :=
                   [Context.user_turn Context.first_call "Is the Chicago path healthy?"];
                 Context.created_at := 1000;
                 Context.network_context := ∅ |})
    as (ctx' & Hsent & _); try reflexivity; try discriminate.
  by exists ctx'.
Defined.

(** ** Path health *)

(** X29. Packet loss decides first: when the status of a path is
    critical or degraded, every path with the same packet loss has
    that status, whatever its latency and throughput are. *)
Theorem health_status_loss_decides (p q : Perfsonar.NetworkPath) :
  Perfsonar.packet_loss_pct p = Perfsonar.packet_loss_pct q ->
  Perfsonar.health_status p = "critical" \/ Perfsonar.health_status p = "degraded" ->
  Perfsonar.health_status q = Perfsonar.health_status p.
Proof.
  unfold Perfsonar.health_status. intros <-.
  repeat match goal with
         | |- context [if ?c then _ else _] => destruct c
         end; intros [H | H]; done.
Qed.

Lemma health_status_loss_decides_witness :
  Perfsonar.health_status
    (Perfsonar.measured (Some 0%float) (Some 500%float) (Some 2%float))
  = Perfsonar.health_status (Perfsonar.measured None None (Some 2%float)).
Proof.
  apply health_status_loss_decides; [reflexivity | by left].
Defined.

(** X30. On every path whose throughput is missing or is not zero the
    status follows the documented precedence: packet loss above 1.0 is
    critical, else above 0.5 degraded, else latency above 100 or
    throughput below 1.0 is a warning, else the path is healthy; a
    missing value triggers no rule. *)
Theorem health_status_follows_precedence (p : Perfsonar.NetworkPath) :
  Perfsonar.throughput_gbps p = None
  \/ opt_float_truthy (Perfsonar.throughput_gbps p) = true ->
  Perfsonar.health_status p = Perfsonar.precedence_status p.
Proof. intros Hthroughput. by apply health_status_precedence. Qed.

Lemma health_status_follows_precedence_witness :
  Perfsonar.health_status
    (Perfsonar.measured (Some 8%float) (Some 150%float) (Some 0%float))
  = Perfsonar.precedence_status
      (Perfsonar.measured (Some 8%float) (Some 150%float) (Some 0%float)).
Proof.
  apply health_status_follows_precedence. by right.
Defined.
